(** * The shopping cart of script.js

    A shallow embedding of the [Cart] object of [script.js] (the cart kept in
    [localStorage] under the key ['cart']), of the listeners and form helpers
    around it, and of the JavaScript built-ins they call, followed by the
    properties of its operations.

    Conventions of the model.
    - A JavaScript number is a double: [NaN], an infinity, an integer, or a
      fraction in lowest terms.  A term of type [number] is a number of the
      language when it is a double ([Double.is_double]); sums, products and
      the numbers read from texts are rounded to the nearest double, a tie
      going to the even one.  The two zeros are one value: no operation of
      the cart tells them apart.  [parseInt] and [parseFloat] give the double
      nearest to the number they read, whatever the number of its digits.
    - The characters of a string are code units below 256.
    - A property value is a primitive; an item is an object whose own
      properties are a finite map from names to primitives (the order of the
      properties inside one item is not observable by the cart).
    - [JSON.parse], [JSON.stringify] and the string case of [ToNumber] are
      parameters of the development ([platform]). *)

From Stdlib Require Import Ascii QArith Qcanon DecimalString DecimalN DecimalPos.
From stdpp Require Import numbers base strings list sorting gmap.

Local Open Scope string_scope.
Local Open Scope list_scope.
Local Open Scope Z_scope.

(** ** Values *)

Inductive number : Type :=
  | NaN : number
  | Int (z : Z) : number
  | Frac (q : Q) : number      (* not an integer, in lowest terms *)
  | PInf : number              (* Infinity *)
  | NInf : number.             (* -Infinity *)

Inductive value : Type :=
  | VUndefined : value
  | VNull : value
  | VBool (b : bool) : value
  | VNum (n : number) : value
  | VStr (s : string) : value.

#[global] Instance Q_eq_dec : EqDecision Q.
Proof. solve_decision. Defined.

#[global] Instance number_eq_dec : EqDecision number.
Proof. solve_decision. Defined.

#[global] Instance value_eq_dec : EqDecision value.
Proof. solve_decision. Defined.

(** An object: its own properties.  [object] is an abbreviation so that the
    map lemmas apply without unfolding. *)
Abbreviation object := (gmap string value).

(** An element of a decoded array: a primitive, or an object. *)
Inductive element : Type :=
  | Prim (v : value) : element
  | Obj (o : object) : element.

(** What [JSON.parse] may return. *)
Inductive json : Type :=
  | JPrim (v : value) : json
  | JObj (o : object) : json
  | JArr (l : list element) : json.

(** Object literal with the listed properties. *)
Definition obj (l : list (string * value)) : object := list_to_map l.

(** ** Doubles *)

Module Double.

(** [n / d] rounded to the nearest integer, a tie going to the even one
    ([0 <= n], [0 < d]). *)
Definition nearest_even (n d : Z) : Z :=
  let m := n / d in
  let r := n mod d in
  if 2 * r <? d then m
  else if d <? 2 * r then m + 1
  else if Z.even m then m else m + 1.

(** The double nearest to an integer.  Up to 2^53 every integer is a double;
    beyond, 53 bits are kept; from 2^1024 on the result is an infinity. *)
Definition round_Z (z : Z) : number :=
  let a := Z.abs z in
  if a <=? 2 ^ 53 then Int z
  else
    let e := Z.log2 a - 52 in
    let v := nearest_even a (2 ^ e) * 2 ^ e in
    if 2 ^ 1024 <=? v then (if z <? 0 then NInf else PInf)
    else Int (if z <? 0 then - v else v).

(** A rational as a number: an integer when its denominator is 1. *)
Definition of_Q (q : Q) : number :=
  let r := Qred q in
  if (Qden r =? 1)%positive then Int (Qnum r) else Frac r.

(** The double nearest to [n / d] ([0 < n], [0 < d]), with the sign put
    back: [2^e <= n / d < 2^(e+1)], the unit in the last place is [2^u]
    (not below [2^-1074]). *)
Definition round_ratio (n d : Z) (negative : bool) : number :=
  let e0 := Z.log2 n - Z.log2 d in
  let e := if (if 0 <=? e0 then d * 2 ^ e0 <=? n else d <=? n * 2 ^ (- e0))
           then e0 else e0 - 1 in
  let u := Z.max (e - 52) (-1074) in
  if 0 <=? u then
    let v := nearest_even n (d * 2 ^ u) * 2 ^ u in
    if 2 ^ 1024 <=? v then (if negative then NInf else PInf)
    else Int (if negative then - v else v)
  else
    let m := nearest_even (n * 2 ^ (- u)) d in
    of_Q ((if negative then - m else m) # Z.to_pos (2 ^ (- u))).

(** The double nearest to a rational. *)
Definition round (q : Q) : number :=
  let r := Qred q in
  if (Qden r =? 1)%positive then round_Z (Qnum r)
  else
    match Qnum r with
    | Z0 => Int 0
    | Zpos _ => round_ratio (Qnum r) (Zpos (Qden r)) false
    | Zneg _ => round_ratio (- Qnum r) (Zpos (Qden r)) true
    end.

(** The term is a number of the language. *)
Definition is_double (n : number) : bool :=
  match n with
  | Int z => bool_decide (round_Z z = Int z)
  | Frac q => bool_decide (round q = Frac q)
  | NaN | PInf | NInf => true
  end.

(** The value of a finite number. *)
Definition to_Q (n : number) : option Q :=
  match n with
  | Int z => Some (inject_Z z)
  | Frac q => Some q
  | NaN | PInf | NInf => None
  end.

Definition is_zero (n : number) : bool :=
  match n with
  | Int z => z =? 0
  | Frac q => Qnum q =? 0
  | NaN | PInf | NInf => false
  end.

Definition negative (n : number) : bool :=
  match n with
  | Int z => z <? 0
  | Frac q => Qnum q <? 0
  | NInf => true
  | NaN | PInf => false
  end.

(** [a + b] *)
Definition add (a b : number) : number :=
  match a, b with
  | NaN, _ | _, NaN => NaN
  | PInf, NInf | NInf, PInf => NaN
  | PInf, _ | _, PInf => PInf
  | NInf, _ | _, NInf => NInf
  | Int x, Int y => round_Z (x + y)
  | Int x, Frac q => round (inject_Z x + q)
  | Frac p, Int y => round (p + inject_Z y)
  | Frac p, Frac q => round (p + q)
  end.

(** [a * b] *)
Definition mul (a b : number) : number :=
  match a, b with
  | NaN, _ | _, NaN => NaN
  | Int x, Int y => round_Z (x * y)
  | Int x, Frac q => round (inject_Z x * q)
  | Frac p, Int y => round (p * inject_Z y)
  | Frac p, Frac q => round (p * q)
  | _, _ =>
      if is_zero a || is_zero b then NaN
      else if xorb (negative a) (negative b) then NInf else PInf
  end.

(** The digits of an integer double [x > 0]: the integer with the fewest
    significant digits among those that round to [x], the nearest one to [x]
    when there are several.  The multiples of [10^j] next to [x] are tried
    from the largest [j] down. *)
Fixpoint shortest_from (x : Z) (j : nat) : Z :=
  let p := 10 ^ Z.of_nat j in
  let lo := x / p * p in
  let hi := lo + p in
  let ok v := bool_decide (round_Z v = Int x) in
  match ok lo, ok hi with
  | true, true =>
      if 2 * x <? lo + hi then lo
      else if lo + hi <? 2 * x then hi
      else if Z.even (x / p) then lo else hi
  | true, false => lo
  | false, true => hi
  | false, false =>
      match j with
      | O => x
      | S j' => shortest_from x j'
      end
  end.

Definition shortest (x : Z) : Z := shortest_from x (Z.to_nat (Z.log2 x + 1)).

(** [x / 10^t] as a ratio of integers. *)
Definition over_pow10 (x : Q) (t : Z) : Z * Z :=
  if 0 <=? t then (Qnum x, Zpos (Qden x) * 10 ^ t)
  else (Qnum x * 10 ^ (- t), Zpos (Qden x)).

(** [s * 10^t] *)
Definition times_pow10 (s t : Z) : Q :=
  if 0 <=? t then inject_Z (s * 10 ^ t) else s # Z.to_pos (10 ^ (- t)).

(** The digits of a double [x > 0] that is not an integer: [s] and [t] of
    the decimal [s * 10^t] with the fewest digits among those that round to
    [x], the nearest one to [x] when there are several. *)
Fixpoint shortest_decimal_from (x : Q) (t : Z) (fuel : nat) : Z * Z :=
  let '(a, b) := over_pow10 x t in
  let lo := a / b in
  let hi := lo + 1 in
  let ok s := bool_decide (round (times_pow10 s t) = Frac x) in
  match ok lo, ok hi with
  | true, true =>
      if 2 * a <? (2 * lo + 1) * b then (lo, t)
      else if (2 * lo + 1) * b <? 2 * a then (hi, t)
      else if Z.even lo then (lo, t) else (hi, t)
  | true, false => (lo, t)
  | false, true => (hi, t)
  | false, false =>
      match fuel with
      | O => (lo, t)
      | S fuel' => shortest_decimal_from x (t - 1) fuel'
      end
  end.

Definition shortest_decimal (x : Q) : Z * Z :=
  let top := Z.log2 (Qnum x) + 1 in
  shortest_decimal_from x top (Z.to_nat (top + 1100)).

End Double.

(** ** Built-ins *)

Module JS.

(** ToBoolean. *)
Definition truthy (v : value) : bool :=
  match v with
  | VUndefined | VNull => false
  | VBool b => b
  | VNum NaN => false
  | VNum (Int z) => negb (z =? 0)
  | VNum (Frac q) => negb (Qnum q =? 0)
  | VNum PInf | VNum NInf => true
  | VStr s => negb (String.eqb s EmptyString)
  end.

(** [typeof v === 'string'] *)
Definition is_string (v : value) : bool :=
  match v with VStr _ => true | _ => false end.

(** [a === b] *)
Definition strict_eq (a b : value) : bool :=
  match a, b with
  | VUndefined, VUndefined => true
  | VNull, VNull => true
  | VBool x, VBool y => Bool.eqb x y
  | VNum (Int x), VNum (Int y) => x =? y
  | VNum (Frac x), VNum (Frac y) => bool_decide (x = y)
  | VNum PInf, VNum PInf | VNum NInf, VNum NInf => true
  | VStr x, VStr y => String.eqb x y
  | _, _ => false
  end.

(** [o.k] for an object whose prototype chain has no property [k]. *)
Definition get (o : object) (k : string) : value :=
  default VUndefined (o !! k).

(** [a || b] *)
Definition or_else (a b : value) : value := if truthy a then a else b.

(** Decimal digits of a natural number. *)
Definition digits_of_N (n : N) : string :=
  NilEmpty.string_of_uint (N.to_uint n).

Fixpoint drop_trailing_zeros (s : string) : string :=
  match s with
  | EmptyString => EmptyString
  | String c t =>
      match drop_trailing_zeros t with
      | EmptyString => if Ascii.eqb c "0"%char then EmptyString else String c EmptyString
      | t' => String c t'
      end
  end.

(** Number::toString for an integer whose digits are those of [n >= 10^21]:
    the digits [d1 d2 ... dk] are printed as [d1.d2...e+(k-1)]. *)
Definition exponential (n : N) : string :=
  let s := digits_of_N n in
  match drop_trailing_zeros s with
  | EmptyString => "0"
  | String c EmptyString =>
      String c ("e+" +:+ digits_of_N (N.of_nat (String.length s) - 1))
  | String c r =>
      String c ("." +:+ r +:+ "e+" +:+ digits_of_N (N.of_nat (String.length s) - 1))
  end.

Fixpoint zeros (n : nat) : string :=
  match n with
  | O => EmptyString
  | S n' => String "0"%char (zeros n')
  end.

Fixpoint take_chars (n : nat) (s : string) : string :=
  match n, s with
  | S n', String c t => String c (take_chars n' t)
  | _, _ => EmptyString
  end.

Fixpoint drop_chars (n : nat) (s : string) : string :=
  match n, s with
  | S n', String c t => drop_chars n' t
  | _, _ => s
  end.

(** Number::toString for a double [x > 0] that is not an integer, from its
    [k] digits and [n], the place of the decimal point. *)
Definition decimal_string (x : Q) : string :=
  let '(s, t) := Double.shortest_decimal x in
  let ds := digits_of_N (Z.to_N s) in
  let k := Z.of_nat (String.length ds) in
  let n := k + t in
  if (k <=? n) && (n <=? 21) then ds +:+ zeros (Z.to_nat (n - k))
  else if (0 <? n) && (n <=? 21)
  then take_chars (Z.to_nat n) ds +:+ "." +:+ drop_chars (Z.to_nat n) ds
  else if (-6 <? n) && (n <=? 0) then "0." +:+ zeros (Z.to_nat (- n)) +:+ ds
  else
    let e := (if n - 1 <? 0 then "e-" else "e+") +:+ digits_of_N (Z.abs_N (n - 1)) in
    match ds with
    | String c EmptyString => String c e
    | String c r => String c ("." +:+ r +:+ e)
    | EmptyString => e
    end.

(** Number::toString: the shortest digits that read back as the number; an
    integer below 10^21 in full, larger ones in exponential notation. *)
Definition Number_toString (n : number) : string :=
  match n with
  | NaN => "NaN"
  | PInf => "Infinity"
  | NInf => "-Infinity"
  | Int z =>
      let v := Z.to_N (Double.shortest (Z.abs z)) in
      (if z <? 0 then "-" else EmptyString) +:+
      (if z =? 0 then "0"
       else if (v <? 10 ^ 21)%N then digits_of_N v else exponential v)
  | Frac q =>
      (if Qnum q <? 0 then "-" else EmptyString) +:+
      decimal_string (Z.abs (Qnum q) # Qden q)
  end.

(** ToString / [String(v)] *)
Definition ToString (v : value) : string :=
  match v with
  | VUndefined => "undefined"
  | VNull => "null"
  | VBool true => "true"
  | VBool false => "false"
  | VNum n => Number_toString n
  | VStr s => s
  end.

(** White space that [parseInt] skips: tab, line feed, vertical tab, form
    feed, carriage return, space, no-break space. *)
Definition is_ws (c : ascii) : bool :=
  let n := N_of_ascii c in
  ((9 <=? n) && (n <=? 13) || (n =? 32) || (n =? 160))%N.

Fixpoint skip_ws (s : string) : string :=
  match s with
  | String c t => if is_ws c then skip_ws t else s
  | EmptyString => s
  end.

(** Value of a character as a digit: 0-9, then letters of either case. *)
Definition digit_val (c : ascii) : option N :=
  let n := N_of_ascii c in
  if ((48 <=? n) && (n <=? 57))%N then Some (n - 48)%N
  else if ((97 <=? n) && (n <=? 122))%N then Some (n - 87)%N
  else if ((65 <=? n) && (n <=? 90))%N then Some (n - 55)%N
  else None.

(** The longest prefix of [s] made of digits of the radix, and what follows. *)
Fixpoint digits_prefix (radix : N) (s : string) : list N * string :=
  match s with
  | EmptyString => ([], s)
  | String c t =>
      match digit_val c with
      | Some d =>
          if (d <? radix)%N
          then let '(ds, rest) := digits_prefix radix t in (d :: ds, rest)
          else ([], s)
      | None => ([], s)
      end
  end.

Definition digits_value (radix : N) (ds : list N) : N :=
  fold_left (fun acc d => (radix * acc + d)%N) ds 0%N.

(** [parseInt(s)] on a string, no radix argument: skip white space, read a
    sign, read a [0x]/[0X] prefix, read the digits; no digit gives [NaN],
    and the integer read is rounded to a double. *)
Definition parseInt_string (s : string) : number :=
  let s := skip_ws s in
  let '(neg, s) :=
    match s with
    | String "-"%char t => (true, t)
    | String "+"%char t => (false, t)
    | _ => (false, s)
    end in
  let '(radix, s) :=
    match s with
    | String "0"%char (String "x"%char t) | String "0"%char (String "X"%char t) => (16%N, t)
    | _ => (10%N, s)
    end in
  match fst (digits_prefix radix s) with
  | [] => NaN
  | ds =>
      let n := Z.of_N (digits_value radix ds) in
      Double.round_Z (if neg then - n else n)
  end.

(** [parseInt(v)]: the argument is first converted to a string. *)
Definition parseInt (v : value) : number := parseInt_string (ToString v).

(** [isNaN(n)], [n < 1] and [n <= 0] on numbers; a comparison with [NaN] is
    false. *)
Definition isNaN (n : number) : bool :=
  match n with NaN => true | _ => false end.

Definition lt_one (n : number) : bool :=
  match n with
  | NaN | PInf => false
  | NInf => true
  | Int z => z <? 1
  | Frac q => Qnum q <? Zpos (Qden q)
  end.

Definition le_zero (n : number) : bool :=
  match n with
  | NaN | PInf => false
  | NInf => true
  | Int z => z <=? 0
  | Frac q => Qnum q <=? 0
  end.

(** ToNumber of a value that is not a string. *)
Definition number_of (v : value) : number :=
  match v with
  | VUndefined => NaN
  | VNull => Int 0
  | VBool b => Int (if b then 1 else 0)
  | VNum n => n
  | VStr _ => NaN
  end.

(** [v + n] with [n] a number: concatenation when [v] is a string, the sum
    of [ToNumber v] and [n] otherwise. *)
Definition plus_number (v : value) (n : number) : value :=
  match v with
  | VStr s => VStr (s +:+ Number_toString n)
  | _ => VNum (Double.add (number_of v) n)
  end.

End JS.

(** ** The platform *)

Record platform : Type := {
  (** [JSON.parse]; [None] when it throws a SyntaxError. *)
  JSON_parse : string -> option json;
  (** [JSON.stringify] of the item list. *)
  JSON_stringify : list object -> string;
  (** ToNumber of a string. *)
  StringToNumber : string -> number;
}.

Module Price.

(** [s.replace(/[^\d.]/g, '')] *)
Definition is_digit_or_dot (c : ascii) : bool :=
  let n := N_of_ascii c in
  ((48 <=? n) && (n <=? 57) || (n =? 46))%N.

Fixpoint strip (s : string) : string :=
  match s with
  | EmptyString => EmptyString
  | String c t => if is_digit_or_dot c then String c (strip t) else strip t
  end.

Definition decimal (ds : list N) (scale : nat) : Q :=
  Z.of_N (JS.digits_value 10 ds) # Pos.pow 10 (Pos.of_nat scale).

(** The decimal literal a string of digits and dots starts with, which is
    all [strip] returns: digits, then optionally a dot and digits; or a dot
    and at least one digit. *)
Definition literal (s : string) : option Q :=
  let '(ip, rest) := JS.digits_prefix 10 s in
  match rest with
  | String "."%char t =>
      let '(fp, _) := JS.digits_prefix 10 t in
      match ip, fp with
      | [], [] => None
      | _, [] => Some (inject_Z (Z.of_N (JS.digits_value 10 ip)))
      | _, _ => Some (decimal (ip ++ fp)%list (length fp))
      end
  | _ =>
      match ip with
      | [] => None
      | _ => Some (inject_Z (Z.of_N (JS.digits_value 10 ip)))
      end
  end.

(** [parseFloat] on a string of digits and dots: the double nearest to the
    literal, [NaN] when there is none. *)
Definition parseFloat (s : string) : number :=
  match literal s with
  | Some q => Double.round q
  | None => NaN
  end.

End Price.
(** ** The page and the cart *)

(** What the cart does to the page and the console. *)
Inductive effect : Type :=
  | Badge (totalItems : number)     (* every .cart-badge shows the count *)
  | Rendered (rows : list object)   (* #cartContent rewritten from these items *)
  | ListenersAttached
  | Notification (message : string)
  | ConsoleError
  | ConsoleLog.

Record state : Type := {
  items : list object;          (* Cart.items *)
  stored : option string;       (* localStorage.getItem('cart') *)
  cartContent : bool;           (* the page has an element #cartContent *)
  effects : list effect;        (* page and console writes, oldest first *)
}.

Definition set_items (l : list object) (c : state) : state :=
  {| items := l; stored := stored c; cartContent := cartContent c; effects := effects c |}.

Definition set_stored (s : string) (c : state) : state :=
  {| items := items c; stored := Some s; cartContent := cartContent c; effects := effects c |}.

Definition emit (e : effect) (c : state) : state :=
  {| items := items c; stored := stored c; cartContent := cartContent c;
     effects := (effects c ++ [e])%list |}.

(** A call returns or throws. *)
Inductive outcome (A : Type) : Type :=
  | Returned (a : A) : outcome A
  | Threw : outcome A.
Arguments Returned {A} a.
Arguments Threw {A}.

(** The Cart object on a page without any stored cart. *)
Definition fresh (stored : option string) (cartContent : bool) : state :=
  {| items := []; stored := stored; cartContent := cartContent; effects := [] |}.

(** *** [uniqueItems], the object [validate] uses as a map *)

Module UniqueItems.

(** Own properties, in the order of their creation. *)
Definition t : Type := list (string * object).

(** Names every object inherits from [Object.prototype]; [uniqueItems[k]] is
    a function (or, for [__proto__], the prototype itself) for these. *)
Definition inherited_names : list string :=
  [ "constructor"; "hasOwnProperty"; "isPrototypeOf"; "propertyIsEnumerable";
    "toLocaleString"; "toString"; "valueOf"; "__proto__";
    "__defineGetter__"; "__defineSetter__"; "__lookupGetter__"; "__lookupSetter__" ].

Definition inherited (k : string) : bool :=
  bool_decide (k ∈ inherited_names).

Fixpoint own (k : string) (u : t) : option object :=
  match u with
  | [] => None
  | (k', o) :: u' => if String.eqb k' k then Some o else own k u'
  end.

(** [u[k] = f(u[k])] on an own property. *)
Fixpoint update (k : string) (f : object -> object) (u : t) : t :=
  match u with
  | [] => []
  | (k', o) :: u' =>
      if String.eqb k' k then (k', f o) :: u' else (k', o) :: update k f u'
  end.

(** An array index is the canonical decimal form of an integer from 0 to
    2^32 - 2. *)
Definition array_index (k : string) : option N :=
  let '(ds, rest) := JS.digits_prefix 10 k in
  let n := JS.digits_value 10 ds in
  match ds, rest with
  | [], _ => None
  | d :: ds', EmptyString =>
      if ((negb (d =? 0) || bool_decide (ds' = [])) && (n <=? 4294967294))%N
      then Some n else None
  | _, _ => None
  end.

Fixpoint insert_by_index (n : N) (o : object) (l : list (N * object))
  : list (N * object) :=
  match l with
  | [] => [(n, o)]
  | (m, p) :: l' =>
      if (n <=? m)%N then (n, o) :: l else (m, p) :: insert_by_index n o l'
  end.

(** The own properties whose name is an array index, by ascending index. *)
Fixpoint indexed (u : t) : list (N * object) :=
  match u with
  | [] => []
  | (k, o) :: u' =>
      match array_index k with
      | Some n => insert_by_index n o (indexed u')
      | None => indexed u'
      end
  end.

(** The other own properties, in the order of their creation. *)
Fixpoint named (u : t) : list object :=
  match u with
  | [] => []
  | (k, o) :: u' =>
      match array_index k with
      | Some _ => named u'
      | None => o :: named u'
      end
  end.

(** [Object.values(u)]: array indices first, in ascending numeric order, then
    the other names in the order of their creation. *)
Definition values (u : t) : list object := ((indexed u).*2 ++ named u)%list.

End UniqueItems.


(** ** The Cart object *)

Module Cart.
Section Methods.

Variable P : platform.

(** save: function () *)
Definition save (c : state) : state :=
  set_stored (JSON_stringify P (items c)) c.

(** updateBadge: function () *)
Definition badge_count (l : list object) : number :=
  fold_left
    (fun sum item =>
       Double.add sum
         (let n := JS.parseInt (JS.get item "quantity") in
          if JS.truthy (VNum n) then n else Int 0))     (* parseInt(..) || 0 *)
    l (Int 0).

Definition updateBadge (c : state) : state :=
  emit (Badge (badge_count (items c))) c.

(** render: function () *)
Definition render (c : state) : state :=
  if cartContent c then emit (Rendered (items c)) c else c.

(** setupEventListeners: function () *)
Definition setupEventListeners (c : state) : state :=
  if cartContent c then emit ListenersAttached c else c.

(** The predicate of the filter in [validate]:
    [item && item.id && typeof item.id === 'string' && item.name].
    A primitive has neither an [id] nor a [name]. *)
Definition keep (e : element) : option object :=
  match e with
  | Prim _ => None
  | Obj item =>
      if JS.truthy (JS.get item "id") && JS.is_string (JS.get item "id")
         && JS.truthy (JS.get item "name")
      then Some item else None
  end.

(** Normalize Quantity: [parseInt(item.quantity)], 1 if NaN or below 1. *)
Definition normal_quantity (item : object) : number :=
  let qty := JS.parseInt (JS.get item "quantity") in
  if JS.isNaN qty || JS.lt_one qty then Int 1 else qty.

(** Normalize Price: the price itself if a string, [String(price || '0')]
    otherwise. *)
Definition normal_price (item : object) : value :=
  let priceStr := JS.get item "price" in
  if JS.is_string priceStr then priceStr
  else VStr (JS.ToString (JS.or_else priceStr (VStr "0"))).

(** [{ ...item, id: id, quantity: qty, price: priceStr }] *)
Definition normalized (item : object) : object :=
  <["price" := normal_price item]>
    (<["quantity" := VNum (normal_quantity item)]>
       (<["id" := JS.get item "id"]> item)).

(** [e.quantity += qty] *)
Definition bump (qty : number) (e : object) : object :=
  <["quantity" := JS.plus_number (JS.get e "quantity") qty]> e.

(** The body of the forEach in [validate]. *)
Definition merge (uniqueItems : UniqueItems.t) (item : object) : UniqueItems.t :=
  let id := JS.ToString (JS.get item "id") in
  let qty := normal_quantity item in
  match UniqueItems.own id uniqueItems with
  | Some _ =>
      (* uniqueItems[id].quantity += qty *)
      UniqueItems.update id (bump qty) uniqueItems
  | None =>
      if UniqueItems.inherited id
      then uniqueItems   (* the += lands on the inherited built-in *)
      else (uniqueItems ++ [(id, normalized item)])%list
  end.

Definition validate_items (l : list element) : list object :=
  UniqueItems.values (fold_left merge (omap keep l) []).

(** validate: function (), with [this.items] holding [raw]. *)
Definition validate (raw : json) (c : state) : outcome state :=
  match raw with
  | JArr l =>
      let c' := set_items (validate_items l) c in
      if bool_decide (length (items c') ≠ length l)
      then Returned (save (emit ConsoleLog c'))
      else Returned c'
  | JPrim _ | JObj _ => Threw   (* TypeError: no [filter] method *)
  end.

(** init: function () *)
Definition init (c : state) : outcome state :=
  let c1 :=
    match stored c with
    | Some text =>
        if JS.truthy (VStr text) then
          match
            match JSON_parse P text with
            | Some raw => validate raw c
            | None => Threw
            end
          with
          | Returned c' => c'
          | Threw => set_items [] (emit ConsoleError c)
          end
        else c
    | None => c
    end in
  let c2 := updateBadge c1 in
  Returned (if cartContent c2 then setupEventListeners (render c2) else c2).

(** [item => item.id === id] *)
Definition has_id (id : value) (item : object) : bool :=
  JS.strict_eq (JS.get item "id") id.

(** The first statements of [add]: the price of the argument is replaced by
    a string. *)
Definition coerce_price (product : object) : object :=
  if JS.truthy (JS.get product "price") && negb (JS.is_string (JS.get product "price"))
  then <["price" := VStr (JS.ToString (JS.get product "price"))]> product
  else product.

(** add: function (product).  The result is the state after the call and
    the argument object as the caller finds it. *)
Definition add (product : object) (c : state) : object * state :=
  if negb (JS.truthy (JS.get product "id")) then (product, c)
  else
    let product := coerce_price product in
    let c1 :=
      match list_find (has_id (JS.get product "id")) (items c) with
      | Some (i, existingItem) =>
          set_items
            (<[i := <["quantity" :=
                       JS.plus_number (JS.get existingItem "quantity") (Int 1)]>
                     existingItem]> (items c)) c
      | None =>
          set_items (items c ++ [<["quantity" := VNum (Int 1)]> product])%list c
      end in
    (product,
     emit (Notification (JS.ToString (JS.get product "name") +:+ " added to cart!"))
       (updateBadge (save c1))).

(** remove: function (productId) *)
Definition remove (productId : value) (c : state) : state :=
  render (updateBadge (save
    (set_items (List.filter (fun item => negb (has_id productId item)) (items c)) c))).

(** updateQuantity: function (productId, quantity) *)
Definition updateQuantity (productId quantity : value) (c : state) : state :=
  let c1 :=
    match list_find (has_id productId) (items c) with
    | Some (i, item) =>
        let newQty := JS.parseInt quantity in
        if JS.le_zero newQty then remove productId c
        else render (save (set_items
               (<[i := <["quantity" := VNum newQty]> item]> (items c)) c))
    | None => c
    end in
  updateBadge c1.

(** clear: function () *)
Definition clear (c : state) : state :=
  render (updateBadge (save (set_items [] c))).

(** ToNumber *)
Definition ToNumber (v : value) : number :=
  match v with
  | VStr s => StringToNumber P s
  | _ => JS.number_of v
  end.

(** The text [getTotal] and [render] read the price from: the price itself
    if a string, [String(price || '0')] otherwise. *)
Definition priceStr (item : object) : string :=
  match JS.get item "price" with
  | VStr s => s
  | p => JS.ToString (JS.or_else p (VStr "0"))
  end.

(** The price: [parseFloat(priceStr.replace(/[^\d.]/g, '')) || 0]. *)
Definition price_of (item : object) : number :=
  let price := Price.parseFloat (Price.strip (priceStr item)) in
  if JS.truthy (VNum price) then price else Int 0.

(** getTotal: function () *)
Definition getTotal (c : state) : number :=
  fold_left
    (fun total item =>
       Double.add total
         (Double.mul (price_of item)
            (ToNumber (JS.or_else (JS.get item "quantity") (VNum (Int 1))))))
    (items c) (Int 0).

End Methods.
End Cart.

(** ** Vocabulary of the statements *)

(** The property name under which [validate] files an item. *)
Definition key (item : object) : string := JS.ToString (JS.get item "id").


(** The name is not one every object inherits: [validate] can file an item
    under it. *)
Definition fileable (k : string) : Prop := UniqueItems.inherited k = false.

#[global] Instance fileable_dec k : Decision (fileable k).
Proof. unfold fileable. apply _. Defined.

(** The items of a list filed under a name. *)
Definition filed_under (k : string) (l : list object) : list object :=
  filter (fun item => key item = k) l.

(** The integer a number is, when it is one. *)
Definition integer_of (n : number) : option Z :=
  match n with
  | Int z => Some z
  | _ => None
  end.

(** The sum of the normalized quantities of the items, when they are all
    integers. *)
Definition sum_quantities (l : list object) : option Z :=
  foldr (fun item acc =>
           match integer_of (Cart.normal_quantity item), acc with
           | Some z, Some a => Some (z + a)
           | _, _ => None
           end) (Some 0) l.

(** A number with the normalized quantities of the items added to it, one
    after the other. *)
Definition add_quantities (start : number) (l : list object) : number :=
  fold_left (fun acc item => Double.add acc (Cart.normal_quantity item)) l start.

(** What the quantity of the first of several entries becomes when the
    quantities of the others are added to it. *)
Definition merged_quantity (first : object) (rest : list object) : number :=
  add_quantities (Cart.normal_quantity first) rest.

(** The quantity of an item is an integer, at least 1. *)
Definition positive_quantity (item : object) : bool :=
  match item !! "quantity" with
  | Some (VNum (Int q)) => 1 <=? q
  | _ => false
  end.

(** Every quantity of the list is an integer, at least 1. *)
Definition positive_quantities (l : list object) : Prop :=
  Forall (fun item => positive_quantity item = true) l.

(** The quantity of an item is an integer below the bound. *)
Definition quantity_below (bound : Z) (item : object) : bool :=
  match item !! "quantity" with
  | Some (VNum (Int q)) => q <? bound
  | _ => false
  end.

(** The quantity of an item, when a number, is a number of the language. *)
Definition double_quantity (item : object) : bool :=
  match item !! "quantity" with
  | Some (VNum n) => Double.is_double n
  | _ => true
  end.

(** ** A platform for closed examples *)

Module Testing.

Definition quote : string := String (ascii_of_N 34) EmptyString.

Fixpoint escape (s : string) : string :=
  match s with
  | EmptyString => EmptyString
  | String c t =>
      if Ascii.eqb c (ascii_of_N 34) then "\" +:+ quote +:+ escape t
      else if Ascii.eqb c "\"%char then "\\" +:+ escape t
      else String c (escape t)
  end.

Definition text_of_value (v : value) : option string :=
  match v with
  | VUndefined => None                  (* the property is left out *)
  | VNull | VNum NaN | VNum PInf | VNum NInf => Some "null"
  | VBool _ | VNum (Int _) | VNum (Frac _) => Some (JS.ToString v)
  | VStr s => Some (quote +:+ escape s +:+ quote)
  end.

Fixpoint join (sep : string) (l : list string) : string :=
  match l with
  | [] => EmptyString
  | [x] => x
  | x :: l' => x +:+ sep +:+ join sep l'
  end.

Definition text_of_object (o : object) : string :=
  "{" +:+ join ","
            (omap (fun kv => (fun t => quote +:+ escape kv.1 +:+ quote +:+ ":" +:+ t)
                               <$> text_of_value kv.2)
                  (map_to_list o))
      +:+ "}".

Definition stringify (l : list object) : string :=
  "[" +:+ join "," (text_of_object <$> l) +:+ "]".

(** Decodes the texts of a table; any other text is a syntax error. *)
Definition parse (table : list (string * json)) (text : string) : option json :=
  snd <$> List.find (fun e => String.eqb e.1 text) table.

(** ToNumber on the strings made of decimal digits only; NaN elsewhere. *)
Definition digits_to_number (s : string) : number :=
  match JS.digits_prefix 10 s with
  | (d :: ds, EmptyString) => Double.round_Z (Z.of_N (JS.digits_value 10 (d :: ds)))
  | _ => NaN
  end.

Definition platform_with (table : list (string * json)) : platform :=
  {| JSON_parse := parse table;
     JSON_stringify := stringify;
     StringToNumber := digits_to_number |}.

End Testing.

(** The digits of a decimal numeral, most significant first. *)
Fixpoint uint_digits (d : Decimal.uint) : list N :=
  match d with
  | Decimal.Nil => []
  | Decimal.D0 d => 0%N :: uint_digits d
  | Decimal.D1 d => 1%N :: uint_digits d
  | Decimal.D2 d => 2%N :: uint_digits d
  | Decimal.D3 d => 3%N :: uint_digits d
  | Decimal.D4 d => 4%N :: uint_digits d
  | Decimal.D5 d => 5%N :: uint_digits d
  | Decimal.D6 d => 6%N :: uint_digits d
  | Decimal.D7 d => 7%N :: uint_digits d
  | Decimal.D8 d => 8%N :: uint_digits d
  | Decimal.D9 d => 9%N :: uint_digits d
  end.



(** ** Invariants of [validate] *)

(** What the filter of [validate] lets through: a non-empty string for an
    [id], and a truthy [name]. *)
Definition kept (item : object) : Prop :=
  exists s, item !! "id" = Some (VStr s) /\ s ≠ EmptyString /\
            JS.truthy (JS.get item "name") = true.

(** A quantity as [validate] leaves it: an integer that is a double, at
    least 1, or Infinity. *)
Definition counted (n : number) : Prop :=
  match n with
  | Int q => 1 <= q /\ Double.round_Z q = Int q
  | PInf => True
  | NaN | Frac _ | NInf => False
  end.

(** What [uniqueItems] holds under the name [k]. *)
Definition filed (k : string) (o : object) : Prop :=
  o !! "id" = Some (VStr k) /\ UniqueItems.inherited k = false /\ k ≠ EmptyString /\
  JS.truthy (JS.get o "name") = true /\
  (exists n, o !! "quantity" = Some (VNum n) /\ counted n) /\
  (exists p, o !! "price" = Some (VStr p)).

Definition well_filed (u : UniqueItems.t) : Prop :=
  NoDup u.*1 /\ Forall (fun e => filed e.1 e.2) u.

(** An item with its quantity replaced. *)
Definition with_quantity (q : Z) (item : object) : object :=
  <["quantity" := VNum (Int q)]> item.

Definition with_number (n : number) (item : object) : object :=
  <["quantity" := VNum n]> item.

(** The entries of [uniqueItems] hold integers of at least 1 for
    quantities. *)
Definition whole_entries (u : UniqueItems.t) : Prop :=
  forallb positive_quantity u.*2 = true.

(** Items as the own properties of [uniqueItems], each under its name. *)
Definition entries (l : list object) : UniqueItems.t :=
  (fun o => (key o, o)) <$> l.

(** ** Sample data *)

Module Samples.

Definition hammer : object :=
  obj [("id", VStr "a"); ("name", VStr "Hammer"); ("price", VStr "LKR 450");
       ("quantity", VNum (Int 2))].

Definition claw_hammer : object :=
  obj [("id", VStr "a"); ("name", VStr "Claw hammer"); ("price", VStr "LKR 520");
       ("quantity", VNum (Int 3))].

(** A quantity of 10^21, stored as text. *)
Definition truckload : object :=
  obj [("id", VStr "sand"); ("name", VStr "Sand"); ("price", VStr "LKR 1");
       ("quantity", VStr "1000000000000000000000")].

(** A quantity that rounds to 10^21, and one of 6 * 10^20. *)
Definition near_truckload : object :=
  obj [("id", VStr "sand"); ("name", VStr "Sand"); ("price", VStr "LKR 1");
       ("quantity", VStr "999999999999999999999")].

Definition half_truckload : object :=
  obj [("id", VStr "sand"); ("name", VStr "Sand"); ("price", VStr "LKR 1");
       ("quantity", VNum (Int 600000000000000000000))].

Definition bolt : object :=
  obj [("id", VStr "b"); ("name", VStr "Bolt"); ("price", VStr "LKR 12");
       ("quantity", VNum (Int 1))].

Definition nut : object :=
  obj [("id", VStr "1"); ("name", VStr "Nut"); ("price", VStr "LKR 8");
       ("quantity", VNum (Int 1))].

Definition builder (q : Z) : object :=
  obj [("id", VStr "constructor"); ("name", VStr "Constructor");
       ("price", VStr "LKR 900"); ("quantity", VNum (Int q))].

(** Products as the click handler of a product card builds them, and one
    with a numeric price and no id. *)
Definition widget : object :=
  obj [("id", VStr "p1"); ("name", VStr "Widget"); ("price", VStr "10")].

Definition drill : object :=
  obj [("id", VStr "drill"); ("name", VStr "Drill"); ("price", VNum (Int 4500))].

Definition nameless_saw : object :=
  obj [("id", VStr EmptyString); ("name", VStr "Saw"); ("price", VNum (Int 450))].

(** A quantity of 2^53, and the same with one more. *)
Definition grinder : object :=
  obj [("id", VStr "g"); ("name", VStr "Grinder"); ("price", VStr "LKR 7500");
       ("quantity", VNum (Int 9007199254740992))].

Definition spare_grinder : object :=
  obj [("id", VStr "g"); ("name", VStr "Grinder"); ("price", VStr "LKR 7500");
       ("quantity", VNum (Int 1))].

(** A product with a fractional price, the double nearest to 19.99. *)
Definition paint : object :=
  obj [("id", VStr "paint"); ("name", VStr "Paint");
       ("price", VNum (Frac (5626684784446013 # 281474976710656)))].

(** The two items of the total example, and an item of quantity 0. *)
Definition priced (price : string) (quantity : Z) : object :=
  obj [("price", VStr price); ("quantity", VNum (Int quantity))].

Definition two_lines : state :=
  {| items := [priced "$10.50" 2; priced "5" 1];
     stored := None; cartContent := false; effects := [] |}.

Definition zero_line : state :=
  {| items := [priced "5" 0];
     stored := None; cartContent := false; effects := [] |}.

(** A cart page holding the hammer, as [init] leaves it. *)
Definition hammer_cart : state :=
  {| items := [hammer];
     stored := Some (Testing.stringify [hammer]);
     cartContent := true;
     effects := [] |}.

(** Three lines of 0.1, 0.2 and 0.3. *)
Definition three_tenths : state :=
  {| items := [priced "0.1" 1; priced "0.2" 1; priced "0.3" 1];
     stored := None; cartContent := false; effects := [] |}.

(** A cart holding the hammer while the stored text is cut off. *)
Definition corrupted_cart : state :=
  {| items := [hammer];
     stored := Some "{id:";
     cartContent := true;
     effects := [] |}.

(** A cart page holding the grinder. *)
Definition grinder_cart : state :=
  {| items := [grinder];
     stored := Some (Testing.stringify [grinder]);
     cartContent := true;
     effects := [] |}.

End Samples.

(** ** Vocabulary for the cart as a whole *)

(** The stored text is the serialization of the item list. *)
Definition synced (P : platform) (c : state) : Prop :=
  stored c = Some (JSON_stringify P (items c)).

(** The ids of the items, in order. *)
Definition ids (l : list object) : list value :=
  (fun item => JS.get item "id") <$> l.

(** No two values of the list are [===]. *)
Fixpoint distinct_values (vs : list value) : bool :=
  match vs with
  | [] => true
  | v :: vs' => forallb (fun w => negb (JS.strict_eq w v)) vs' && distinct_values vs'
  end.

(** No two items of the list have ids that are [===]. *)
Definition distinct_ids (l : list object) : bool := distinct_values (ids l).

(** The quantity of an item when it is an integer, 0 otherwise. *)
Definition quantity_of (item : object) : Z :=
  match item !! "quantity" with
  | Some (VNum (Int q)) => q
  | _ => 0
  end.

Definition total_quantity (l : list object) : Z :=
  foldr Z.add 0 (quantity_of <$> l).

(** Every quantity is an integer from 1 to below the bound. *)
Definition quantities_within (bound : Z) (l : list object) : bool :=
  forallb (fun item => positive_quantity item && quantity_below bound item) l.

(** ** The row [render] writes for an item *)

Module Render.

(** [parseInt(item.quantity) || 1] *)
Definition quantity (item : object) : number :=
  let n := JS.parseInt (JS.get item "quantity") in
  if JS.truthy (VNum n) then n else Int 1.

(** [const total = priceVal * quantity] *)
Definition line_total (item : object) : number :=
  Double.mul (Cart.price_of item) (quantity item).

(** [data-id="${item.id}"] *)
Definition data_id (item : object) : string := JS.ToString (JS.get item "id").

(** [priceStr], [imgSrc], [name] and [category], the other texts of the
    row. *)
Definition priceStr (item : object) : string :=
  match JS.get item "price" with
  | VStr s => s
  | p => JS.ToString (JS.or_else p (VStr "0"))
  end.

Definition imgSrc (item : object) : string :=
  JS.ToString (JS.or_else (JS.get item "image") (VStr "https://via.placeholder.com/80")).

Definition name (item : object) : string :=
  JS.ToString (JS.or_else (JS.get item "name") (VStr "Unknown Product")).

Definition category (item : object) : string :=
  JS.ToString (JS.or_else (JS.get item "category") (VStr "Hardware")).

(** The row goes into the page as markup.  A text without NUL, carriage
    return, double quote, ampersand and angle brackets is read back from it
    as it was written and leaves the elements around it as they are. *)
Definition markup_free (s : string) : bool :=
  forallb (fun c => let n := N_of_ascii c in
                    negb ((n =? 0) || (n =? 13) || (n =? 34) || (n =? 38)
                          || (n =? 60) || (n =? 62))%N)
          (String.list_ascii_of_string s).

Definition row_safe (item : object) : bool :=
  markup_free (data_id item) && markup_free (name item) && markup_free (category item)
  && markup_free (priceStr item) && markup_free (imgSrc item).

(** [data-qty="${quantity}"] and [value="${quantity}"] *)
Definition data_qty (item : object) : string := JS.Number_toString (quantity item).

(** What the body of the [forEach] of [render] appends to [html] for one
    item: the texts of its [div class="cart-item"] and the number its
    total is printed from. *)
Record row : Type := Row {
  row_img : string;        (* src="${imgSrc}" *)
  row_name : string;       (* alt="${name}" and <h3>${name}</h3> *)
  row_category : string;   (* <p>${category}</p> *)
  row_price : string;      (* ${priceStr} *)
  row_id : string;         (* data-id="${item.id}", four times *)
  row_qty : string;        (* data-qty="${quantity}" and value="${quantity}" *)
  row_total : number       (* LKR ${total.toLocaleString()} *)
}.

Definition row_of (item : object) : row :=
  {| row_img := imgSrc item; row_name := name item; row_category := category item;
     row_price := priceStr item; row_id := data_id item; row_qty := data_qty item;
     row_total := line_total item |}.

(** [this.items.forEach(item => { ... html += ... })]: the rows of [html]
    after the loop, from those [html] holds before it. *)
Definition rows_from (html : list row) (l : list object) : list row :=
  fold_left (fun html item => html ++ [row_of item]) l html.

(** The rows of the page that [render] writes for the items [l]. *)
Definition rows (l : list object) : list row := rows_from [] l.

End Render.

(** ** The listeners of [setupEventListeners] *)

(** What a click or a change lands on, with the values of its [dataset]
    ([undefined] for a missing attribute). *)
Inductive target : Type :=
  | RemoveButton (id : value)              (* inside a .remove-btn *)
  | QuantityButton (id action qty : value) (* inside a .qty-btn *)
  | QuantityInput (id : value) (text : string)  (* the .qty-input and its value *)
  | Elsewhere.

Module Handlers.
Section Listeners.

Variable P : platform.

(** [currentQty + 1], [currentQty - 1] *)
Definition number_plus (n : number) (d : Z) : number := Double.add n (Int d).

(** The click listener. *)
Definition click (t : target) (c : state) : state :=
  match t with
  | RemoveButton id => if JS.truthy id then Cart.remove P id c else c
  | QuantityButton id action qty =>
      let currentQty := JS.parseInt qty in
      if JS.truthy id && JS.strict_eq action (VStr "increase")
      then Cart.updateQuantity P id (VNum (number_plus currentQty 1)) c
      else if JS.truthy id && JS.strict_eq action (VStr "decrease")
      then Cart.updateQuantity P id (VNum (number_plus currentQty (-1))) c
      else c
  | QuantityInput _ _ | Elsewhere => c
  end.

(** The change listener. *)
Definition change (t : target) (c : state) : state :=
  match t with
  | QuantityInput id text =>
      let newQty := JS.parseInt (VStr text) in
      if JS.truthy id then Cart.updateQuantity P id (VNum newQty) c else c
  | RemoveButton _ | QuantityButton _ _ _ | Elsewhere => c
  end.

End Listeners.

(** The controls of the row of an item, as the listeners find them when the
    rows of the cart hold no markup character ([Render.row_safe]). *)
Definition remove_button (item : object) : target :=
  RemoveButton (VStr (Render.data_id item)).

Definition quantity_button (action : string) (item : object) : target :=
  QuantityButton (VStr (Render.data_id item)) (VStr action) (VStr (Render.data_qty item)).

Definition quantity_input (item : object) (text : string) : target :=
  QuantityInput (VStr (Render.data_id item)) text.

End Handlers.

(** An item in the form the normalization pass gives: a non-empty string
    for an id that is not an inherited name, a truthy name, an integer
    quantity of at least 1 (a number of the language), a string for a
    price. *)
Definition well_formed (item : object) : bool :=
  match item !! "id", item !! "price" with
  | Some (VStr s), Some (VStr _) =>
      negb (String.eqb s EmptyString) && negb (UniqueItems.inherited s)
      && JS.truthy (JS.get item "name") && positive_quantity item
      && double_quantity item
  | _, _ => false
  end.

(** The id of the item is not an array index. *)
Definition plainly_named (item : object) : bool :=
  match UniqueItems.array_index (key item) with
  | Some _ => false
  | None => true
  end.

(** ** Text

    The characters of a string are its code units; the functions below are
    exact on code units below 256. *)

Module Text.

(** [\d] *)
Definition is_digit (c : ascii) : bool :=
  let n := N_of_ascii c in ((48 <=? n) && (n <=? 57))%N.

(** [\s]: tab, line feed, vertical tab, form feed, carriage return, space,
    no-break space. *)
Definition is_space (c : ascii) : bool :=
  let n := N_of_ascii c in
  ((9 <=? n) && (n <=? 13) || (n =? 32) || (n =? 160))%N.

(** [[a-z0-9]] with the flag [i] *)
Definition is_alnum (c : ascii) : bool :=
  let n := N_of_ascii c in
  ((48 <=? n) && (n <=? 57) || (97 <=? n) && (n <=? 122) || (65 <=? n) && (n <=? 90))%N.

(** The lower-case form of a character: A-Z, and the capital letters from
    192 to 222 (not the multiplication sign, 215). *)
Definition lower (c : ascii) : ascii :=
  let n := N_of_ascii c in
  if ((65 <=? n) && (n <=? 90)
      || (192 <=? n) && (n <=? 222) && negb (n =? 215))%N
  then ascii_of_N (n + 32) else c.

(** [s.toLowerCase()] *)
Fixpoint toLowerCase (s : string) : string :=
  match s with
  | EmptyString => EmptyString
  | String c t => String (lower c) (toLowerCase t)
  end.

(** [s.replace(/[^a-z0-9]/gi, '-')] *)
Fixpoint dash_non_alnum (s : string) : string :=
  match s with
  | EmptyString => EmptyString
  | String c t => String (if is_alnum c then c else "-"%char) (dash_non_alnum t)
  end.

Fixpoint trim_start (s : string) : string :=
  match s with
  | String c t => if is_space c then trim_start t else s
  | EmptyString => s
  end.

(** The string without the white space it ends with. *)
Fixpoint trim_end (s : string) : string :=
  match s with
  | EmptyString => EmptyString
  | String c t =>
      match trim_end t with
      | EmptyString => if is_space c then EmptyString else String c EmptyString
      | t' => String c t'
      end
  end.

(** [s.trim()] *)
Definition trim (s : string) : string := trim_end (trim_start s).

End Text.

(** ** Regular expressions *)

Module Regex.

Inductive t : Type :=
  | Void : t                       (* matches nothing *)
  | Eps : t                        (* the empty string *)
  | Class (p : ascii -> bool) : t  (* one character of a class *)
  | Seq (r1 r2 : t) : t
  | Alt (r1 r2 : t) : t
  | Star (r : t) : t.

(** [r+] *)
Definition Plus (r : t) : t := Seq r (Star r).

(** The strings of a regular expression. *)
Inductive Matches : t -> list ascii -> Prop :=
  | MEps : Matches Eps []
  | MClass p c : p c = true -> Matches (Class p) [c]
  | MSeq r1 r2 s1 s2 : Matches r1 s1 -> Matches r2 s2 -> Matches (Seq r1 r2) (s1 ++ s2)
  | MAltL r1 r2 s : Matches r1 s -> Matches (Alt r1 r2) s
  | MAltR r1 r2 s : Matches r2 s -> Matches (Alt r1 r2) s
  | MStarNil r : Matches (Star r) []
  | MStarApp r s1 s2 : Matches r s1 -> Matches (Star r) s2 -> Matches (Star r) (s1 ++ s2).

Fixpoint nullable (r : t) : bool :=
  match r with
  | Void | Class _ => false
  | Eps | Star _ => true
  | Seq r1 r2 => nullable r1 && nullable r2
  | Alt r1 r2 => nullable r1 || nullable r2
  end.

(** What is left of [r] after the character [c]. *)
Fixpoint deriv (c : ascii) (r : t) : t :=
  match r with
  | Void | Eps => Void
  | Class p => if p c then Eps else Void
  | Seq r1 r2 =>
      if nullable r1 then Alt (Seq (deriv c r1) r2) (deriv c r2)
      else Seq (deriv c r1) r2
  | Alt r1 r2 => Alt (deriv c r1) (deriv c r2)
  | Star r' => Seq (deriv c r') (Star r')
  end.

Fixpoint matches (r : t) (s : list ascii) : bool :=
  match s with
  | [] => nullable r
  | c :: s' => matches (deriv c r) s'
  end.

(** [/^r$/.test(s)] *)
Definition test (r : t) (s : string) : bool := matches r (String.list_ascii_of_string s).

End Regex.

(** ** The form helpers *)

Module Forms.

(** [[^\s@]] *)
Definition email_char (c : ascii) : bool :=
  negb (Text.is_space c || Ascii.eqb c "@"%char).

Definition is_char (a c : ascii) : bool := Ascii.eqb c a.

(** [/^[^\s@]+@[^\s@]+\.[^\s@]+$/] *)
Definition email_re : Regex.t :=
  Regex.Seq (Regex.Plus (Regex.Class email_char))
    (Regex.Seq (Regex.Class (is_char "@"%char))
       (Regex.Seq (Regex.Plus (Regex.Class email_char))
          (Regex.Seq (Regex.Class (is_char "."%char))
             (Regex.Plus (Regex.Class email_char))))).

(** validateEmail(email) *)
Definition validateEmail (email : string) : bool := Regex.test email_re email.

(** [[\d\s\-\+\(\)]] *)
Definition phone_char (c : ascii) : bool :=
  Text.is_digit c || Text.is_space c
  || Ascii.eqb c "-"%char || Ascii.eqb c "+"%char
  || Ascii.eqb c "("%char || Ascii.eqb c ")"%char.

(** [/^[\d\s\-\+\(\)]+$/] *)
Definition phone_re : Regex.t := Regex.Plus (Regex.Class phone_char).

(** [phone.replace(/\D/g, '').length] *)
Definition digit_count (phone : string) : nat :=
  length (List.filter Text.is_digit (String.list_ascii_of_string phone)).

(** validatePhone(phone) *)
Definition validatePhone (phone : string) : bool :=
  Regex.test phone_re phone && (10 <=? digit_count phone)%nat.

End Forms.

(** ** The page: navigation and the add-to-cart buttons *)

Module Page.

(** [pathname.split('/').pop()]: what follows the last slash. *)
Fixpoint last_segment_from (acc : string) (s : string) : string :=
  match s with
  | EmptyString => acc
  | String c t =>
      if Ascii.eqb c "/"%char then last_segment_from EmptyString t
      else last_segment_from (acc +:+ String c EmptyString) t
  end.

Definition last_segment (pathname : string) : string :=
  last_segment_from EmptyString pathname.

(** [window.location.pathname.split('/').pop() || 'homepage.html'] *)
Definition currentPage (pathname : string) : string :=
  let page := last_segment pathname in
  if String.eqb page EmptyString then "homepage.html" else page.

(** The test that marks a link active; [linkPage] is the [href] attribute,
    [None] when the link has none. *)
Definition is_active (linkPage : option string) (pathname : string) : bool :=
  let currentPage := currentPage pathname in
  bool_decide (linkPage = Some currentPage)
  || (String.eqb currentPage EmptyString
      && bool_decide (linkPage = Some "homepage.html")).

(** What the click listener reads from a product card. *)
Record card : Type := {
  data_id : option string;      (* card.dataset.id *)
  heading : string;             (* h3 textContent *)
  price_text : string;          (* .product-price textContent *)
  image_src : string;           (* .product-img src *)
  category_text : option string (* .product-category textContent, if any *)
}.

(** [name.replace(/[^a-z0-9]/gi, '-').toLowerCase()] *)
Definition slug (name : string) : string :=
  Text.toLowerCase (Text.dash_non_alnum name).

(** The id given to the product of a card. *)
Definition card_id (k : card) : string :=
  match data_id k with
  | Some id => if String.eqb id EmptyString then slug (Text.trim (heading k)) else id
  | None => slug (Text.trim (heading k))
  end.

(** The object literal [product] of the listener. *)
Definition product_of (k : card) : object :=
  obj [("id", VStr (card_id k));
       ("name", VStr (Text.trim (heading k)));
       ("price", VStr (Text.trim (price_text k)));
       ("image", VStr (image_src k));
       ("category", VStr (match category_text k with
                          | Some t => Text.trim t
                          | None => EmptyString
                          end))].

(** The click listener of an add-to-cart button inside the card. *)
Definition click_add (P : platform) (k : card) (c : state) : object * state :=
  Cart.add P (product_of k) c.

End Page.

(** The characters a slug is made of: a-z, 0-9 and the hyphen. *)
Definition slug_char (c : ascii) : bool :=
  let n := N_of_ascii c in
  ((97 <=? n) && (n <=? 122) || (48 <=? n) && (n <=? 57) || (n =? 45))%N.

(** The characters of a string. *)
Definition chars (s : string) : list ascii := String.list_ascii_of_string s.

(** ** More sample data *)

Module Shelf.

(** A cart page holding the hammer and the bolt. *)
Definition two_items : state :=
  {| items := [Samples.hammer; Samples.bolt];
     stored := Some (Testing.stringify [Samples.hammer; Samples.bolt]);
     cartContent := true;
     effects := [] |}.

(** A platform whose [JSON.parse] decodes the stored text of the hammer
    cart. *)
Definition platform : platform :=
  Testing.platform_with
    [(Testing.stringify [Samples.hammer], JArr [Obj Samples.hammer])].

Definition claw_card : Page.card :=
  {| Page.data_id := None; Page.heading := "  Claw Hammer ";
     Page.price_text := "LKR 1,250"; Page.image_src := "images/claw.jpg";
     Page.category_text := Some "Tools" |}.

Definition claw_card_again : Page.card :=
  {| Page.data_id := None; Page.heading := "claw-hammer";
     Page.price_text := "LKR 1,300"; Page.image_src := "images/claw2.jpg";
     Page.category_text := None |}.

End Shelf.

(** ** The total in the words of the specification *)

Module Spec.

(** The characters of the price text that are digits or dots. *)
Definition digits_and_dots (text : string) : list ascii :=
  List.filter (fun c => Text.is_digit c || Ascii.eqb c "."%char)
              (String.list_ascii_of_string text).

Fixpoint leading_digits (l : list ascii) : list ascii :=
  match l with
  | c :: l' => if Text.is_digit c then c :: leading_digits l' else []
  | [] => []
  end.

Fixpoint after_digits (l : list ascii) : list ascii :=
  match l with
  | c :: l' => if Text.is_digit c then after_digits l' else l
  | [] => []
  end.

Definition numeral (ds : list ascii) : Z :=
  fold_left (fun acc c => 10 * acc + (Z.of_N (N_of_ascii c) - 48)) ds 0.

(** The numeric price of a price text: what is left of it once everything
    but digits and dots is taken out is read as a whole part and, after a
    dot, a fraction; 0 when there is no digit to read. *)
Definition price (text : string) : Q :=
  let kept := digits_and_dots text in
  let whole := leading_digits kept in
  let fraction :=
    match after_digits kept with
    | "."%char :: rest => leading_digits rest
    | _ => []
    end in
  inject_Z (numeral whole)
  + (numeral fraction # Pos.pow 10 (Pos.of_nat (length fraction))).

(** The quantity of an item, 1 standing in for a missing or falsy one. *)
Definition quantity (P : platform) (item : object) : number :=
  match item !! "quantity" with
  | None => Int 1
  | Some v => if JS.truthy v then Cart.ToNumber P v else Int 1
  end.

(** The quantity of an item, 1 standing in for a missing one only. *)
Definition quantity_if_present (P : platform) (item : object) : number :=
  match item !! "quantity" with
  | None => Int 1
  | Some v => Cart.ToNumber P v
  end.

(** Price times quantity, as a rational (0 for a quantity that is not
    finite). *)
Definition line (qty : object -> number) (item : object) : Q :=
  price (Cart.priceStr item) * default 0%Q (Double.to_Q (qty item)).

(** The sum over the items of price times quantity. *)
Definition total (qty : object -> number) (l : list object) : Q :=
  foldr (fun item acc => line qty item + acc)%Q 0%Q l.

(** The rational is a double. *)
Definition exact (x : Q) : bool :=
  bool_decide (Double.round x = Double.of_Q x).

(** Every quantity is finite, and every price, every product and every
    running sum, from [acc] on, is a double. *)
Fixpoint sums_exactly (qty : object -> number) (l : list object) (acc : Q) : bool :=
  match l with
  | [] => true
  | item :: l' =>
      match Double.to_Q (qty item) with
      | Some q =>
          let p := price (Cart.priceStr item) in
          exact p && exact (p * q) && exact (acc + p * q)
          && sums_exactly qty l' (acc + p * q)
      | None => false
      end
  end.

(** The sum as doubles give it: each price rounded, each product rounded,
    and the products added one after the other, each sum rounded. *)
Definition rounded_total (qty : object -> number) (l : list object) : number :=
  fold_left
    (fun acc item =>
       Double.add acc (Double.mul (Double.round (price (Cart.priceStr item))) (qty item)))
    l (Int 0).

End Spec.

(** ** Whole prices *)

(** The price of the item is a whole number. *)
Definition whole_price (item : object) : bool :=
  match Cart.price_of item with
  | Int p => 0 <=? p
  | _ => false
  end.

Definition price_Z (item : object) : Z :=
  match Cart.price_of item with
  | Int p => p
  | _ => 0
  end.

(** The sum over the items of price times quantity, for whole prices and
    integer quantities. *)
Definition whole_total (l : list object) : Z :=
  foldr Z.add 0 ((fun item => price_Z item * quantity_of item) <$> l).

(** * Properties *)

(** ** The built-ins on sample inputs *)

Example parseInt_ex1 : JS.parseInt (VStr "  42px") = Int 42.
Proof. reflexivity. Qed.
Example parseInt_ex2 : JS.parseInt (VStr "-0x1F") = Int (-31).
Proof. reflexivity. Qed.
Example parseInt_ex3 : JS.parseInt VUndefined = NaN.
Proof. reflexivity. Qed.
Example parseInt_ex4 : JS.parseInt (VNum (Int 1000000000000000000000)) = Int 1.
Proof. vm_compute. reflexivity. Qed.
Example parseInt_ex5 : JS.parseInt (VNum (Int 600000000000000000000)) = Int 600000000000000000000.
Proof. vm_compute. reflexivity. Qed.
Example parseInt_ex6 : JS.parseInt (VStr "9007199254740993") = Int 9007199254740992.
Proof. vm_compute. reflexivity. Qed.
Example parseInt_ex7 : JS.parseInt (VStr "999999999999999999999") = Int 1000000000000000000000.
Proof. vm_compute. reflexivity. Qed.
Example parseInt_ex8 : JS.parseInt (VStr (String (ascii_of_N 160) "7")) = Int 7.
Proof. vm_compute. reflexivity. Qed.
Example parseInt_ex9 : JS.parseInt (VNum (Frac (5 # 2))) = Int 2.
Proof. vm_compute. reflexivity. Qed.
Example parseInt_ex10 : JS.parseInt (VNum PInf) = NaN.
Proof. reflexivity. Qed.
Example toString_ex1 : JS.ToString (VNum (Int 1200000000000000000000)) = "1.2e+21".
Proof. vm_compute. reflexivity. Qed.
Example toString_ex2 : JS.ToString (VNum (Int (-15))) = "-15".
Proof. vm_compute. reflexivity. Qed.
Example toString_ex3 : JS.ToString (VNum (Int (2 ^ 60))) = "1152921504606847000".
Proof. vm_compute. reflexivity. Qed.
Example toString_ex4 : JS.ToString (VNum (Double.round (1999 # 100))) = "19.99".
Proof. vm_compute. reflexivity. Qed.
Example toString_ex5 : JS.ToString (VNum (Double.round (1 # 10000000))) = "1e-7".
Proof. vm_compute. reflexivity. Qed.
Example toString_ex6 :
  JS.ToString (VNum (Double.add (Double.round (1 # 10)) (Double.round (2 # 10))))
  = "0.30000000000000004".
Proof. vm_compute. reflexivity. Qed.
Example round_ex1 : Double.round_Z (2 ^ 53 + 1) = Int (2 ^ 53).
Proof. vm_compute. reflexivity. Qed.
Example round_ex2 : Double.round_Z (2 ^ 53 + 3) = Int (2 ^ 53 + 4).
Proof. vm_compute. reflexivity. Qed.
Example round_ex3 : Double.round_Z (10 ^ 400) = PInf.
Proof. vm_compute. reflexivity. Qed.
Example round_ex4 : Double.add (Int (2 ^ 53)) (Int 1) = Int (2 ^ 53).
Proof. vm_compute. reflexivity. Qed.
Example round_ex5 :
  Double.mul (Double.round (1 # 10)) (Int 3) = Double.round (30000000000000004 # 10 ^ 17).
Proof. vm_compute. reflexivity. Qed.
Example parseFloat_ex1 : Price.parseFloat (Price.strip "$10.50") = Frac (21 # 2).
Proof. vm_compute. reflexivity. Qed.
Example parseFloat_ex2 : Price.parseFloat (Price.strip "Rs. 1,500.00") = Double.round (15 # 100).
Proof. vm_compute. reflexivity. Qed.
Example parseFloat_ex3 : Price.parseFloat (Price.strip "free") = NaN.
Proof. reflexivity. Qed.
Example parseFloat_ex4 : Price.parseFloat (Price.strip "LKR 5.") = Int 5.
Proof. vm_compute. reflexivity. Qed.

(** ** Rounding an integer *)


Lemma nearest_even_bounds n d :
  0 <= n -> 0 < d ->
  n / d <= Double.nearest_even n d <= n / d + 1.
Proof.
  intros Hn Hd. unfold Double.nearest_even.
  destruct (2 * (n mod d) <? d); [lia|].
  destruct (d <? 2 * (n mod d)); [lia|].
  destruct (Z.even (n / d)); lia.
Qed.

Lemma nearest_even_exact m d : 0 < d -> Double.nearest_even (m * d) d = m.
Proof.
  intros Hd. unfold Double.nearest_even.
  rewrite Z.div_mul by lia. rewrite Z.mod_mul by lia.
  destruct (Z.ltb_spec (2 * 0) d); [done|lia].
Qed.

(** The shape of a rounded integer beyond 2^53. *)
Lemma round_Z_large z :
  2 ^ 53 < Z.abs z ->
  exists e m,
    1 <= e /\ 2 ^ 52 <= m <= 2 ^ 53 /\
    e = Z.log2 (Z.abs z) - 52 /\
    Z.abs z / 2 ^ e <= m <= Z.abs z / 2 ^ e + 1 /\
    Double.round_Z z =
      if 2 ^ 1024 <=? m * 2 ^ e then (if z <? 0 then NInf else PInf)
      else Int (if z <? 0 then - (m * 2 ^ e) else m * 2 ^ e).
Proof.
  intros Hz. set (a := Z.abs z) in *.
  assert (Ha : 0 < a) by lia.
  pose proof (Z.log2_spec a Ha) as [Hlo Hhi].
  assert (Hl : 53 <= Z.log2 a).
  { apply Z.log2_le_pow2; lia. }
  set (e := Z.log2 a - 52).
  assert (He : 1 <= e) by lia.
  assert (Hpow : 2 ^ Z.log2 a = 2 ^ 52 * 2 ^ e).
  { rewrite <- Z.pow_add_r by lia. f_equal. lia. }
  assert (Hpow' : 2 ^ Z.succ (Z.log2 a) = 2 ^ 53 * 2 ^ e).
  { rewrite <- Z.pow_add_r by lia. f_equal. lia. }
  assert (Hpe : 0 < 2 ^ e) by (apply Z.pow_pos_nonneg; lia).
  assert (Hm : 2 ^ 52 <= a / 2 ^ e < 2 ^ 53).
  { split.
    - apply Z.div_le_lower_bound; [lia|]. lia.
    - apply Z.div_lt_upper_bound; [lia|]. lia. }
  pose proof (nearest_even_bounds a (2 ^ e) ltac:(lia) Hpe) as Hn.
  exists e, (Double.nearest_even a (2 ^ e)).
  split; [done|]. split; [lia|]. split; [done|]. split; [done|].
  unfold Double.round_Z. fold a.
  destruct (Z.leb_spec a (2 ^ 53)); [lia|]. reflexivity.
Qed.

Lemma round_Z_small z : Z.abs z <= 2 ^ 53 -> Double.round_Z z = Int z.
Proof.
  intros Hz. unfold Double.round_Z. by destruct (Z.leb_spec (Z.abs z) (2 ^ 53)); [|lia].
Qed.

Lemma log2_scaled m e :
  2 ^ 52 <= m < 2 ^ 53 -> 0 <= e -> Z.log2 (m * 2 ^ e) = 52 + e.
Proof.
  intros Hm He. apply Z.log2_unique; [lia|].
  assert (Hpe : 0 < 2 ^ e) by (apply Z.pow_pos_nonneg; lia).
  rewrite Z.pow_succ_r, Z.pow_add_r by lia.
  change (2 ^ 53) with (2 * 2 ^ 52) in Hm. nia.
Qed.

(** A multiple of [2^e] with 53 significant bits is a double. *)
Lemma round_Z_scaled m e :
  2 ^ 52 <= m <= 2 ^ 53 -> 0 <= e -> m * 2 ^ e < 2 ^ 1024 ->
  Double.round_Z (m * 2 ^ e) = Int (m * 2 ^ e) /\
  Double.round_Z (- (m * 2 ^ e)) = Int (- (m * 2 ^ e)).
Proof.
  intros Hm He Hv.
  assert (Hpe : 0 < 2 ^ e) by (apply Z.pow_pos_nonneg; lia).
  assert (Hgen : forall m' e', 2 ^ 52 <= m' < 2 ^ 53 -> 0 <= e' -> m' * 2 ^ e' < 2 ^ 1024 ->
            Double.round_Z (m' * 2 ^ e') = Int (m' * 2 ^ e') /\
            Double.round_Z (- (m' * 2 ^ e')) = Int (- (m' * 2 ^ e'))).
  { clear. intros m e Hm He Hv.
    assert (Hpe : 0 < 2 ^ e) by (apply Z.pow_pos_nonneg; lia).
    assert (Hpos : 0 < m * 2 ^ e) by nia.
    destruct (Z.le_gt_cases (m * 2 ^ e) (2 ^ 53)) as [Hs|Hl].
    { split; apply round_Z_small; lia. }
    assert (Hlog : Z.log2 (m * 2 ^ e) = 52 + e) by (by apply log2_scaled).
    unfold Double.round_Z.
    rewrite Z.abs_opp, (Z.abs_eq (m * 2 ^ e)) by lia.
    destruct (Z.leb_spec (m * 2 ^ e) (2 ^ 53)); [lia|].
    rewrite Hlog. replace (52 + e - 52) with e by lia.
    rewrite nearest_even_exact by done.
    destruct (Z.leb_spec (2 ^ 1024) (m * 2 ^ e)); [lia|].
    destruct (Z.ltb_spec (m * 2 ^ e) 0); [lia|].
    destruct (Z.ltb_spec (- (m * 2 ^ e)) 0); [|lia]. done. }
  destruct (decide (m = 2 ^ 53)) as [->|Hne].
  - replace (2 ^ 53 * 2 ^ e) with (2 ^ 52 * 2 ^ (e + 1)) in *
      by (rewrite Z.pow_add_r by lia; lia).
    apply Hgen; [lia|lia|done].
  - apply Hgen; [lia|done|done].
Qed.

(** Rounding twice is rounding once. *)
Lemma round_Z_idem z w : Double.round_Z z = Int w -> Double.round_Z w = Int w.
Proof.
  destruct (Z.le_gt_cases (Z.abs z) (2 ^ 53)) as [Hs|Hl].
  - rewrite round_Z_small by done. intros [= <-]. by apply round_Z_small.
  - destruct (round_Z_large z Hl) as (e & m & He & Hm & _ & _ & ->).
    destruct (Z.leb_spec (2 ^ 1024) (m * 2 ^ e)) as [|Hv]; [by destruct (z <? 0)|].
    destruct (round_Z_scaled m e Hm ltac:(lia) Hv) as [Hp Hn].
    destruct (z <? 0); intros [= <-]; done.
Qed.

(** A rounded integer keeps its sign and at least half its size. *)
Lemma round_Z_nonneg z w : 0 <= z -> Double.round_Z z = Int w -> z <= 2 * w /\ w <= 2 * z.
Proof.
  intros Hz. destruct (Z.le_gt_cases (Z.abs z) (2 ^ 53)) as [Hs|Hl].
  - rewrite round_Z_small by done. intros [= <-]. lia.
  - destruct (round_Z_large z Hl) as (e & m & He & Hm & Hlog & Hq & ->).
    destruct (Z.leb_spec (2 ^ 1024) (m * 2 ^ e)) as [|Hv]; [by destruct (z <? 0)|].
    destruct (Z.ltb_spec z 0); [lia|]. intros [= <-].
    rewrite Z.abs_eq in * by lia.
    assert (Hpe : 0 < 2 ^ e) by (apply Z.pow_pos_nonneg; lia).
    pose proof (Z.div_mod z (2 ^ e) ltac:(lia)) as Hdm.
    pose proof (Z.mod_pos_bound z (2 ^ e) Hpe) as Hmod.
    assert (H52 : 2 ^ 52 <= z / 2 ^ e).
    { apply Z.div_le_lower_bound; [lia|].
      pose proof (Z.log2_spec z ltac:(lia)) as [Hlo _].
      replace (2 ^ Z.log2 z) with (2 ^ 52 * 2 ^ e) in Hlo
        by (rewrite <- Z.pow_add_r by lia; f_equal; lia). lia. }
    split; nia.
Qed.

Lemma round_Z_not_NInf z : 0 <= z -> Double.round_Z z ≠ NInf.
Proof.
  intros Hz. unfold Double.round_Z.
  destruct (Z.abs z <=? 2 ^ 53); [done|].
  destruct (Z.ltb_spec z 0); [lia|]. by destruct (_ <=? _).
Qed.

Lemma round_Z_cases z :
  (exists w, Double.round_Z z = Int w) \/ Double.round_Z z = PInf \/ Double.round_Z z = NInf.
Proof.
  unfold Double.round_Z. destruct (Z.abs z <=? 2 ^ 53); [eauto|].
  destruct (_ <=? _); destruct (z <? 0); eauto.
Qed.



(** ** The digits of an integer double *)

Lemma shortest_from_ind (x : Z) (Pr : Z -> Prop) :
  (forall j : nat, let p := 10 ^ Z.of_nat j in
     Double.round_Z (x / p * p) = Int x -> Pr (x / p * p)) ->
  (forall j : nat, let p := 10 ^ Z.of_nat j in
     Double.round_Z (x / p * p + p) = Int x -> Pr (x / p * p + p)) ->
  Pr x ->
  forall j, Pr (Double.shortest_from x j).
Proof.
  intros Hlo Hhi Hx j. induction j as [|j IH]; cbn [Double.shortest_from].
  - destruct (bool_decide_reflect (Double.round_Z (x / 10 ^ Z.of_nat 0 * 10 ^ Z.of_nat 0) = Int x));
      destruct (bool_decide_reflect
                  (Double.round_Z (x / 10 ^ Z.of_nat 0 * 10 ^ Z.of_nat 0 + 10 ^ Z.of_nat 0) = Int x));
      repeat match goal with |- Pr (if ?b then _ else _) => destruct b end;
      solve [ by apply (Hlo 0%nat) | by apply (Hhi 0%nat) | done ].
  - destruct (bool_decide_reflect
                (Double.round_Z (x / 10 ^ Z.of_nat (S j) * 10 ^ Z.of_nat (S j)) = Int x));
      destruct (bool_decide_reflect
                  (Double.round_Z (x / 10 ^ Z.of_nat (S j) * 10 ^ Z.of_nat (S j)
                                   + 10 ^ Z.of_nat (S j)) = Int x));
      repeat match goal with |- Pr (if ?b then _ else _) => destruct b end;
      solve [ by apply (Hlo (S j)) | by apply (Hhi (S j)) | done ].
Qed.

(** The digits printed for a double read back as that double. *)
Lemma shortest_rounds (x : Z) :
  Double.round_Z x = Int x -> Double.round_Z (Double.shortest x) = Int x.
Proof.
  intros Hx. unfold Double.shortest. by apply shortest_from_ind.
Qed.

Lemma shortest_nonneg (x : Z) : 0 <= x -> 0 <= Double.shortest x.
Proof.
  intros Hx. unfold Double.shortest. apply shortest_from_ind; [| |done].
  - intros j p _. assert (0 < p) by (apply Z.pow_pos_nonneg; lia).
    assert (0 <= x / p) by (apply Z.div_pos; lia). nia.
  - intros j p _. assert (0 < p) by (apply Z.pow_pos_nonneg; lia).
    assert (0 <= x / p) by (apply Z.div_pos; lia). nia.
Qed.

Lemma round_Z_10_21 : Double.round_Z (10 ^ 21) = Int (10 ^ 21).
Proof. vm_compute. reflexivity. Qed.

(** Below 10^21 the digits printed are those of an integer below 10^21. *)
Lemma shortest_below (x : Z) : 0 <= x < 10 ^ 21 -> Double.shortest x < 10 ^ 21.
Proof.
  intros Hx. unfold Double.shortest. apply shortest_from_ind; [| |lia].
  - intros j p _. assert (Hp : 0 < p) by (apply Z.pow_pos_nonneg; lia).
    pose proof (Z.mul_div_le x p Hp). lia.
  - intros j p Hok. assert (Hp : 0 < p) by (apply Z.pow_pos_nonneg; lia).
    destruct (Z.le_gt_cases (Z.of_nat j) 20) as [Hj|Hj].
    + assert (H21 : 10 ^ 21 = p * 10 ^ (21 - Z.of_nat j)).
      { unfold p. rewrite <- Z.pow_add_r by lia. f_equal. lia. }
      assert (Hq : x / p < 10 ^ (21 - Z.of_nat j)).
      { apply Z.div_lt_upper_bound; [done|]. lia. }
      assert (Hle : x / p * p + p <= 10 ^ 21) by (rewrite H21; nia).
      destruct (decide (x / p * p + p = 10 ^ 21)) as [Heq|]; [|lia].
      rewrite Heq, round_Z_10_21 in Hok. injection Hok as Hok. lia.
    + assert (Hbig : 10 ^ 21 <= p).
      { unfold p. apply Z.pow_le_mono_r; lia. }
      rewrite Z.div_small in * by lia. cbn [Z.mul] in *. rewrite Z.add_0_l in *.
      destruct (decide (Z.of_nat j = 21)) as [Hj21|Hj21].
      * exfalso. assert (Hp21 : p = 10 ^ 21) by (unfold p; by rewrite Hj21).
        rewrite Hp21, round_Z_10_21 in Hok. injection Hok as Hok. lia.
      * apply round_Z_nonneg in Hok as [Hhalf _]; [|lia].
        assert (10 ^ 22 <= p) by (unfold p; apply Z.pow_le_mono_r; lia). lia.
Qed.
(** ** Printing an integer and reading it back *)

Section Digits.

Import Decimal.

Lemma digits_prefix_numeral (d : uint) :
  JS.digits_prefix 10 (NilEmpty.string_of_uint d) = (uint_digits d, EmptyString).
Proof.
  induction d; try reflexivity;
    cbn [NilEmpty.string_of_uint JS.digits_prefix uint_digits];
    rewrite IHd; reflexivity.
Qed.

Lemma digits_value_acc (d : uint) (acc : positive) :
  fold_left (fun a x => (10 * a + x)%N) (uint_digits d) (Npos acc)
  = Npos (Pos.of_uint_acc d acc).
Proof.
  revert acc; induction d; intros acc; try reflexivity;
    cbn [uint_digits fold_left Pos.of_uint_acc]; rewrite <- IHd; f_equal; lia.
Qed.

Lemma digits_value_numeral (d : uint) :
  JS.digits_value 10 (uint_digits d) = N.of_uint d.
Proof.
  unfold JS.digits_value, N.of_uint.
  induction d; try reflexivity;
    cbn [uint_digits fold_left Pos.of_uint];
    first [ exact IHd | apply digits_value_acc ].
Qed.

Lemma to_uint_nonnil (n : N) : N.to_uint n ≠ Nil.
Proof.
  destruct n as [|p]; [discriminate|]. apply DecimalPos.Unsigned.to_uint_nonnil.
Qed.

Lemma uint_digits_nonnil (d : uint) : d ≠ Nil -> uint_digits d ≠ [].
Proof. destruct d; intros H; try discriminate. contradiction. Qed.

(** Reading the decimal digits of [n] gives [n] back, with or without a
    minus sign in front. *)
Lemma parseInt_digits (n : N) :
  JS.parseInt_string (JS.digits_of_N n) = Double.round_Z (Z.of_N n).
Proof.
  unfold JS.digits_of_N.
  pose proof (DecimalN.Unsigned.of_to n) as Hn.
  pose proof (to_uint_nonnil n) as Hnil.
  revert Hn Hnil. generalize (N.to_uint n). intros d Hn Hnil.
  assert (Hgen : forall s,
             s = NilEmpty.string_of_uint d ->
             JS.skip_ws s = s ->
             (forall t, s ≠ String "-"%char t) -> (forall t, s ≠ String "+"%char t) ->
             (forall t, s ≠ String "0"%char (String "x"%char t)) ->
             (forall t, s ≠ String "0"%char (String "X"%char t)) ->
             JS.parseInt_string s = Double.round_Z (Z.of_N n)).
  { intros s Hs Hws Hm Hp Hx HX. unfold JS.parseInt_string. rewrite Hws.
    assert (Hd : fst (JS.digits_prefix 10 s) = uint_digits d)
      by (rewrite Hs, digits_prefix_numeral; reflexivity).
    pose proof (uint_digits_nonnil d Hnil) as Hne.
    destruct s as [|c s']; [destruct d; try discriminate; contradiction|].
    destruct (decide (c = "-"%char)) as [->|Hc1]; [exfalso; eapply Hm; reflexivity|].
    destruct (decide (c = "+"%char)) as [->|Hc2]; [exfalso; eapply Hp; reflexivity|].
    assert (Hsign : match String c s' with
                    | String "-"%char t => (true, t)
                    | String "+"%char t => (false, t)
                    | _ => (false, String c s')
                    end = (false, String c s')).
    { destruct c as [[] [] [] [] [] [] [] []]; try reflexivity; congruence. }
    rewrite Hsign.
    assert (Hradix : match String c s' with
                     | String "0"%char (String "x"%char t)
                     | String "0"%char (String "X"%char t) => (16%N, t)
                     | _ => (10%N, String c s')
                     end = (10%N, String c s')).
    { destruct c as [[] [] [] [] [] [] [] []]; try reflexivity.
      destruct s' as [|c' s'']; [reflexivity|].
      destruct c' as [[] [] [] [] [] [] [] []]; try reflexivity;
        exfalso; first [ eapply Hx; reflexivity | eapply HX; reflexivity ]. }
    rewrite Hradix, Hd.
    destruct (uint_digits d) as [|x xs] eqn:E; [contradiction|].
    rewrite <- E, digits_value_numeral, Hn. reflexivity. }
  apply Hgen; [reflexivity| | | | | ].
  - destruct d; try reflexivity; contradiction.
  - intros t; destruct d; discriminate.
  - intros t; destruct d; discriminate.
  - intros t; destruct d as [|d'|d'|d'|d'|d'|d'|d'|d'|d'|d']; try discriminate.
    destruct d'; discriminate.
  - intros t; destruct d as [|d'|d'|d'|d'|d'|d'|d'|d'|d'|d']; try discriminate.
    destruct d'; discriminate.
Qed.
End Digits.

Section Signs.

Import Decimal.






End Signs.


(** [parseInt] of an integer double from 0 to below 10^21 is that integer. *)
Lemma parseInt_small (q : Z) :
  Double.round_Z q = Int q -> 0 <= q < 10 ^ 21 -> JS.parseInt (VNum (Int q)) = Int q.
Proof.
  intros Hd Hq. unfold JS.parseInt, JS.ToString, JS.Number_toString.
  destruct (Z.ltb_spec q 0) as [|_]; [lia|].
  destruct (Z.eqb_spec q 0) as [->|Hne]; [reflexivity|].
  rewrite Z.abs_eq by lia.
  pose proof (shortest_nonneg q ltac:(lia)) as Hs0.
  pose proof (shortest_below q Hq) as Hs1.
  destruct (N.ltb_spec (Z.to_N (Double.shortest q)) (10 ^ 21)) as [_|Hge]; [|lia].
  change (JS.parseInt_string (JS.digits_of_N (Z.to_N (Double.shortest q))) = Int q).
  rewrite parseInt_digits, Z2N.id by done. by apply shortest_rounds.
Qed.

(** An integer up to 2^53 is a double. *)
Lemma parseInt_safe (q : Z) : 0 <= q <= 2 ^ 53 -> JS.parseInt (VNum (Int q)) = Int q.
Proof. intros Hq. apply parseInt_small; [apply round_Z_small|]; lia. Qed.


(** What [parseInt] returns: [NaN], or the rounding of an integer. *)
Lemma parseInt_string_cases (s : string) :
  JS.parseInt_string s = NaN \/ exists z, JS.parseInt_string s = Double.round_Z z.
Proof.
  unfold JS.parseInt_string.
  destruct (match JS.skip_ws s with
            | String "-"%char t => (true, t)
            | String "+"%char t => (false, t)
            | _ => (false, JS.skip_ws s)
            end) as [neg s1].
  destruct (match s1 with
            | String "0"%char (String "x"%char t)
            | String "0"%char (String "X"%char t) => (16%N, t)
            | _ => (10%N, s1)
            end) as [radix s2].
  destruct (JS.digits_prefix radix s2).1; eauto.
Qed.
(** ** The filter and the merge of [validate] *)

Lemma get_string (o : object) k s : JS.get o k = VStr s <-> o !! k = Some (VStr s).
Proof.
  unfold JS.get. destruct (o !! k) as [v|]; cbn; split; intros H; congruence.
Qed.

Lemma keep_Some e item : Cart.keep e = Some item -> e = Obj item /\ kept item.
Proof.
  destruct e as [v|o]; cbn; [discriminate|].
  destruct (JS.truthy (JS.get o "id")) eqn:Ht; cbn; [|discriminate].
  destruct (JS.is_string (JS.get o "id")) eqn:Hs; cbn; [|discriminate].
  destruct (JS.truthy (JS.get o "name")) eqn:Hn; cbn; [|discriminate].
  intros [= <-]. split; [reflexivity|].
  destruct (JS.get o "id") as [| |b|n|s] eqn:E; try discriminate.
  exists s. split; [by apply get_string|]. split; [|done].
  intros ->. discriminate.
Qed.

Lemma kept_keep item : kept item -> Cart.keep (Obj item) = Some item.
Proof.
  intros (s & Hid & Hs & Hn). cbn. apply get_string in Hid. rewrite Hid, Hn. cbn.
  destruct s; [done|reflexivity].
Qed.

Lemma kept_all l : Forall kept (omap Cart.keep l).
Proof.
  induction l as [|e l IH]; cbn; [constructor|].
  destruct (Cart.keep e) eqn:E; [|done].
  constructor; [|done]. by apply keep_Some in E as [_ ?].
Qed.

Lemma kept_key item : kept item -> item !! "id" = Some (VStr (key item)).
Proof.
  intros (s & Hid & _). unfold key, JS.get. by rewrite Hid.
Qed.

Lemma own_None k (u : UniqueItems.t) : UniqueItems.own k u = None <-> k ∉ u.*1.
Proof.
  induction u as [|[k' o] u IH]; cbn.
  - split; [intros _; apply not_elem_of_nil|done].
  - rewrite not_elem_of_cons. destruct (String.eqb_spec k' k) as [->|Hne].
    + split; [discriminate|intros [? _]; done].
    + rewrite IH. split; [intros ?; split; [congruence|done]|intros [_ ?]; done].
Qed.

Lemma own_Some k (u : UniqueItems.t) o : UniqueItems.own k u = Some o -> (k, o) ∈ u.
Proof.
  induction u as [|[k' o'] u IH]; cbn; [discriminate|].
  destruct (String.eqb_spec k' k) as [->|Hne].
  - intros [= ->]. apply list_elem_of_here.
  - intros H. apply list_elem_of_further. auto.
Qed.

Lemma own_elem_of k (u : UniqueItems.t) o :
  NoDup u.*1 -> (k, o) ∈ u -> UniqueItems.own k u = Some o.
Proof.
  induction u as [|[k' o'] u IH]; cbn; intros Hnd Hin.
  - by apply elem_of_nil in Hin.
  - apply NoDup_cons in Hnd as [Hk' Hnd].
    apply elem_of_cons in Hin as [[= -> ->]|Hin].
    + by rewrite String.eqb_refl.
    + destruct (String.eqb_spec k' k) as [->|Hne]; [|auto].
      exfalso. apply Hk'. apply list_elem_of_fmap. by exists (k, o).
Qed.

Lemma update_keys k f (u : UniqueItems.t) : (UniqueItems.update k f u).*1 = u.*1.
Proof.
  induction u as [|[k' o] u IH]; cbn; [done|].
  destruct (String.eqb k' k); cbn; [done|]. by rewrite IH.
Qed.

Lemma update_Forall (Q : string -> object -> Prop) k f (u : UniqueItems.t) :
  (forall o, Q k o -> Q k (f o)) ->
  Forall (fun e => Q e.1 e.2) u ->
  Forall (fun e => Q e.1 e.2) (UniqueItems.update k f u).
Proof.
  intros Hf. induction 1 as [|[k' o] u Ho Hu IH]; cbn; [constructor|].
  destruct (String.eqb_spec k' k) as [->|Hne]; constructor; cbn in *; auto.
Qed.


Lemma normal_quantity_counted item : counted (Cart.normal_quantity item).
Proof.
  unfold Cart.normal_quantity, JS.parseInt.
  destruct (parseInt_string_cases (JS.ToString (JS.get item "quantity"))) as [->|[z Hz]];
    [cbn; split; [lia|reflexivity]|].
  rewrite Hz. destruct (round_Z_cases z) as [[w Hw]|[Hw|Hw]]; rewrite Hw; cbn.
  - destruct (Z.ltb_spec w 1); cbn; [split; [lia|reflexivity]|].
    split; [done|]. by apply (round_Z_idem z).
  - done.
  - split; [lia|reflexivity].
Qed.

Lemma add_counted a b : counted a -> counted b -> counted (Double.add a b).
Proof.
  destruct a as [|x| | |], b as [|y| | |]; cbn; try done.
  intros [Hx _] [Hy _].
  destruct (round_Z_cases (x + y)) as [[w Hw]|[Hw|Hw]]; rewrite Hw; cbn; [|done|].
  - split; [|by apply (round_Z_idem (x + y))].
    apply round_Z_nonneg in Hw; lia.
  - by apply round_Z_not_NInf in Hw; [|lia].
Qed.

Lemma normal_price_string item : exists p, Cart.normal_price item = VStr p.
Proof.
  unfold Cart.normal_price. destruct (JS.get item "price") eqn:E; cbn; eauto.
Qed.

Lemma normalized_filed item :
  kept item -> UniqueItems.inherited (key item) = false ->
  filed (key item) (Cart.normalized item).
Proof.
  intros Hk Hinh. pose proof (kept_key item Hk) as Hid.
  destruct Hk as (s & Hs & Hne & Hname).
  assert (key item = s) as Hkey by congruence.
  unfold filed, Cart.normalized. repeat split.
  - rewrite !lookup_insert_ne by done. rewrite lookup_insert_eq.
    unfold JS.get. by rewrite Hid.
  - done.
  - congruence.
  - unfold JS.get in *. by rewrite !lookup_insert_ne by done.
  - exists (Cart.normal_quantity item). split; [|apply normal_quantity_counted].
    rewrite lookup_insert_ne by done. by rewrite lookup_insert_eq.
  - destruct (normal_price_string item) as [p Hp]. exists p.
    by rewrite lookup_insert_eq, Hp.
Qed.

Lemma bump_with_number n q o :
  o !! "quantity" = Some (VNum q) -> Cart.bump n o = with_number (Double.add q n) o.
Proof. intros Hq. unfold Cart.bump, with_number, JS.get. by rewrite Hq. Qed.

Lemma bump_filed k n o : counted n -> filed k o -> filed k (Cart.bump n o).
Proof.
  intros Hn (Hid & Hinh & Hne & Hname & (q & Hq & Hq1) & (p & Hp)).
  rewrite (bump_with_number n q o Hq).
  unfold filed, with_number, JS.get in *.
  repeat split; try done.
  - by rewrite lookup_insert_ne.
  - by rewrite lookup_insert_ne.
  - exists (Double.add q n). split; [by rewrite lookup_insert_eq|by apply add_counted].
  - exists p. by rewrite lookup_insert_ne.
Qed.

Lemma merge_well_filed u item :
  kept item -> well_filed u -> well_filed (Cart.merge u item).
Proof.
  intros Hk [Hnd Hall]. unfold Cart.merge. fold (key item).
  destruct (UniqueItems.own (key item) u) as [o|] eqn:Hown.
  - split; [by rewrite update_keys|].
    apply (update_Forall filed); [|done].
    intros o'. apply bump_filed, normal_quantity_counted.
  - destruct (UniqueItems.inherited (key item)) eqn:Hinh; [done|].
    split.
    + rewrite fmap_app. cbn. apply NoDup_app. split; [done|].
      split; [|apply NoDup_singleton].
      intros x Hx ->%list_elem_of_singleton. by apply own_None in Hown.
    + apply Forall_app. split; [done|]. constructor; [|constructor].
      by apply normalized_filed.
Qed.
Lemma fold_merge_well_filed l u :
  Forall kept l -> well_filed u -> well_filed (fold_left Cart.merge l u).
Proof.
  intros Hl; revert u. induction Hl as [|item l Hk Hl IH]; intros u Hu; cbn; [done|].
  apply IH. by apply merge_well_filed.
Qed.

Lemma well_filed_nil : well_filed [].
Proof. split; [apply NoDup_nil_2|constructor]. Qed.

(** ** What [uniqueItems] holds under a name once the loop is over *)

Lemma own_update k f (u : UniqueItems.t) :
  UniqueItems.own k (UniqueItems.update k f u) = f <$> UniqueItems.own k u.
Proof.
  induction u as [|[k' o] u IH]; cbn; [done|].
  destruct (String.eqb_spec k' k) as [->|Hne]; cbn.
  - by rewrite String.eqb_refl.
  - destruct (String.eqb_spec k' k); [done|]. apply IH.
Qed.

Lemma own_update_ne k k' f (u : UniqueItems.t) :
  k ≠ k' -> UniqueItems.own k (UniqueItems.update k' f u) = UniqueItems.own k u.
Proof.
  intros Hne. induction u as [|[k'' o] u IH]; cbn; [done|].
  destruct (String.eqb_spec k'' k') as [->|Hne']; cbn.
  - destruct (String.eqb_spec k' k); [congruence|done].
  - destruct (String.eqb_spec k'' k); [done|apply IH].
Qed.

Lemma own_app k (u v : UniqueItems.t) :
  UniqueItems.own k (u ++ v) =
  match UniqueItems.own k u with
  | Some o => Some o
  | None => UniqueItems.own k v
  end.
Proof.
  induction u as [|[k' o] u IH]; cbn; [done|].
  destruct (String.eqb k' k); [done|apply IH].
Qed.

Lemma own_merge_ne k u item :
  key item ≠ k -> UniqueItems.own k (Cart.merge u item) = UniqueItems.own k u.
Proof.
  intros Hne. unfold Cart.merge. fold (key item).
  destruct (UniqueItems.own (key item) u).
  - by apply own_update_ne.
  - destruct (UniqueItems.inherited (key item)); [done|].
    rewrite own_app. cbn. destruct (String.eqb_spec (key item) k); [done|].
    by destruct (UniqueItems.own k u).
Qed.


Lemma with_number_twice a b o : with_number a (with_number b o) = with_number a o.
Proof. apply insert_insert_eq. Qed.

Lemma with_number_same n o :
  o !! "quantity" = Some (VNum n) -> with_number n o = o.
Proof. apply insert_id. Qed.

Lemma with_quantity_twice a b o : with_quantity a (with_quantity b o) = with_quantity a o.
Proof. apply insert_insert_eq. Qed.

Lemma with_quantity_same q o :
  o !! "quantity" = Some (VNum (Int q)) -> with_quantity q o = o.
Proof. apply insert_id. Qed.

Lemma filed_under_cons k item l :
  filed_under k (item :: l) =
  if decide (key item = k) then item :: filed_under k l else filed_under k l.
Proof. reflexivity. Qed.

Lemma own_fold_present l : forall u k o n,
  UniqueItems.own k u = Some o ->
  o !! "quantity" = Some (VNum n) ->
  UniqueItems.own k (fold_left Cart.merge l u)
  = Some (with_number (add_quantities n (filed_under k l)) o).
Proof.
  induction l as [|item l IH]; intros u k o n Hown Hq; cbn [fold_left].
  - rewrite Hown. f_equal. symmetry. by apply with_number_same.
  - rewrite filed_under_cons. destruct (decide (key item = k)) as [Hk|Hk].
    + assert (Hm : UniqueItems.own k (Cart.merge u item)
                   = Some (with_number (Double.add n (Cart.normal_quantity item)) o)).
      { unfold Cart.merge. fold (key item). rewrite Hk, Hown, own_update, Hown. cbn.
        f_equal. by apply bump_with_number. }
      rewrite (IH _ _ _ _ Hm (lookup_insert_eq _ _ _)).
      by rewrite with_number_twice.
    + apply IH; [|done]. by rewrite own_merge_ne.
Qed.

Lemma own_fold_absent l : forall u k,
  UniqueItems.own k u = None ->
  UniqueItems.inherited k = false ->
  UniqueItems.own k (fold_left Cart.merge l u)
  = match filed_under k l with
    | [] => None
    | first :: rest =>
        Some (with_number (merged_quantity first rest) (Cart.normalized first))
    end.
Proof.
  induction l as [|item l IH]; intros u k Hown Hinh; cbn [fold_left]; [done|].
  rewrite filed_under_cons. destruct (decide (key item = k)) as [Hk|Hk].
  - assert (Hm : UniqueItems.own k (Cart.merge u item) = Some (Cart.normalized item)).
    { unfold Cart.merge. fold (key item). rewrite Hk, Hown, Hinh, own_app, Hown. cbn.
      by rewrite String.eqb_refl. }
    rewrite (own_fold_present l _ _ _ (Cart.normal_quantity item) Hm).
    + done.
    + unfold Cart.normalized. rewrite lookup_insert_ne by done.
      by rewrite lookup_insert_eq.
  - rewrite IH; [done| |done]. by rewrite own_merge_ne.
Qed.
Lemma own_fold_inherited l : forall u k,
  UniqueItems.own k u = None ->
  UniqueItems.inherited k = true ->
  UniqueItems.own k (fold_left Cart.merge l u) = None.
Proof.
  induction l as [|item l IH]; intros u k Hown Hinh; cbn; [done|].
  apply IH; [|done]. destruct (decide (key item = k)) as [Hk|Hk].
  - unfold Cart.merge. fold (key item). by rewrite Hk, Hown, Hinh.
  - by rewrite own_merge_ne.
Qed.

(** ** [Object.values] *)

Lemma insert_by_index_perm n o l : UniqueItems.insert_by_index n o l ≡ₚ (n, o) :: l.
Proof.
  induction l as [|[m p] l IH]; cbn; [done|].
  destruct (n <=? m)%N; [done|]. rewrite IH. apply Permutation_swap.
Qed.

Lemma values_perm (u : UniqueItems.t) : UniqueItems.values u ≡ₚ u.*2.
Proof.
  unfold UniqueItems.values. induction u as [|[k o] u IH]; cbn; [done|].
  destruct (UniqueItems.array_index k) as [n|].
  - rewrite insert_by_index_perm. cbn. by rewrite IH.
  - rewrite <- Permutation_middle. by rewrite IH.
Qed.

Lemma filed_key k o : filed k o -> key o = k.
Proof. intros (Hid & _). unfold key, JS.get. by rewrite Hid. Qed.

Lemma filed_under_entries k (u : UniqueItems.t) :
  well_filed u ->
  filed_under k u.*2 = match UniqueItems.own k u with Some o => [o] | None => [] end.
Proof.
  intros [Hnd Hall]. induction u as [|[k' o] u IH]; [done|].
  cbn in Hnd. apply NoDup_cons in Hnd as [Hk' Hnd].
  apply Forall_cons in Hall as [Ho Hall]. cbn in Ho.
  rewrite fmap_cons. cbn [snd UniqueItems.own].
  rewrite filed_under_cons, (filed_key _ _ Ho).
  destruct (String.eqb_spec k' k) as [->|Hne].
  - rewrite decide_True by done. f_equal. rewrite IH by done.
    by apply own_None in Hk' as ->.
  - rewrite decide_False by done. by apply IH.
Qed.


(** ** Sums that stay below 2^53 *)

Lemma sum_quantities_cons item l total :
  sum_quantities (item :: l) = Some total ->
  exists z t, Cart.normal_quantity item = Int z /\ 1 <= z /\
              sum_quantities l = Some t /\ total = z + t.
Proof.
  unfold sum_quantities. cbn [foldr]. fold (sum_quantities l).
  pose proof (normal_quantity_counted item) as Hc.
  destruct (Cart.normal_quantity item) as [|z| | |]; cbn; try done.
  destruct (sum_quantities l) as [t|]; intros [= <-].
  exists z, t. destruct Hc. done.
Qed.

Lemma sum_quantities_nonneg l total : sum_quantities l = Some total -> 0 <= total.
Proof.
  revert total. induction l as [|item l IH]; intros total.
  - intros [= <-]. lia.
  - intros (z & t & _ & Hz & Ht & ->)%sum_quantities_cons. specialize (IH t Ht). lia.
Qed.

(** As long as the sum is at most 2^53 every addition is exact. *)
Lemma add_quantities_exact l : forall a total,
  0 <= a -> sum_quantities l = Some total -> a + total <= 2 ^ 53 ->
  add_quantities (Int a) l = Int (a + total).
Proof.
  induction l as [|item l IH]; intros a total Ha.
  - intros [= <-] _. cbn. f_equal. lia.
  - intros (z & t & Hq & Hz & Ht & ->)%sum_quantities_cons Hle.
    pose proof (sum_quantities_nonneg l t Ht).
    unfold add_quantities. cbn [fold_left]. rewrite Hq. cbn [Double.add].
    rewrite round_Z_small by lia.
    fold (add_quantities (Int (a + z)) l). rewrite (IH (a + z) t) by (done || lia).
    f_equal. lia.
Qed.

Lemma merged_quantity_exact first rest total :
  sum_quantities (first :: rest) = Some total -> total <= 2 ^ 53 ->
  merged_quantity first rest = Int total.
Proof.
  intros (z & t & Hq & Hz & Ht & ->)%sum_quantities_cons Hle.
  unfold merged_quantity. rewrite Hq. apply add_quantities_exact; [lia|done|done].
Qed.

(** ** Entries sharing an [id] *)

(** C1, as amended.  The entries that pass the filter of [validate] and
    share an [id] (not the name of a property inherited from
    [Object.prototype]) leave exactly one entry with that [id] in the result:
    the first of them, normalized, with the quantities of the others added to
    its own, one after the other, as doubles.  Name, price, image and
    category are those of the first-seen entry.  When the normalized
    quantities are integers whose sum is at most 2^53, the quantity of that
    entry is their sum. *)
Theorem validate_merges_into_first
    (l : list element) (k : string) (first : object) (rest : list object) :
  filed_under k (omap Cart.keep l) = first :: rest ->
  UniqueItems.inherited k = false ->
  filed_under k (Cart.validate_items l)
    = [with_number (merged_quantity first rest) (Cart.normalized first)] /\
  (forall total,
     sum_quantities (first :: rest) = Some total -> total <= 2 ^ 53 ->
     filed_under k (Cart.validate_items l)
       = [with_quantity total (Cart.normalized first)]).
Proof.
  intros Hgroup Hinh.
  assert (H : filed_under k (Cart.validate_items l)
              = [with_number (merged_quantity first rest) (Cart.normalized first)]).
  { unfold Cart.validate_items.
    set (u := fold_left Cart.merge (omap Cart.keep l) []).
    assert (Hu : well_filed u)
      by (apply fold_merge_well_filed; [apply kept_all|apply well_filed_nil]).
    apply Permutation_singleton_r.
    unfold filed_under at 1. rewrite values_perm.
    fold (filed_under k u.*2). rewrite (filed_under_entries k u Hu).
    unfold u. rewrite (own_fold_absent _ [] k eq_refl Hinh), Hgroup. done. }
  split; [exact H|]. intros total Hsum Hle.
  by rewrite H, (merged_quantity_exact first rest total Hsum Hle).
Qed.

Lemma validate_merges_into_first_witness :
  filed_under "a" (omap Cart.keep [Obj Samples.hammer; Obj Samples.claw_hammer])
    = [Samples.hammer; Samples.claw_hammer] /\
  UniqueItems.inherited "a" = false /\
  sum_quantities [Samples.hammer; Samples.claw_hammer] = Some 5 /\
  5 <= 2 ^ 53 /\
  filed_under "a" (Cart.validate_items [Obj Samples.hammer; Obj Samples.claw_hammer])
    = [with_quantity 5 (Cart.normalized Samples.hammer)].
Proof.
  split; [reflexivity|]. split; [reflexivity|]. split; [reflexivity|]. split; [lia|].
  apply (validate_merges_into_first
           [Obj Samples.hammer; Obj Samples.claw_hammer] "a"
           Samples.hammer [Samples.claw_hammer]).
  - reflexivity.
  - reflexivity.
  - reflexivity.
  - lia.
Defined.

(** The merged entry is not the last-seen one with the summed quantity; and
    two entries whose [id] is an inherited name leave no entry at all. *)
Lemma validate_last_seen_counterexample :
  filed_under "a" (Cart.validate_items [Obj Samples.hammer; Obj Samples.claw_hammer])
    ≠ [with_quantity 5 (Cart.normalized Samples.claw_hammer)]
  /\ Cart.validate_items [Obj (Samples.builder 2); Obj (Samples.builder 3)] = [].
Proof.
  split; [|reflexivity].
  intros H. apply (f_equal (fmap (fun o => JS.get o "name"))) in H.
  vm_compute in H. discriminate H.
Qed.

(** Quantities 2 and 3 under one [id] give one entry of quantity 5. *)
Example merge_law :
  Cart.validate_items [Obj Samples.hammer; Obj Samples.claw_hammer]
  = [obj [("id", VStr "a"); ("name", VStr "Hammer"); ("price", VStr "LKR 450");
          ("quantity", VNum (Int 5))]].
Proof. reflexivity. Qed.

(** Beyond 2^53 the sum is rounded: 2^53 and 1 under one [id] give 2^53. *)
Example merge_rounds :
  (fun o => JS.get o "quantity")
    <$> Cart.validate_items [Obj Samples.grinder; Obj Samples.spare_grinder]
  = [VNum (Int 9007199254740992)].
Proof. vm_compute. reflexivity. Qed.

(** ** The order of the result *)





Lemma insert_by_index_Forall (Q : N * object -> Prop) n o l :
  Q (n, o) -> Forall Q l -> Forall Q (UniqueItems.insert_by_index n o l).
Proof.
  intros Hq Hl. rewrite insert_by_index_perm. by constructor.
Qed.

Lemma insert_by_index_sorted n o l :
  StronglySorted (fun a b => (a.1 <= b.1)%N) l ->
  StronglySorted (fun a b => (a.1 <= b.1)%N) (UniqueItems.insert_by_index n o l).
Proof.
  induction 1 as [|[m p] l Hl IH Hm]; cbn.
  - repeat constructor.
  - destruct (N.leb_spec n m) as [Hle|Hgt].
    + constructor; [by constructor|]. constructor; [done|].
      eapply Forall_impl; [exact Hm|]. cbn. intros x Hx. cbn in Hx. lia.
    + constructor; [done|]. apply insert_by_index_Forall; [cbn; lia|done].
Qed.

Lemma insert_by_index_least n o l :
  Forall (fun e => (n <= e.1)%N) l -> UniqueItems.insert_by_index n o l = (n, o) :: l.
Proof.
  destruct 1 as [|[m p] l Hm _]; cbn; [done|].
  cbn in Hm. by destruct (N.leb_spec n m); [|lia].
Qed.

Lemma indexed_sorted (u : UniqueItems.t) :
  StronglySorted (fun a b => (a.1 <= b.1)%N) (UniqueItems.indexed u).
Proof.
  induction u as [|[k o] u IH]; cbn; [constructor|].
  destruct (UniqueItems.array_index k); [by apply insert_by_index_sorted|done].
Qed.

Lemma indexed_index (u : UniqueItems.t) :
  Forall (fun e => key e.2 = e.1) u ->
  Forall (fun e => UniqueItems.array_index (key e.2) = Some e.1) (UniqueItems.indexed u).
Proof.
  induction 1 as [|[k o] u Hk Hu IH]; cbn; [constructor|]. cbn in Hk.
  destruct (UniqueItems.array_index k) as [n|] eqn:E; [|done].
  apply insert_by_index_Forall; [|done]. cbn. by rewrite Hk.
Qed.

Lemma named_index (u : UniqueItems.t) :
  Forall (fun e => key e.2 = e.1) u ->
  Forall (fun o => UniqueItems.array_index (key o) = None) (UniqueItems.named u).
Proof.
  induction 1 as [|[k o] u Hk Hu IH]; cbn; [constructor|]. cbn in Hk.
  destruct (UniqueItems.array_index k) as [n|] eqn:E; [done|].
  constructor; [by rewrite Hk|done].
Qed.



Lemma well_filed_keys u : well_filed u -> Forall (fun e => key e.2 = e.1) u.
Proof.
  intros [_ Hall]. eapply Forall_impl; [exact Hall|]. intros [k o]. apply filed_key.
Qed.


Lemma truthy_string s : s ≠ EmptyString -> JS.truthy (VStr s) = true.
Proof. destruct s; [done|reflexivity]. Qed.










(** ** Running [validate] on its own result *)

Lemma normalized_fixed k o :
  filed k o -> quantity_below (10 ^ 21) o = true -> Cart.normalized o = o.
Proof.
  intros (Hid & _ & _ & _ & (n & Hq & Hc) & (p & Hp)) Hb.
  unfold quantity_below in Hb. rewrite Hq in Hb.
  destruct n as [|q| | |]; try discriminate Hb. apply Z.ltb_lt in Hb.
  destruct Hc as [Hq1 Hd].
  assert (Hget : forall n v, o !! n = Some v -> JS.get o n = v)
    by (intros n v Hv; unfold JS.get; by rewrite Hv).
  unfold Cart.normalized, Cart.normal_price, Cart.normal_quantity.
  rewrite (Hget _ _ Hid), (Hget _ _ Hq), (Hget _ _ Hp). cbn [JS.is_string].
  rewrite parseInt_small by (done || lia). cbn [JS.isNaN JS.lt_one orb].
  destruct (Z.ltb_spec q 1) as [|_]; [lia|].
  rewrite (insert_id o "id") by done.
  rewrite (insert_id o "quantity") by done.
  by apply insert_id.
Qed.
Lemma filed_kept k o : filed k o -> kept o.
Proof. intros (Hid & _ & Hne & Hname & _). by exists k. Qed.

Lemma keep_all_kept (l : list object) : Forall kept l -> omap Cart.keep (Obj <$> l) = l.
Proof.
  induction 1 as [|o l Ho Hl IH]; [done|].
  rewrite fmap_cons. cbn [omap list_omap]. rewrite (kept_keep o Ho).
  fold (omap Cart.keep (Obj <$> l)). by rewrite IH.
Qed.

(** Items with fresh, distinct names that are already in normal form are
    appended one by one. *)
Lemma fold_merge_fresh (l : list object) : forall u : UniqueItems.t,
  NoDup (u.*1 ++ (key <$> l)) ->
  Forall (fun o => fileable (key o) /\ Cart.normalized o = o) l ->
  fold_left Cart.merge l u = u ++ entries l.
Proof.
  induction l as [|o l IH]; intros u Hnd Hall; cbn [fold_left].
  - unfold entries. cbn. by rewrite app_nil_r.
  - apply Forall_cons in Hall as [[Hf Hn] Hall].
    assert (Hm : Cart.merge u o = u ++ [(key o, o)]).
    { unfold Cart.merge. fold (key o).
      assert (Hown : UniqueItems.own (key o) u = None).
      { apply own_None. apply NoDup_app in Hnd as (_ & Hdisj & _).
        intros Hin. eapply Hdisj; [exact Hin|]. rewrite fmap_cons. apply list_elem_of_here. }
      rewrite Hown, Hf. by rewrite Hn. }
    rewrite Hm, IH; [|by rewrite fmap_app, <- app_assoc|done].
    unfold entries. rewrite fmap_cons. by rewrite <- app_assoc.
Qed.

Lemma indexed_entries_named (B : list object) :
  Forall (fun o => UniqueItems.array_index (key o) = None) B ->
  UniqueItems.indexed (entries B) = [] /\ UniqueItems.named (entries B) = B.
Proof.
  induction 1 as [|o B Ho HB [IH1 IH2]]; [done|].
  unfold entries. rewrite fmap_cons. cbn [UniqueItems.indexed UniqueItems.named].
  rewrite Ho. fold (entries B). by rewrite IH1, IH2.
Qed.

Lemma values_entries (I : list (N * object)) (B : list object) :
  Forall (fun e => UniqueItems.array_index (key e.2) = Some e.1) I ->
  StronglySorted (fun a b => (a.1 <= b.1)%N) I ->
  Forall (fun o => UniqueItems.array_index (key o) = None) B ->
  UniqueItems.values (entries (I.*2 ++ B)) = I.*2 ++ B.
Proof.
  intros HI Hs HB. unfold UniqueItems.values.
  assert (H : UniqueItems.indexed (entries (I.*2 ++ B)) = I
              /\ UniqueItems.named (entries (I.*2 ++ B)) = B).
  { induction Hs as [|[n o] I Hs IH Hn].
    - by apply indexed_entries_named.
    - apply Forall_cons in HI as [Ho HI]. cbn in Ho.
      destruct (IH HI) as [IH1 IH2].
      rewrite fmap_cons. cbn [snd]. rewrite <- app_comm_cons.
      unfold entries. rewrite fmap_cons.
      cbn [UniqueItems.indexed UniqueItems.named]. rewrite Ho.
      fold (entries (I.*2 ++ B)). rewrite IH1, IH2. split; [|done].
      apply insert_by_index_least. eapply Forall_impl; [exact Hn|]. done. }
  destruct H as [-> ->]. done.
Qed.

(** C4, as amended.  Running the normalization pass on its own result gives
    the same item list, provided every quantity of that result (the
    quantities after merging, as doubles) is below 10^21.  (From 10^21 on,
    [parseInt] of a number reads the leading digit of its exponential
    notation.) *)
Theorem validate_idempotent (l : list element) :
  forallb (quantity_below (10 ^ 21)) (Cart.validate_items l) = true ->
  Cart.validate_items (Obj <$> Cart.validate_items l) = Cart.validate_items l.
Proof.
  intros Hb. apply Is_true_true, forallb_True in Hb. rewrite Forall_forall in Hb.
  unfold Cart.validate_items at 1.
  revert Hb. unfold Cart.validate_items, UniqueItems.values.
  set (u := fold_left Cart.merge (omap Cart.keep l) []). intros Hb.
  assert (Hu : well_filed u)
    by (apply fold_merge_well_filed; [apply kept_all|apply well_filed_nil]).
  pose proof (well_filed_keys u Hu) as Hkeys.
  set (out := (UniqueItems.indexed u).*2 ++ UniqueItems.named u) in *.
  assert (Hperm : out ≡ₚ u.*2) by apply values_perm.
  assert (Hfiled : Forall (fun o => filed (key o) o) out).
  { rewrite Hperm. destruct Hu as [_ Hall].
    clear -Hall. induction Hall as [|[k o] u Ho Hu IH]; cbn; constructor; [|done].
    cbn in Ho. by rewrite (filed_key _ _ Ho). }
  rewrite keep_all_kept
    by (eapply Forall_impl; [exact Hfiled|]; intros o; apply filed_kept).
  rewrite (fold_merge_fresh out []).
  - cbn [app]. fold (UniqueItems.values (entries out)). unfold out.
    apply values_entries; [by apply indexed_index|apply indexed_sorted|by apply named_index].
  - cbn [fmap list_fmap app]. rewrite Hperm.
    replace (key <$> u.*2) with u.*1; [apply Hu|].
    clear -Hkeys. induction Hkeys as [|[k o] u Hk Hu IH]; cbn; [done|].
    cbn in Hk. by rewrite Hk, IH.
  - apply Forall_forall. intros o Ho.
    pose proof (proj1 (Forall_forall _ _) Hfiled o Ho) as Hf. split.
    + apply Hf.
    + apply (normalized_fixed (key o)); [done|]. apply Is_true_true. by apply Hb.
Qed.

Lemma validate_idempotent_witness :
  forallb (quantity_below (10 ^ 21))
    (Cart.validate_items [Obj Samples.hammer; Prim VNull; Obj Samples.nut; Obj Samples.claw_hammer])
  = true /\
  Cart.validate_items
    (Obj <$> Cart.validate_items
               [Obj Samples.hammer; Prim VNull; Obj Samples.nut; Obj Samples.claw_hammer])
  = Cart.validate_items
      [Obj Samples.hammer; Prim VNull; Obj Samples.nut; Obj Samples.claw_hammer].
Proof.
  split; [reflexivity|].
  apply (validate_idempotent
           [Obj Samples.hammer; Prim VNull; Obj Samples.nut; Obj Samples.claw_hammer]).
  reflexivity.
Defined.

(** A stored quantity of 10^21 is kept by the first pass and read as 1 by
    the second; so is one of 999999999999999999999, which the first pass
    rounds to 10^21, and so are two entries of 6 * 10^20 under one [id]. *)
Lemma validate_idempotent_counterexample :
  Cart.validate_items (Obj <$> Cart.validate_items [Obj Samples.truckload])
  ≠ Cart.validate_items [Obj Samples.truckload] /\
  Cart.validate_items (Obj <$> Cart.validate_items [Obj Samples.near_truckload])
  ≠ Cart.validate_items [Obj Samples.near_truckload] /\
  Cart.validate_items
    (Obj <$> Cart.validate_items [Obj Samples.half_truckload; Obj Samples.half_truckload])
  ≠ Cart.validate_items [Obj Samples.half_truckload; Obj Samples.half_truckload].
Proof.
  split; [|split]; intros H;
    apply (f_equal (fmap (fun o => JS.get o "quantity"))) in H;
    vm_compute in H; discriminate H.
Qed.


(** ** [updateQuantity] and [remove] *)

Section Update.

Variable P : platform.

Lemma has_id_found (x : value) (l : list object) item :
  item ∈ l -> Cart.has_id x item = true ->
  exists i found, list_find (Cart.has_id x) l = Some (i, found).
Proof.
  intros Hin Hid.
  destruct (list_find_elem_of (Cart.has_id x) l item Hin) as [[i found] H].
  - by apply Is_true_true.
  - eauto.
Qed.


(** When the parsed quantity is NaN the item found gets NaN for a quantity,
    and the list is saved. *)
Lemma updateQuantity_NaN (c : state) (x quantity : value) i item :
  list_find (Cart.has_id x) (items c) = Some (i, item) ->
  JS.parseInt quantity = NaN ->
  items (Cart.updateQuantity P x quantity c)
    = <[i := <["quantity" := VNum NaN]> item]> (items c) /\
  stored (Cart.updateQuantity P x quantity c)
    = Some (JSON_stringify P (<[i := <["quantity" := VNum NaN]> item]> (items c))).
Proof.
  intros Hfind Hnan. unfold Cart.updateQuantity. rewrite Hfind, Hnan. cbn [JS.le_zero].
  unfold Cart.render, Cart.save. cbn. destruct (cartContent c); split; reflexivity.
Qed.

End Update.


(** C2 at a failing input: emptying the quantity field of the hammer makes the
    change handler call [updateQuantity("a", NaN)]; the item list and the
    stored text both change, the quantity becoming NaN. *)
Theorem updateQuantity_NaN_is_not_ignored :
  let c := Samples.hammer_cart in
  let c' := Cart.updateQuantity (Testing.platform_with []) (VStr "a") (VNum NaN) c in
  JS.parseInt (VNum NaN) = NaN /\
  items c' = [<["quantity" := VNum NaN]> Samples.hammer] /\
  items c' ≠ items c /\
  stored c' ≠ stored c.
Proof.
  cbv zeta. split; [reflexivity|]. split; [reflexivity|]. split.
  - intros H. apply (f_equal (fmap (fun o => JS.get o "quantity"))) in H.
    vm_compute in H. discriminate H.
  - intros H. vm_compute in H. discriminate H.
Qed.

(** ** Positive quantities *)

Section Positive.

Variable P : platform.

Lemma positive_quantity_Int item :
  positive_quantity item = true <->
  exists q, item !! "quantity" = Some (VNum (Int q)) /\ 1 <= q.
Proof.
  unfold positive_quantity. split.
  - destruct (item !! "quantity") as [[| | |[|q| | |]|]|]; try discriminate.
    intros H%Z.leb_le. eauto.
  - intros (q & -> & Hq). by apply Z.leb_le.
Qed.

Lemma with_quantity_positive q item : 1 <= q -> positive_quantity (with_quantity q item) = true.
Proof.
  intros Hq. apply positive_quantity_Int. exists q. split; [apply lookup_insert_eq|done].
Qed.

(** The normalization pass leaves quantities that are integers of at least
    1, or Infinity (for a stored quantity of 309 digits or more). *)
Lemma validate_counted (l : list element) :
  Forall (fun o => exists n, o !! "quantity" = Some (VNum n) /\ counted n)
         (Cart.validate_items l).
Proof.
  unfold Cart.validate_items.
  set (u := fold_left Cart.merge (omap Cart.keep l) []).
  assert (Hu : well_filed u)
    by (apply fold_merge_well_filed; [apply kept_all|apply well_filed_nil]).
  rewrite values_perm. destruct Hu as [_ Hall]. clear -Hall.
  induction Hall as [|[k o] u Ho Hu IH]; cbn; constructor; [|done].
  apply Ho.
Qed.

Lemma positive_insert (l : list object) i item :
  positive_quantities l -> positive_quantity item = true ->
  positive_quantities (<[i := item]> l).
Proof. intros Hl Hi. by apply Forall_insert. Qed.

Lemma positive_filter (f : object -> bool) (l : list object) :
  positive_quantities l -> positive_quantities (List.filter f l).
Proof.
  induction 1 as [|o l Ho Hl IH]; cbn; [constructor|].
  destruct (f o); [by constructor|done].
Qed.

(** [add] keeps the quantities positive, as long as they are below 2^53. *)
Lemma add_positive product c :
  positive_quantities (items c) ->
  Forall (fun item => quantity_below (2 ^ 53) item = true) (items c) ->
  positive_quantities (items (Cart.add P product c).2).
Proof.
  intros Hc Hb. unfold Cart.add.
  destruct (JS.truthy (JS.get product "id")); cbn [negb]; [|done].
  cbn [snd]. unfold Cart.updateBadge, Cart.save. cbn [items emit set_stored].
  destruct (list_find _ (items c)) as [[i item]|] eqn:Hfind; cbn [items set_items].
  - apply positive_insert; [done|].
    apply list_find_Some in Hfind as (Hi & _ & _).
    apply list_elem_of_lookup_2 in Hi.
    pose proof (proj1 (Forall_forall _ _) Hc item Hi) as Hpos. cbn in Hpos.
    apply positive_quantity_Int in Hpos as (q & Hq & Hq1).
    pose proof (proj1 (Forall_forall _ _) Hb item Hi) as Hlt. cbn in Hlt.
    unfold quantity_below in Hlt. rewrite Hq in Hlt. apply Z.ltb_lt in Hlt.
    unfold JS.get. rewrite Hq. cbn [default from_option id JS.plus_number JS.number_of Double.add].
    rewrite round_Z_small by lia. apply (with_quantity_positive (q + 1)). lia.
  - apply Forall_app. split; [done|]. constructor; [|constructor].
    by apply (with_quantity_positive 1).
Qed.

(** [remove] keeps the quantities positive. *)
Lemma remove_positive x c :
  positive_quantities (items c) -> positive_quantities (items (Cart.remove P x c)).
Proof.
  intros Hc. unfold Cart.remove, Cart.render, Cart.updateBadge, Cart.save.
  cbn. destruct (cartContent c); cbn; by apply positive_filter.
Qed.

(** [clear] keeps the quantities positive. *)
Lemma clear_positive c : positive_quantities (items (Cart.clear P c)).
Proof.
  unfold Cart.clear, Cart.render, Cart.updateBadge, Cart.save.
  cbn. destruct (cartContent c); constructor.
Qed.

(** [updateQuantity] keeps the quantities positive when its argument parses
    as an integer. *)
Lemma updateQuantity_positive x quantity z c :
  JS.parseInt quantity = Int z ->
  positive_quantities (items c) ->
  positive_quantities (items (Cart.updateQuantity P x quantity c)).
Proof.
  intros Hz Hc. unfold Cart.updateQuantity.
  destruct (list_find _ (items c)) as [[i item]|] eqn:Hfind; [|done].
  rewrite Hz. cbn [JS.le_zero]. destruct (Z.leb_spec z 0) as [Hle|Hgt].
  - by apply remove_positive.
  - unfold Cart.render, Cart.save. cbn. destruct (cartContent c); cbn;
      (apply positive_insert; [done|apply (with_quantity_positive z); lia]).
Qed.

End Positive.

(** C3 at a failing input: the cart that [init] builds from the stored hammer
    has positive quantities; after [updateQuantity("a", NaN)], which the
    change handler issues for an emptied quantity field, the quantity of the
    hammer is NaN. *)
Theorem updateQuantity_NaN_breaks_positive :
  let c := Samples.hammer_cart in
  let c' := Cart.updateQuantity (Testing.platform_with []) (VStr "a") (VNum NaN) c in
  items c = Cart.validate_items [Obj Samples.hammer] /\
  forallb positive_quantity (items c) = true /\
  forallb positive_quantity (items c') = false /\
  (fun item => JS.get item "quantity") <$> items c' = [VNum NaN].
Proof. cbv zeta. repeat split; reflexivity. Qed.

(** ** [add] *)

Section Add.

Variable P : platform.

Lemma coerce_price_other product k :
  k ≠ "price" -> Cart.coerce_price product !! k = product !! k.
Proof.
  intros Hk. unfold Cart.coerce_price.
  destruct (_ && _); [|done]. by rewrite lookup_insert_ne.
Qed.

Lemma coerce_price_id product :
  JS.get (Cart.coerce_price product) "id" = JS.get product "id".
Proof. unfold JS.get. by rewrite coerce_price_other. Qed.

Lemma strict_eq_truthy v : JS.truthy v = true -> JS.strict_eq v v = true.
Proof.
  destruct v as [| |b|[|z|q| |]|s]; cbn; try discriminate; intros _; try done.
  - by destruct b.
  - apply Z.eqb_refl.
  - by apply bool_decide_eq_true_2.
  - apply String.eqb_refl.
Qed.


(** C10, as amended.  When [product.id] is truthy and [product.price] is
    truthy and not a string, the object the caller passed has, after [add],
    the string form of that price for a price; its other properties are the
    ones it had. *)
Theorem add_coerces_price_of_argument (product : object) (c : state) :
  JS.truthy (JS.get product "id") = true ->
  JS.truthy (JS.get product "price") = true ->
  JS.is_string (JS.get product "price") = false ->
  (Cart.add P product c).1
    = <["price" := VStr (JS.ToString (JS.get product "price"))]> product /\
  (forall k, k ≠ "price" -> (Cart.add P product c).1 !! k = product !! k).
Proof.
  intros Hid Htruthy Hstring.
  assert (H : (Cart.add P product c).1
              = <["price" := VStr (JS.ToString (JS.get product "price"))]> product).
  { unfold Cart.add. rewrite Hid. cbn [negb fst].
    unfold Cart.coerce_price. by rewrite Htruthy, Hstring. }
  split; [exact H|]. intros k Hk. rewrite H. by apply lookup_insert_ne.
Qed.

(** Whatever the product, [add] leaves its properties other than the price
    as they were. *)
Lemma add_frame (product : object) (c : state) k :
  k ≠ "price" -> (Cart.add P product c).1 !! k = product !! k.
Proof.
  intros Hk. unfold Cart.add.
  destruct (JS.truthy (JS.get product "id")); cbn [negb fst]; [|done].
  by apply coerce_price_other.
Qed.

End Add.


Lemma add_coerces_price_of_argument_witness :
  JS.truthy (JS.get Samples.drill "id") = true /\
  JS.truthy (JS.get Samples.drill "price") = true /\
  JS.is_string (JS.get Samples.drill "price") = false /\
  (Cart.add (Testing.platform_with []) Samples.drill (fresh None false)).1
    = <["price" := VStr "4500"]> Samples.drill.
Proof.
  split; [reflexivity|]. split; [reflexivity|]. split; [reflexivity|].
  apply (add_coerces_price_of_argument (Testing.platform_with []) Samples.drill
           (fresh None false)); reflexivity.
Defined.


(** A fractional price is replaced by its shortest decimal form. *)
Example add_coerces_fraction :
  (Cart.add (Testing.platform_with []) Samples.paint (fresh None false)).1 !! "price"
  = Some (VStr "19.99").
Proof. vm_compute. reflexivity. Qed.

(** With a falsy [id] the numeric price of the argument stays a number. *)
Lemma add_coerces_price_counterexample :
  JS.truthy (JS.get Samples.nameless_saw "price") = true /\
  JS.is_string (JS.get Samples.nameless_saw "price") = false /\
  (Cart.add (Testing.platform_with []) Samples.nameless_saw (fresh None false)).1 !! "price"
    ≠ Some (VStr (JS.ToString (JS.get Samples.nameless_saw "price"))).
Proof.
  split; [reflexivity|]. split; [reflexivity|].
  intros H. vm_compute in H. discriminate H.
Qed.


(** ** Rounding a rational *)

Lemma Qred_inject (z : Z) : Qred (inject_Z z) = inject_Z z.
Proof. apply Qred_identity. cbn. apply Z.gcd_1_r. Qed.

Lemma round_inject (z : Z) : Double.round (inject_Z z) = Double.round_Z z.
Proof. unfold Double.round. by rewrite Qred_inject. Qed.

Lemma of_Q_inject (z : Z) : Double.of_Q (inject_Z z) = Int z.
Proof. unfold Double.of_Q. by rewrite Qred_inject. Qed.

Lemma round_eq (p q : Q) : p == q -> Double.round p = Double.round q.
Proof. intros H. unfold Double.round. by rewrite (Qred_complete p q H). Qed.

Lemma of_Q_eq (p q : Q) : p == q -> Double.of_Q p = Double.of_Q q.
Proof. intros H. unfold Double.of_Q. by rewrite (Qred_complete p q H). Qed.

(** The value of a rational taken as a number is that rational. *)
Lemma to_Q_of_Q (q : Q) : exists q', Double.to_Q (Double.of_Q q) = Some q' /\ q' == q.
Proof.
  unfold Double.of_Q. pose proof (Qred_correct q) as Hq.
  destruct (Qred q) as [n d] eqn:E. cbn [Qnum Qden].
  destruct (Pos.eqb_spec d 1) as [->|Hd]; cbn; eauto.
Qed.

Lemma add_finite (a b : number) (x y : Q) :
  Double.to_Q a = Some x -> Double.to_Q b = Some y ->
  Double.add a b = Double.round (x + y).
Proof.
  destruct a as [|m|p| |], b as [|n|q| |]; cbn; try discriminate;
    intros [= <-] [= <-]; try reflexivity.
  rewrite <- inject_Z_plus. by rewrite round_inject.
Qed.

Lemma mul_finite (a b : number) (x y : Q) :
  Double.to_Q a = Some x -> Double.to_Q b = Some y ->
  Double.mul a b = Double.round (x * y).
Proof.
  destruct a as [|m|p| |], b as [|n|q| |]; cbn; try discriminate;
    intros [= <-] [= <-]; try reflexivity.
  rewrite <- inject_Z_mult. by rewrite round_inject.
Qed.

(** A rational in lowest terms with numerator 0 has denominator 1. *)
Lemma Qred_zero (q : Q) : Qnum (Qred q) = 0 -> Qden (Qred q) = 1%positive.
Proof.
  intros H0. assert (Hz : Qred q == 0).
  { unfold Qeq. rewrite H0. reflexivity. }
  apply Qred_complete in Hz. rewrite Qred_involutive in Hz. by rewrite Hz.
Qed.

Lemma of_Q_truthy (q : Q) :
  Double.of_Q q = Int 0 \/ JS.truthy (VNum (Double.of_Q q)) = true.
Proof.
  unfold Double.of_Q. destruct (Pos.eqb_spec (Qden (Qred q)) 1) as [Hd|Hd]; cbn.
  - destruct (Z.eqb_spec (Qnum (Qred q)) 0) as [->|]; auto.
  - right. destruct (Z.eqb_spec (Qnum (Qred q)) 0) as [H0|]; [|done].
    by apply Qred_zero in H0.
Qed.

Lemma Int_truthy (z : Z) : Int z = Int 0 \/ JS.truthy (VNum (Int z)) = true.
Proof. cbn. destruct (Z.eqb_spec z 0) as [->|]; auto. Qed.

Lemma round_Z_truthy (z : Z) :
  Double.round_Z z = Int 0 \/ JS.truthy (VNum (Double.round_Z z)) = true.
Proof.
  unfold Double.round_Z. destruct (_ <=? _); [apply Int_truthy|].
  destruct (_ <=? _); [destruct (z <? 0); auto|apply Int_truthy].
Qed.

Lemma round_ratio_truthy n d s :
  Double.round_ratio n d s = Int 0 \/ JS.truthy (VNum (Double.round_ratio n d s)) = true.
Proof.
  unfold Double.round_ratio.
  destruct (0 <=? Z.max _ _); [|apply of_Q_truthy].
  destruct (_ <=? _); [destruct s; auto|apply Int_truthy].
Qed.

(** A rounded rational is 0 or truthy: [x || 0] is [x]. *)
Lemma round_truthy (q : Q) :
  Double.round q = Int 0 \/ JS.truthy (VNum (Double.round q)) = true.
Proof.
  unfold Double.round. destruct (_ =? _)%positive; [apply round_Z_truthy|].
  destruct (Qnum (Qred q)); [auto|apply round_ratio_truthy..].
Qed.

Lemma round_or_zero (q : Q) :
  (if JS.truthy (VNum (Double.round q)) then Double.round q else Int 0) = Double.round q.
Proof.
  destruct (round_truthy q) as [H|H]; rewrite H; [reflexivity|done].
Qed.

(** ** Reading a price *)

Lemma dot_code (c : ascii) : Ascii.eqb c "."%char = (N_of_ascii c =? 46)%N.
Proof. destruct c as [[] [] [] [] [] [] [] []]; reflexivity. Qed.

Lemma strip_chars (s : string) :
  String.list_ascii_of_string (Price.strip s) = Spec.digits_and_dots s.
Proof.
  unfold Spec.digits_and_dots. induction s as [|c s IH]; [done|].
  cbn [Price.strip String.list_ascii_of_string List.filter].
  replace (Text.is_digit c || Ascii.eqb c ".") with (Price.is_digit_or_dot c)
    by (rewrite dot_code; reflexivity).
  destruct (Price.is_digit_or_dot c); cbn; by rewrite IH.
Qed.

Lemma digit_val_digit (c : ascii) :
  Text.is_digit c = true ->
  JS.digit_val c = Some (N_of_ascii c - 48)%N /\ (N_of_ascii c - 48 <? 10)%N = true
  /\ (48 <= N_of_ascii c)%N.
Proof.
  unfold Text.is_digit, JS.digit_val. intros H. rewrite H.
  apply andb_true_iff in H as [H1 H2]. apply N.leb_le in H1, H2.
  split; [done|]. split; [apply N.ltb_lt|]; lia.
Qed.

Lemma digit_val_other (c : ascii) :
  Text.is_digit c = false ->
  match JS.digit_val c with
  | Some d => (d <? 10)%N = false
  | None => True
  end.
Proof.
  unfold Text.is_digit, JS.digit_val. intros H. rewrite H.
  destruct ((97 <=? N_of_ascii c)%N && (N_of_ascii c <=? 122)%N) eqn:E1.
  - apply andb_true_iff in E1 as [H1 H2]. apply N.leb_le in H1, H2. apply N.ltb_ge. lia.
  - destruct ((65 <=? N_of_ascii c)%N && (N_of_ascii c <=? 90)%N) eqn:E2; [|done].
    apply andb_true_iff in E2 as [H1 H2]. apply N.leb_le in H1, H2. apply N.ltb_ge. lia.
Qed.

(** The digits [parseFloat] reads are the leading digits of the text. *)
Lemma digits_prefix_chars (s : string) :
  (JS.digits_prefix 10 s).1
    = (fun c => (N_of_ascii c - 48)%N) <$> Spec.leading_digits (String.list_ascii_of_string s)
  /\ String.list_ascii_of_string (JS.digits_prefix 10 s).2
    = Spec.after_digits (String.list_ascii_of_string s).
Proof.
  induction s as [|c s [IH1 IH2]]; [done|].
  cbn [JS.digits_prefix String.list_ascii_of_string Spec.leading_digits Spec.after_digits].
  destruct (Text.is_digit c) eqn:Hc.
  - destruct (digit_val_digit c Hc) as (-> & -> & _).
    destruct (JS.digits_prefix 10 s) as [ds rest]. cbn in *. by rewrite IH1, IH2.
  - pose proof (digit_val_other c Hc) as Ho.
    destruct (JS.digit_val c) as [d|]; [rewrite Ho|]; done.
Qed.

Lemma leading_digits_digits (l : list ascii) :
  Forall (fun c => Text.is_digit c = true) (Spec.leading_digits l).
Proof.
  induction l as [|c l IH]; cbn; [constructor|].
  destruct (Text.is_digit c) eqn:Hc; [by constructor|constructor].
Qed.

Lemma digits_value_numeral_from (ds : list ascii) : forall acc : N,
  Forall (fun c => Text.is_digit c = true) ds ->
  Z.of_N (fold_left (fun a d => (10 * a + d)%N) ((fun c => (N_of_ascii c - 48)%N) <$> ds) acc)
  = fold_left (fun a c => 10 * a + (Z.of_N (N_of_ascii c) - 48)) ds (Z.of_N acc).
Proof.
  induction ds as [|c ds IH]; intros acc Hds; [done|].
  apply Forall_cons in Hds as [Hc Hds]. cbn [fmap list_fmap fold_left].
  rewrite IH by done. f_equal.
  destruct (digit_val_digit c Hc) as (_ & _ & H48). lia.
Qed.

Lemma digits_value_chars (ds : list ascii) :
  Forall (fun c => Text.is_digit c = true) ds ->
  Z.of_N (JS.digits_value 10 ((fun c => (N_of_ascii c - 48)%N) <$> ds)) = Spec.numeral ds.
Proof. intros H. unfold JS.digits_value, Spec.numeral. by rewrite digits_value_numeral_from. Qed.

Lemma numeral_from_app (a b : list ascii) : forall acc,
  fold_left (fun a c => 10 * a + (Z.of_N (N_of_ascii c) - 48)) (a ++ b) acc
  = fold_left (fun a c => 10 * a + (Z.of_N (N_of_ascii c) - 48)) b
      (fold_left (fun a c => 10 * a + (Z.of_N (N_of_ascii c) - 48)) a acc).
Proof. intros acc. apply fold_left_app. Qed.

Lemma numeral_from_shift (b : list ascii) : forall acc,
  fold_left (fun a c => 10 * a + (Z.of_N (N_of_ascii c) - 48)) b acc
  = acc * 10 ^ Z.of_nat (length b) + Spec.numeral b.
Proof.
  unfold Spec.numeral. induction b as [|c b IH]; intros acc.
  - cbn. lia.
  - cbn [fold_left length]. rewrite IH, (IH (10 * 0 + _)).
    rewrite Nat2Z.inj_succ, Z.pow_succ_r by lia. lia.
Qed.

Lemma numeral_app (a b : list ascii) :
  Spec.numeral (a ++ b) = Spec.numeral a * 10 ^ Z.of_nat (length b) + Spec.numeral b.
Proof.
  unfold Spec.numeral at 1. rewrite numeral_from_app. apply numeral_from_shift.
Qed.

Lemma pow10_pos (n : nat) : n ≠ 0%nat -> Zpos (10 ^ Pos.of_nat n) = 10 ^ Z.of_nat n.
Proof.
  intros Hn. rewrite Pos2Z.inj_pow. f_equal. destruct n; [done|].
  rewrite <- Pos.of_nat_succ. lia.
Qed.

(** What [parseFloat] reads from the stripped price text is the numeric
    price. *)
Lemma literal_price (text : string) :
  match Price.literal (Price.strip text) with
  | Some q => q == Spec.price text
  | None => Spec.price text == 0
  end.
Proof.
  unfold Price.literal, Spec.price. rewrite <- strip_chars.
  set (s := Price.strip text).
  destruct (digits_prefix_chars s) as [Hip Hrest].
  destruct (JS.digits_prefix 10 s) as [ip rest]. cbn [fst snd] in *.
  rewrite <- Hrest.
  pose proof (leading_digits_digits (String.list_ascii_of_string s)) as Hwd.
  set (whole := Spec.leading_digits (String.list_ascii_of_string s)) in *.
  assert (Hno : forall (fraction : list ascii), fraction = [] ->
            match ip with
            | [] => (inject_Z (Spec.numeral whole)
                     + (Spec.numeral fraction # 10 ^ Pos.of_nat (length fraction)) == 0)%Q
            | _ :: _ => (inject_Z (Z.of_N (JS.digits_value 10 ip))
                         == inject_Z (Spec.numeral whole)
                            + (Spec.numeral fraction # 10 ^ Pos.of_nat (length fraction)))%Q
            end).
  { intros fraction ->. rewrite Hip. clearbody whole.
    destruct whole as [|c w]; [reflexivity|].
    rewrite <- (digits_value_chars (c :: w)) by done.
    generalize (Z.of_N (JS.digits_value 10 ((fun c => (N_of_ascii c - 48)%N) <$> c :: w))).
    intros z. cbn [fmap list_fmap]. unfold inject_Z, Qeq. cbn. lia. }
  destruct rest as [|c t].
  { cbn [String.list_ascii_of_string]. specialize (Hno [] eq_refl).
    destruct ip; exact Hno. }
  cbn [String.list_ascii_of_string].
  destruct (Ascii.eqb_spec c "."%char) as [->|Hc].
  - destruct (digits_prefix_chars t) as [Hfp _].
    destruct (JS.digits_prefix 10 t) as [fp rest']. cbn [fst] in Hfp.
    pose proof (leading_digits_digits (String.list_ascii_of_string t)) as Hfd.
    set (fraction := Spec.leading_digits (String.list_ascii_of_string t)) in *.
    destruct fp as [|f fp].
    + assert (fraction = []) as Hf by (by destruct fraction).
      specialize (Hno fraction Hf). destruct ip; exact Hno.
    + assert (Hval : inject_Z (Z.of_N (JS.digits_value 10 (ip ++ f :: fp)))
                     == inject_Z (Spec.numeral (whole ++ fraction))).
      { rewrite Hip, Hfp, <- fmap_app, digits_value_chars; [reflexivity|].
        by apply Forall_app. }
      assert (Hlen : length (f :: fp) = length fraction)
        by (rewrite Hfp; by rewrite length_fmap).
      assert (Hne : length fraction ≠ 0%nat) by (rewrite <- Hlen; done).
      assert (Hgoal : (Price.decimal (ip ++ f :: fp) (length (f :: fp))
                       == inject_Z (Spec.numeral whole)
                          + (Spec.numeral fraction # 10 ^ Pos.of_nat (length fraction)))%Q).
      { unfold Price.decimal. rewrite Hlen.
        unfold inject_Z, Qeq in Hval. cbn in Hval. rewrite !Z.mul_1_r in Hval.
        rewrite Hval, numeral_app. unfold Qeq. cbn [Qnum Qden Qplus].
        rewrite Pos2Z.inj_mul, pow10_pos by done. unfold inject_Z. cbn [Qnum Qden].
        ring. }
      destruct ip; exact Hgoal.
  - assert (Hmatch : forall A (x y : A),
              match String c t with String "."%char t' => x | _ => y end = y).
    { intros A x y. destruct c as [[] [] [] [] [] [] [] []]; try reflexivity.
      by exfalso. }
    specialize (Hno [] eq_refl).
    destruct c as [[] [] [] [] [] [] [] []]; try (destruct ip; exact Hno).
    by exfalso.
Qed.

(** ** [getTotal] *)

(** The price [getTotal] reads is the numeric price of the text, rounded. *)
Lemma price_of_spec (item : object) :
  Cart.price_of item = Double.round (Spec.price (Cart.priceStr item)).
Proof.
  unfold Cart.price_of, Price.parseFloat.
  pose proof (literal_price (Cart.priceStr item)) as H.
  destruct (Price.literal _) as [q|].
  - rewrite (round_eq _ _ H). apply round_or_zero.
  - cbn. by rewrite (round_eq _ _ H).
Qed.

Lemma quantity_spec (P : platform) (item : object) :
  Cart.ToNumber P (JS.or_else (JS.get item "quantity") (VNum (Int 1)))
  = Spec.quantity P item.
Proof.
  unfold Spec.quantity, JS.or_else, JS.get.
  destruct (item !! "quantity") as [v|]; cbn; [|reflexivity].
  by destruct (JS.truthy v).
Qed.

Lemma fold_left_ext_eq {A B} (f g : A -> B -> A) (l : list B) (a : A) :
  (forall a x, f a x = g a x) -> fold_left f l a = fold_left g l a.
Proof.
  intros H. revert a. induction l as [|x l IH]; intros a; cbn; [done|].
  by rewrite H, IH.
Qed.

Lemma getTotal_rounded (P : platform) (c : state) :
  Cart.getTotal P c = Spec.rounded_total (Spec.quantity P) (items c).
Proof.
  unfold Cart.getTotal, Spec.rounded_total. apply fold_left_ext_eq.
  intros a item. by rewrite price_of_spec, quantity_spec.
Qed.

(** When every price, product and running sum is a double, the rounded sum
    is the sum. *)
Lemma rounded_total_exact (qty : object -> number) (l : list object) : forall acc : Q,
  Spec.sums_exactly qty l acc = true ->
  fold_left
    (fun a item =>
       Double.add a (Double.mul (Double.round (Spec.price (Cart.priceStr item))) (qty item)))
    l (Double.of_Q acc)
  = Double.of_Q (acc + Spec.total qty l).
Proof.
  induction l as [|item l IH]; intros acc; cbn [Spec.sums_exactly fold_left Spec.total foldr].
  - intros _. apply of_Q_eq. ring.
  - destruct (Double.to_Q (qty item)) as [q|] eqn:Hq; [|discriminate].
    set (p := Spec.price (Cart.priceStr item)).
    intros [[[Hp Hpq]%andb_true_iff Hsum]%andb_true_iff Hrest]%andb_true_iff.
    unfold Spec.exact in *. apply bool_decide_eq_true in Hp, Hpq, Hsum.
    destruct (to_Q_of_Q p) as (p' & Hp' & Hpp).
    destruct (to_Q_of_Q (p * q)) as (pq' & Hpq' & Hpqq).
    destruct (to_Q_of_Q acc) as (acc' & Hacc' & Hacc).
    rewrite Hp, (mul_finite _ _ p' q Hp' Hq).
    rewrite (round_eq (p' * q) (p * q)) by (by rewrite Hpp).
    rewrite Hpq, (add_finite _ _ acc' pq' Hacc' Hpq').
    rewrite (round_eq (acc' + pq') (acc + p * q)) by (by rewrite Hacc, Hpqq).
    rewrite Hsum, (IH _ Hrest). apply of_Q_eq.
    change (acc + p * q + Spec.total qty l
            == acc + (Spec.line qty item + Spec.total qty l)).
    unfold Spec.line. fold p. rewrite Hq. cbn [default from_option id]. ring.
Qed.

(** C7, as amended.  [getTotal] adds up, over the items in order, the price
    (the price text stripped to digits and dots, read as a decimal number, 0
    when there is none to read) times the quantity, where 1 stands in for a
    quantity that is missing or falsy (0, NaN, null, the empty string,
    false); prices, products and sums are doubles, each rounded.  When every
    quantity is finite and every price, product and running sum is a double
    as it stands, the result is the exact sum of price times quantity.  On
    the items [{price:"$10.50", quantity:2}, {price:"5", quantity:1}] it
    returns 26. *)
Theorem getTotal_is_sum :
  (forall (P : platform) (c : state),
     Cart.getTotal P c = Spec.rounded_total (Spec.quantity P) (items c)) /\
  (forall (P : platform) (c : state),
     Spec.sums_exactly (Spec.quantity P) (items c) 0 = true ->
     Cart.getTotal P c = Double.of_Q (Spec.total (Spec.quantity P) (items c))) /\
  (forall P : platform, Cart.getTotal P Samples.two_lines = Int 26).
Proof.
  split; [exact getTotal_rounded|]. split.
  - intros P c Hexact. rewrite getTotal_rounded. unfold Spec.rounded_total.
    change (Int 0) with (Double.of_Q 0).
    rewrite (rounded_total_exact _ _ 0 Hexact). apply of_Q_eq. ring.
  - intros P. vm_compute. reflexivity.
Qed.

Lemma getTotal_is_sum_witness :
  Spec.sums_exactly (Spec.quantity (Testing.platform_with [])) (items Samples.two_lines) 0
    = true /\
  Cart.getTotal (Testing.platform_with []) Samples.two_lines
    = Double.of_Q (Spec.total (Spec.quantity (Testing.platform_with []))
                     (items Samples.two_lines)) /\
  Double.of_Q (Spec.total (Spec.quantity (Testing.platform_with []))
                 (items Samples.two_lines)) = Int 26.
Proof.
  split; [vm_compute; reflexivity|]. split; [|vm_compute; reflexivity].
  apply (proj1 (proj2 getTotal_is_sum) (Testing.platform_with []) Samples.two_lines).
  vm_compute. reflexivity.
Defined.

(** A quantity of 0 is present, yet the line counts once; and the sum of
    the doubles is not the sum of the numbers: three lines of 0.1, 0.2 and
    0.3 give 0.6000000000000001. *)
Lemma getTotal_counterexample :
  Cart.getTotal (Testing.platform_with []) Samples.zero_line = Int 5 /\
  Double.of_Q (Spec.total (Spec.quantity_if_present (Testing.platform_with []))
                 (items Samples.zero_line)) = Int 0 /\
  Cart.getTotal (Testing.platform_with []) Samples.zero_line
    ≠ Double.of_Q (Spec.total (Spec.quantity_if_present (Testing.platform_with []))
                     (items Samples.zero_line)) /\
  Cart.getTotal (Testing.platform_with []) Samples.three_tenths
    = Double.round (6000000000000001 # 10 ^ 16) /\
  Cart.getTotal (Testing.platform_with []) Samples.three_tenths
    ≠ Double.round (Spec.total (Spec.quantity (Testing.platform_with []))
                      (items Samples.three_tenths)).
Proof.
  assert (H5 : Cart.getTotal (Testing.platform_with []) Samples.zero_line = Int 5)
    by (vm_compute; reflexivity).
  assert (H0 : Double.of_Q (Spec.total (Spec.quantity_if_present (Testing.platform_with []))
                              (items Samples.zero_line)) = Int 0)
    by (vm_compute; reflexivity).
  split; [exact H5|]. split; [exact H0|]. split; [by rewrite H5, H0|].
  split; [vm_compute; reflexivity|].
  intros H. vm_compute in H. discriminate H.
Qed.
(** ** [init] *)

Section Init.

Variable P : platform.

(** [init] returns: outside its try block nothing throws. *)
Lemma init_returns (c : state) : exists c', Cart.init P c = Returned c'.
Proof. unfold Cart.init. eauto. Qed.

(** Whatever the item list was, a non-empty stored text that does not decode
    to an array empties it; the failure is written to the console and the
    stored text is left as it is. *)
Lemma init_resets (c : state) (text : string) :
  stored c = Some text -> text ≠ EmptyString ->
  (forall l, JSON_parse P text ≠ Some (JArr l)) ->
  exists c', Cart.init P c = Returned c' /\ items c' = [] /\ stored c' = stored c
             /\ ConsoleError ∈ effects c'.
Proof.
  intros Hs Hne Hparse. unfold Cart.init. rewrite Hs.
  assert (Ht : JS.truthy (VStr text) = true) by (destruct text; [done|reflexivity]).
  rewrite Ht.
  assert (Hthrew : match JSON_parse P text with
                   | Some raw => Cart.validate P raw c
                   | None => Threw
                   end = Threw).
  { destruct (JSON_parse P text) as [[v|o|l]|] eqn:E; try reflexivity.
    exfalso. by eapply Hparse. }
  rewrite Hthrew. destruct c as [its st cc eff]. cbn in Hs. subst st.
  destruct cc; eexists; (split; [reflexivity|]); (split; [reflexivity|]);
    (split; [reflexivity|]); cbn; rewrite !elem_of_app, !list_elem_of_singleton; tauto.
Qed.

(** C8.  When the stored text under ['cart'] does not decode to an array
    ([JSON.parse] throws, or returns something that is not an array),
    [init] returns, no exception leaves it, and the item list is empty,
    whatever it held before: on any cart when the text is not empty, the
    failure being written to the console and the stored text left as it is;
    and on a page just loaded when the text is empty. *)
Theorem init_undecodable (text : string) :
  (forall l, JSON_parse P text ≠ Some (JArr l)) ->
  (forall c : state,
     stored c = Some text -> text ≠ EmptyString ->
     exists c', Cart.init P c = Returned c' /\ items c' = [] /\ stored c' = stored c
                /\ ConsoleError ∈ effects c') /\
  (forall page : bool,
     exists c', Cart.init P (fresh (Some text) page) = Returned c' /\ items c' = []
                /\ (text ≠ EmptyString -> ConsoleError ∈ effects c')).
Proof.
  intros Hparse. split.
  - intros c Hs Hne. by apply (init_resets c text).
  - intros page. destruct (decide (text = EmptyString)) as [->|Hne].
    + destruct page; eexists; (split; [reflexivity|]); split; [reflexivity|done..].
    + destruct (init_resets (fresh (Some text) page) text eq_refl Hne Hparse)
        as (c' & Hc & Hi & _ & Hlog).
      by exists c'.
Qed.

End Init.

Lemma init_undecodable_witness :
  (forall l, JSON_parse (Testing.platform_with [("[]", JArr [])]) "{id:" ≠ Some (JArr l)) /\
  stored Samples.corrupted_cart = Some "{id:" /\ "{id:" ≠ EmptyString /\
  items Samples.corrupted_cart = [Samples.hammer] /\
  exists c',
    Cart.init (Testing.platform_with [("[]", JArr [])]) Samples.corrupted_cart
      = Returned c'
    /\ items c' = [] /\ stored c' = stored Samples.corrupted_cart
    /\ ConsoleError ∈ effects c'.
Proof.
  split; [intros l; discriminate|]. split; [reflexivity|]. split; [discriminate|].
  split; [reflexivity|].
  apply (init_undecodable (Testing.platform_with [("[]", JArr [])]) "{id:").
  - intros l. discriminate.
  - reflexivity.
  - discriminate.
Defined.

(** Loading the stored hammers: one entry, of quantity 5, and the merged
    list is saved. *)
Example init_merge_law :
  let P := Testing.platform_with
             [("stored hammers", JArr [Obj Samples.hammer; Obj Samples.claw_hammer])] in
  exists c',
    Cart.init P (fresh (Some "stored hammers") false) = Returned c' /\
    items c' = [with_quantity 5 (Cart.normalized Samples.hammer)] /\
    stored c' = Some (JSON_stringify P (items c')).
Proof. cbv zeta. eexists. split; [reflexivity|]. split; reflexivity. Qed.


(** * Further properties of the cart *)

(** ** What the normalization pass returns *)

Lemma validate_items_filed (l : list element) :
  Forall (fun o => filed (key o) o) (Cart.validate_items l).
Proof.
  unfold Cart.validate_items.
  set (u := fold_left Cart.merge (omap Cart.keep l) []).
  assert (Hu : well_filed u)
    by (apply fold_merge_well_filed; [apply kept_all|apply well_filed_nil]).
  rewrite values_perm. destruct Hu as [_ Hall]. clear -Hall.
  induction Hall as [|[k o] u Ho Hu IH]; cbn; constructor; [|done].
  cbn in Ho. by rewrite (filed_key _ _ Ho).
Qed.

Lemma validate_items_keys_NoDup (l : list element) :
  NoDup (key <$> Cart.validate_items l).
Proof.
  unfold Cart.validate_items.
  set (u := fold_left Cart.merge (omap Cart.keep l) []).
  assert (Hu : well_filed u)
    by (apply fold_merge_well_filed; [apply kept_all|apply well_filed_nil]).
  pose proof (well_filed_keys u Hu) as Hkeys.
  rewrite values_perm.
  replace (key <$> u.*2) with u.*1; [apply Hu|].
  clear -Hkeys. induction Hkeys as [|[k o] u Hk Hu IH]; cbn; [done|].
  cbn in Hk. by rewrite Hk, IH.
Qed.

(** X1.  Every item the normalization pass returns has a non-empty string
    for an [id] (not a name inherited from [Object.prototype]), a truthy
    [name], a string for a price, and for a quantity an integer of at least
    1 that is a double, or Infinity. *)
Theorem validate_output_normal (l : list element) (o : object) :
  o ∈ Cart.validate_items l ->
  (exists s, JS.get o "id" = VStr s /\ s ≠ EmptyString /\ UniqueItems.inherited s = false) /\
  JS.truthy (JS.get o "name") = true /\
  ((exists q, JS.get o "quantity" = VNum (Int q) /\ 1 <= q /\ Double.round_Z q = Int q)
   \/ JS.get o "quantity" = VNum PInf) /\
  (exists p, JS.get o "price" = VStr p).
Proof.
  intros Hin.
  pose proof (proj1 (Forall_forall _ _) (validate_items_filed l) o Hin) as Hf.
  destruct Hf as (Hid & Hinh & Hne & Hname & (n & Hq & Hc) & (p & Hp)).
  split; [|split; [done|split]].
  - exists (key o). split; [by apply get_string|done].
  - unfold JS.get. rewrite Hq. cbn.
    destruct n as [|q| | |]; try done; [left|by right].
    exists q. by destruct Hc.
  - exists p. by apply get_string.
Qed.

(** A stored quantity of 310 digits comes out as Infinity. *)
Example validate_infinite :
  (fun o => JS.get o "quantity")
    <$> Cart.validate_items
          [Obj (<["quantity" := VStr (JS.digits_of_N (10 ^ 309))]> Samples.hammer)]
  = [VNum PInf].
Proof. vm_compute. reflexivity. Qed.

Lemma strict_eq_sym a b : JS.strict_eq a b = JS.strict_eq b a.
Proof.
  destruct a as [| |x|[|x|x| |]|x], b as [| |y|[|y|y| |]|y]; cbn; try reflexivity.
  - by destruct x, y.
  - apply Z.eqb_sym.
  - apply bool_decide_ext. split; congruence.
  - apply String.eqb_sym.
Qed.

Lemma distinct_strings (l : list object) :
  Forall (fun o => JS.get o "id" = VStr (key o)) l ->
  NoDup (key <$> l) -> distinct_ids l = true.
Proof.
  unfold distinct_ids, ids.
  induction 1 as [|o l Ho Hl IH]; [done|].
  rewrite !fmap_cons. intros [Hnotin Hnd]%NoDup_cons.
  cbn [distinct_values]. rewrite (IH Hnd), andb_true_r.
  apply forallb_forall. intros w Hw%list_elem_of_In.
  apply list_elem_of_fmap in Hw as (o' & -> & Ho').
  pose proof (proj1 (Forall_forall _ _) Hl o' Ho') as Hid'.
  rewrite Hid', Ho. cbn. apply negb_true_iff, String.eqb_neq.
  intros Heq. apply Hnotin. rewrite <- Heq. apply list_elem_of_fmap. eauto.
Qed.

(** X2.  No two items the normalization pass returns have the same [id]. *)
Theorem validate_distinct_ids (l : list element) :
  distinct_ids (Cart.validate_items l) = true /\
  NoDup (ids (Cart.validate_items l)).
Proof.
  assert (Hids : Forall (fun o => JS.get o "id" = VStr (key o)) (Cart.validate_items l)).
  { eapply Forall_impl; [apply validate_items_filed|]. intros o (Hid & _). cbn.
    by apply get_string. }
  split.
  - apply distinct_strings; [done|apply validate_items_keys_NoDup].
  - unfold ids. replace ((fun item => JS.get item "id") <$> Cart.validate_items l)
      with (VStr <$> (key <$> Cart.validate_items l)).
    + apply NoDup_fmap_2; [intros x y [= ->]; done|apply validate_items_keys_NoDup].
    + rewrite <- list_fmap_compose. apply Forall_fmap_ext_1.
      eapply Forall_impl; [exact Hids|]. intros o Ho. cbn. by rewrite Ho.
Qed.

Lemma merge_length u item : (length (Cart.merge u item) <= S (length u))%nat.
Proof.
  unfold Cart.merge. destruct (UniqueItems.own _ u).
  - assert (H : forall k f (v : UniqueItems.t), length (UniqueItems.update k f v) = length v).
    { intros k f v. induction v as [|[k' o'] v IH]; cbn; [done|].
      destruct (String.eqb k' k); cbn; [done|]. by rewrite IH. }
    rewrite H. lia.
  - destruct (UniqueItems.inherited _); [lia|]. rewrite length_app. cbn. lia.
Qed.

Lemma fold_merge_length l : forall u,
  (length (fold_left Cart.merge l u) <= length u + length l)%nat.
Proof.
  induction l as [|item l IH]; intros u; cbn [fold_left length]; [lia|].
  specialize (IH (Cart.merge u item)). pose proof (merge_length u item). lia.
Qed.

(** X3.  The normalization pass never returns more items than it was
    given; [validate] saves the result exactly when it is shorter than the
    list it was given, and leaves the stored text alone otherwise. *)
Theorem validate_never_grows (P : platform) (l : list element) (c : state) :
  (length (Cart.validate_items l) <= length l)%nat /\
  exists c', Cart.validate P (JArr l) c = Returned c' /\
             items c' = Cart.validate_items l /\
             stored c' = if bool_decide (length (Cart.validate_items l) < length l)%nat
                         then Some (JSON_stringify P (Cart.validate_items l))
                         else stored c.
Proof.
  assert (Hkeep : (length (omap Cart.keep l) <= length l)%nat).
  { clear. induction l as [|e l IH]; cbn; [done|]. destruct (Cart.keep e); cbn; lia. }
  assert (Hlen : (length (Cart.validate_items l) <= length (omap Cart.keep l))%nat).
  { unfold Cart.validate_items. rewrite values_perm, length_fmap.
    pose proof (fold_merge_length (omap Cart.keep l) []). cbn in *. lia. }
  split; [lia|]. unfold Cart.validate. cbn [items set_items].
  destruct (decide (length (Cart.validate_items l) = length l)) as [Heq|Hne].
  - rewrite bool_decide_eq_false_2 by (intros H; by apply H).
    rewrite bool_decide_eq_false_2 by lia. eexists. split; [reflexivity|]. done.
  - rewrite bool_decide_eq_true_2 by done.
    rewrite bool_decide_eq_true_2 by lia. eexists. split; [reflexivity|]. done.
Qed.


(** ** The sum of the quantities *)

Lemma total_quantity_perm (l k : list object) :
  l ≡ₚ k -> total_quantity l = total_quantity k.
Proof.
  unfold total_quantity. induction 1; cbn; lia.
Qed.

Lemma total_quantity_app (l k : list object) :
  total_quantity (l ++ k) = total_quantity l + total_quantity k.
Proof.
  unfold total_quantity. induction l as [|o l IH]; cbn; [done|]. rewrite IH. lia.
Qed.

Lemma total_quantity_cons (o : object) (l : list object) :
  total_quantity (o :: l) = quantity_of o + total_quantity l.
Proof. reflexivity. Qed.

Lemma positive_quantity_of (o : object) :
  positive_quantity o = true ->
  exists q, o !! "quantity" = Some (VNum (Int q)) /\ 1 <= q /\ quantity_of o = q.
Proof.
  unfold positive_quantity, quantity_of.
  destruct (o !! "quantity") as [[| | |[|q| | |]|]|]; try discriminate.
  intros H%Z.leb_le. eauto.
Qed.

Lemma total_quantity_nonneg (l : list object) :
  forallb positive_quantity l = true -> 0 <= total_quantity l.
Proof.
  induction l as [|o l IH]; cbn [forallb]; [intros _; by cbn|].
  intros [(q & _ & Hq & Hqo)%positive_quantity_of Hl]%andb_true_iff.
  rewrite total_quantity_cons. specialize (IH Hl). lia.
Qed.

Lemma own_quantity_le k (u : UniqueItems.t) o :
  whole_entries u -> UniqueItems.own k u = Some o ->
  exists q, o !! "quantity" = Some (VNum (Int q)) /\ 1 <= q <= total_quantity u.*2.
Proof.
  unfold whole_entries. induction u as [|[k' o'] u IH]; cbn [UniqueItems.own]; [done|].
  rewrite fmap_cons. cbn [forallb snd]. intros [Ho Hu]%andb_true_iff.
  rewrite total_quantity_cons. pose proof (total_quantity_nonneg _ Hu).
  destruct (positive_quantity_of o' Ho) as (q' & Hq' & Hq1 & Hqo).
  destruct (String.eqb k' k).
  - intros [= <-]. exists q'. split; [done|lia].
  - intros Hown. destruct (IH Hu Hown) as (q & Hq & Hle). exists q. split; [done|lia].
Qed.

Lemma update_bump_whole k z (u : UniqueItems.t) o q :
  whole_entries u -> UniqueItems.own k u = Some o ->
  o !! "quantity" = Some (VNum (Int q)) -> 1 <= z -> Z.abs (q + z) <= 2 ^ 53 -> 1 <= q ->
  whole_entries (UniqueItems.update k (Cart.bump (Int z)) u) /\
  total_quantity (UniqueItems.update k (Cart.bump (Int z)) u).*2 = total_quantity u.*2 + z.
Proof.
  unfold whole_entries. intros Hu Hown Hq Hz Hb Hq1.
  induction u as [|[k' o'] u IH]; cbn [UniqueItems.own UniqueItems.update] in *; [done|].
  rewrite fmap_cons in Hu. cbn [forallb snd] in Hu. apply andb_true_iff in Hu as [Ho' Hu].
  destruct (String.eqb k' k).
  - injection Hown as ->. rewrite fmap_cons. cbn [forallb snd].
    rewrite (bump_with_number (Int z) (Int q) o Hq). cbn [Double.add].
    rewrite round_Z_small by done.
    rewrite !total_quantity_cons.
    assert (Hnew : positive_quantity (with_number (Int (q + z)) o) = true).
    { unfold positive_quantity, with_number. rewrite lookup_insert_eq. apply Z.leb_le. lia. }
    split; [by rewrite Hnew, Hu|].
    assert (Hold : quantity_of o = q) by (unfold quantity_of; by rewrite Hq).
    assert (Hnow : quantity_of (with_number (Int (q + z)) o) = q + z)
      by (unfold quantity_of, with_number; by rewrite lookup_insert_eq).
    rewrite fmap_cons. cbn [snd]. rewrite total_quantity_cons, Hold, Hnow. lia.
  - destruct (IH Hu Hown) as [IH1 IH2]. rewrite fmap_cons. cbn [forallb snd].
    split; [by rewrite Ho', IH1|].
    rewrite (fmap_cons snd). cbn [snd]. rewrite !total_quantity_cons, IH2. lia.
Qed.

Lemma total_quantity_fold l : forall u total,
  Forall kept l -> well_filed u -> whole_entries u ->
  sum_quantities (filter (fun item => fileable (key item)) l) = Some total ->
  total_quantity u.*2 + total <= 2 ^ 53 ->
  total_quantity (fold_left Cart.merge l u).*2 = total_quantity u.*2 + total.
Proof.
  induction l as [|item l IH]; intros u total Hl Hu Hw; cbn [fold_left].
  - intros [= <-] _. lia.
  - apply Forall_cons in Hl as [Hk Hl]. rewrite filter_cons.
    pose proof (total_quantity_nonneg _ Hw) as Hnn.
    unfold Cart.merge. fold (key item).
    destruct (UniqueItems.own (key item) u) as [o|] eqn:Hown.
    + assert (Hf : filed (key item) o).
      { apply own_Some in Hown. destruct Hu as [_ Hall].
        by apply (proj1 (Forall_forall _ _) Hall (key item, o)). }
      destruct Hf as (_ & Hinh & _).
      rewrite decide_True by done.
      intros (z & t & Hq & Hz & Ht & ->)%sum_quantities_cons Hle.
      pose proof (sum_quantities_nonneg _ _ Ht).
      destruct (own_quantity_le _ _ _ Hw Hown) as (q & Hoq & Hq1).
      destruct (update_bump_whole (key item) z u o q Hw Hown Hoq Hz ltac:(lia) ltac:(lia))
        as [Hw' Ht'].
      assert (Hm : Cart.merge u item
                   = UniqueItems.update (key item) (Cart.bump (Int z)) u).
      { unfold Cart.merge. fold (key item). by rewrite Hown, Hq. }
      rewrite Hq.
      rewrite (IH _ t Hl); [lia| |done|done|lia].
      rewrite <- Hm. by apply merge_well_filed.
    + destruct (UniqueItems.inherited (key item)) eqn:Hinh.
      * rewrite decide_False by (unfold fileable; congruence).
        intros Hsum Hle. by apply IH.
      * rewrite decide_True by done.
        intros (z & t & Hq & Hz & Ht & ->)%sum_quantities_cons Hle.
        pose proof (sum_quantities_nonneg _ _ Ht).
        assert (Hqn : quantity_of (Cart.normalized item) = z
                      /\ positive_quantity (Cart.normalized item) = true).
        { unfold quantity_of, positive_quantity, Cart.normalized.
          rewrite lookup_insert_ne by done. rewrite lookup_insert_eq, Hq.
          split; [done|by apply Z.leb_le]. }
        destruct Hqn as [Hqn Hpn].
        assert (Hm : Cart.merge u item = u ++ [(key item, Cart.normalized item)]).
        { unfold Cart.merge. fold (key item). by rewrite Hown, Hinh. }
        assert (Ht' : total_quantity (u ++ [(key item, Cart.normalized item)]).*2
                      = total_quantity u.*2 + z).
        { rewrite fmap_app, total_quantity_app. cbn [fmap list_fmap snd].
          rewrite total_quantity_cons, Hqn. unfold total_quantity. cbn. lia. }
        rewrite (IH _ t Hl); [lia| | |done|lia].
        -- rewrite <- Hm. by apply merge_well_filed.
        -- unfold whole_entries. rewrite fmap_app, forallb_app. cbn.
           by rewrite Hw, Hpn.
Qed.

(** X4.  Merging loses no quantity as long as the sum stays at most 2^53:
    when the normalized quantities of the entries that pass the filter and
    whose [id] is not an inherited name are integers that add up to at most
    2^53, the quantities of the result add up to the same sum. *)
Theorem validate_conserves_quantity (l : list element) (total : Z) :
  sum_quantities (filter (fun item => fileable (key item)) (omap Cart.keep l)) = Some total ->
  total <= 2 ^ 53 ->
  total_quantity (Cart.validate_items l) = total.
Proof.
  intros Hsum Hle. unfold Cart.validate_items.
  rewrite (total_quantity_perm _ _ (values_perm _)).
  rewrite (total_quantity_fold _ [] total); [| apply kept_all | apply well_filed_nil
                                             | done | done | ].
  - unfold total_quantity. cbn. lia.
  - unfold total_quantity. cbn. lia.
Qed.
(** ** The operations on a cart with distinct ids *)

Lemma strict_eq_eq a b : JS.strict_eq a b = true -> a = b.
Proof.
  destruct a as [| |x|[|x|x| |]|x], b as [| |y|[|y|y| |]|y]; cbn;
    try discriminate; try done.
  - intros H. f_equal. by destruct x, y.
  - intros H%Z.eqb_eq. by subst.
  - intros H%bool_decide_eq_true. by subst.
  - intros H%String.eqb_eq. by subst.
Qed.

Lemma forallb_filter {A} (g f : A -> bool) (l : list A) :
  forallb g l = true -> forallb g (List.filter f l) = true.
Proof.
  induction l as [|x l IH]; cbn; [done|].
  intros [Hx Hl]%andb_true_iff. destruct (f x); cbn; [|auto].
  by rewrite Hx, IH.
Qed.

Lemma distinct_ids_filter (f : object -> bool) (l : list object) :
  distinct_ids l = true -> distinct_ids (List.filter f l) = true.
Proof.
  unfold distinct_ids, ids. induction l as [|o l IH]; cbn; [done|].
  intros [Ho Hl]%andb_true_iff. destruct (f o); cbn; [|auto].
  rewrite (IH Hl), andb_true_r.
  clear -Ho. induction l as [|o' l IH]; cbn in *; [done|].
  apply andb_true_iff in Ho as [Ho' Ho]. destruct (f o'); cbn; [|auto].
  by rewrite Ho', IH.
Qed.

Lemma ids_insert_same (l : list object) i item item' :
  l !! i = Some item -> JS.get item' "id" = JS.get item "id" ->
  ids (<[i := item']> l) = ids l.
Proof.
  intros Hi Hid. unfold ids. rewrite list_fmap_insert, Hid.
  apply list_insert_id. by rewrite list_lookup_fmap, Hi.
Qed.

Lemma distinct_values_snoc (vs : list value) v :
  distinct_values vs = true ->
  Forall (fun w => JS.strict_eq w v = false) vs ->
  distinct_values (vs ++ [v]) = true.
Proof.
  induction vs as [|w vs IH]; cbn; [done|].
  intros [Hw Hvs]%andb_true_iff [Hwv Hall]%Forall_cons.
  rewrite (IH Hvs Hall), andb_true_r, forallb_app, Hw. cbn.
  by rewrite strict_eq_sym, Hwv.
Qed.

Lemma get_with_quantity_id q item : JS.get (with_quantity q item) "id" = JS.get item "id".
Proof. unfold JS.get, with_quantity. by rewrite lookup_insert_ne. Qed.

Lemma get_set_quantity_id v (item : object) :
  JS.get (<["quantity" := v]> item) "id" = JS.get item "id".
Proof. unfold JS.get. by rewrite lookup_insert_ne. Qed.

(** Where [find] stops: nothing before the item found has the id. *)
Lemma find_split (x : value) (l : list object) i item :
  list_find (Cart.has_id x) l = Some (i, item) ->
  l = take i l ++ item :: drop (S i) l /\
  length (take i l) = i /\
  Cart.has_id x item = true /\
  Forall (fun o => Cart.has_id x o = false) (take i l).
Proof.
  intros (Hi & Hx & Hbefore)%list_find_Some.
  split; [by rewrite take_drop_middle|]. split.
  { apply length_take_le. apply lookup_lt_Some in Hi. lia. }
  split; [by apply Is_true_true|].
  apply Forall_forall. intros o (j & Hj & Hlt)%elem_of_take.
  specialize (Hbefore j o Hj Hlt). by destruct (Cart.has_id x o).
Qed.

(** With distinct ids nothing after it has the id either. *)
Lemma find_split_distinct (x : value) (l : list object) i item :
  distinct_ids l = true ->
  list_find (Cart.has_id x) l = Some (i, item) ->
  Forall (fun o => Cart.has_id x o = false) (drop (S i) l).
Proof.
  intros Hd Hfind. destruct (find_split x l i item Hfind) as (Hl & _ & Hx & _).
  revert Hd. rewrite Hl at 1. unfold distinct_ids, ids.
  generalize (take i l). intros pre. induction pre as [|p pre IH]; cbn.
  - intros [Hitem _]%andb_true_iff. apply Forall_forall. intros o Ho.
    assert (Hin : JS.get o "id" ∈ (fun item0 => JS.get item0 "id") <$> drop (S i) l)
      by (apply list_elem_of_fmap; eauto).
    apply list_elem_of_In in Hin.
    pose proof (proj1 (forallb_forall _ _) Hitem _ Hin) as Hneq.
    apply negb_true_iff in Hneq. clear Hitem. rename Hneq into Hitem.
    unfold Cart.has_id in *. destruct (JS.strict_eq (JS.get o "id") x) eqn:E; [|done].
    pose proof (strict_eq_eq _ _ E) as E'. pose proof (strict_eq_eq _ _ Hx) as Hx'.
    rewrite E', Hx' in Hitem. rewrite E' in E. congruence.
  - intros [_ H]%andb_true_iff. auto.
Qed.

Lemma filter_none (f : object -> bool) (l : list object) :
  Forall (fun o => f o = false) l -> List.filter f l = [].
Proof. induction 1 as [|o l Ho Hl IH]; cbn; [done|]. by rewrite Ho. Qed.

Lemma filter_every (f : object -> bool) (l : list object) :
  Forall (fun o => f o = true) l -> List.filter f l = l.
Proof. induction 1 as [|o l Ho Hl IH]; cbn; [done|]. by rewrite Ho, IH. Qed.

Lemma Forall_negb (f : object -> bool) (l : list object) :
  Forall (fun o => f o = false) l -> Forall (fun o => negb (f o) = true) l.
Proof. intros H. eapply Forall_impl; [exact H|]. intros o ->. done. Qed.

Section Operations.

Variable P : platform.

Lemma add_items_new (product : object) (c : state) :
  JS.truthy (JS.get product "id") = true ->
  list_find (Cart.has_id (JS.get product "id")) (items c) = None ->
  items (Cart.add P product c).2
  = items c ++ [with_quantity 1 (Cart.coerce_price product)].
Proof.
  intros Hid Hfind. unfold Cart.add. rewrite Hid. cbn [negb snd].
  rewrite coerce_price_id, Hfind. reflexivity.
Qed.

Lemma add_items_seen (product : object) (c : state) i item :
  JS.truthy (JS.get product "id") = true ->
  list_find (Cart.has_id (JS.get product "id")) (items c) = Some (i, item) ->
  items (Cart.add P product c).2
  = <[i := Cart.bump (Int 1) item]> (items c).
Proof.
  intros Hid Hfind. unfold Cart.add. rewrite Hid. cbn [negb snd].
  rewrite coerce_price_id, Hfind. reflexivity.
Qed.

Lemma remove_items (x : value) (c : state) :
  items (Cart.remove P x c)
  = List.filter (fun item => negb (Cart.has_id x item)) (items c).
Proof. unfold Cart.remove, Cart.render. cbn. by destruct (cartContent c). Qed.

(** X5.  The stored text stays the serialization of the item list through
    [add], [remove], [updateQuantity] and [clear]. *)
Theorem operations_keep_storage_in_step (c : state) (product : object)
    (productId quantity : value) :
  synced P c ->
  synced P (Cart.add P product c).2 /\
  synced P (Cart.remove P productId c) /\
  synced P (Cart.updateQuantity P productId quantity c) /\
  synced P (Cart.clear P c).
Proof.
  intros Hc. unfold synced in *.
  assert (Hremove : forall x, stored (Cart.remove P x c)
                      = Some (JSON_stringify P (items (Cart.remove P x c)))).
  { intros x. unfold Cart.remove, Cart.render. cbn. by destruct (cartContent c). }
  split; [|split; [apply Hremove|split]].
  - unfold Cart.add. destruct (JS.truthy (JS.get product "id")); cbn [negb snd]; [|done].
    by destruct (list_find _ (items c)) as [[i item]|].
  - unfold Cart.updateQuantity.
    destruct (list_find _ (items c)) as [[i item]|]; [|done].
    destruct (JS.le_zero (JS.parseInt quantity)); [apply Hremove|].
    unfold Cart.render. cbn. by destruct (cartContent c).
  - unfold Cart.clear, Cart.render. cbn. by destruct (cartContent c).
Qed.

(** X6.  A cart whose items have pairwise distinct ids keeps them distinct
    through [add], [remove], [updateQuantity] and [clear]. *)
Theorem operations_keep_ids_distinct (c : state) (product : object)
    (productId quantity : value) :
  distinct_ids (items c) = true ->
  distinct_ids (items (Cart.add P product c).2) = true /\
  distinct_ids (items (Cart.remove P productId c)) = true /\
  distinct_ids (items (Cart.updateQuantity P productId quantity c)) = true /\
  distinct_ids (items (Cart.clear P c)) = true.
Proof.
  intros Hc.
  assert (Hremove : forall x, distinct_ids (items (Cart.remove P x c)) = true).
  { intros x. rewrite remove_items. by apply distinct_ids_filter. }
  split; [|split; [apply Hremove|split]].
  - destruct (JS.truthy (JS.get product "id")) eqn:Hid.
    + destruct (list_find (Cart.has_id (JS.get product "id")) (items c))
        as [[i item]|] eqn:Hfind.
      * rewrite (add_items_seen product c i item Hid Hfind).
        unfold distinct_ids. erewrite ids_insert_same; [exact Hc| |].
        -- by apply list_find_Some in Hfind as (Hi & _).
        -- apply get_set_quantity_id.
      * rewrite (add_items_new product c Hid Hfind).
        unfold distinct_ids, ids. rewrite fmap_app. cbn [fmap list_fmap].
        apply distinct_values_snoc; [exact Hc|].
        apply list_find_None in Hfind. apply Forall_fmap.
        eapply Forall_impl; [exact Hfind|]. intros o Ho. cbn.
        rewrite get_with_quantity_id, coerce_price_id.
        unfold Cart.has_id in Ho. by destruct (JS.strict_eq _ _).
    + unfold Cart.add. by rewrite Hid.
  - unfold Cart.updateQuantity.
    destruct (list_find _ (items c)) as [[i item]|] eqn:Hfind; [|done].
    destruct (JS.le_zero (JS.parseInt quantity)); [apply Hremove|].
    unfold Cart.render. cbn.
    assert (H : distinct_ids (<[i := <["quantity" := VNum (JS.parseInt quantity)]> item]>
                                (items c)) = true).
    { unfold distinct_ids. erewrite ids_insert_same; [exact Hc| |].
      - by apply list_find_Some in Hfind as (Hi & _).
      - apply get_set_quantity_id. }
    by destruct (cartContent c).
  - unfold Cart.clear, Cart.render. cbn. by destruct (cartContent c).
Qed.

(** X7.  Adding a product whose id the cart does not hold and removing that
    id again gives back the item list as it was. *)
Theorem remove_after_add (product : object) (c : state) :
  JS.truthy (JS.get product "id") = true ->
  list_find (Cart.has_id (JS.get product "id")) (items c) = None ->
  items (Cart.remove P (JS.get product "id") (Cart.add P product c).2) = items c.
Proof.
  intros Hid Hfind. rewrite remove_items, (add_items_new product c Hid Hfind).
  rewrite List.filter_app. cbn [List.filter].
  assert (Hnew : Cart.has_id (JS.get product "id")
                   (with_quantity 1 (Cart.coerce_price product)) = true).
  { unfold Cart.has_id. rewrite get_with_quantity_id, coerce_price_id.
    by apply strict_eq_truthy. }
  rewrite Hnew. cbn. rewrite app_nil_r. apply filter_every.
  apply list_find_None in Hfind. eapply Forall_impl; [exact Hfind|].
  intros o Ho. cbn in *.
  destruct (Cart.has_id (JS.get product "id") o); [exfalso; by apply Ho|done].
Qed.

(** X8.  On a cart with distinct ids, [remove] of the id of an item takes
    out that one item and leaves the others in place. *)
Theorem remove_takes_one (c : state) (x : value) i item :
  distinct_ids (items c) = true ->
  list_find (Cart.has_id x) (items c) = Some (i, item) ->
  items (Cart.remove P x c) = take i (items c) ++ drop (S i) (items c) /\
  S (length (items (Cart.remove P x c))) = length (items c).
Proof.
  intros Hd Hfind.
  destruct (find_split x (items c) i item Hfind) as (Hl & Hlen & Hx & Hpre).
  pose proof (find_split_distinct x (items c) i item Hd Hfind) as Hpost.
  assert (H : items (Cart.remove P x c) = take i (items c) ++ drop (S i) (items c)).
  { rewrite remove_items. rewrite Hl at 1.
    rewrite List.filter_app. cbn [List.filter]. rewrite Hx. cbn [negb].
    rewrite !filter_every; [done| |]; by apply Forall_negb. }
  split; [exact H|]. rewrite H. rewrite Hl at 3.
  rewrite !length_app. cbn. lia.
Qed.

(** X9.  On a cart with distinct ids, [updateQuantity(x, q)] with an
    integer [q] from 1 to below 10^21 (a number of the language: a double)
    gives the quantity [q] to the item of id [x] and to no other: every
    other item is as it was. *)
Theorem updateQuantity_sets_one (c : state) (x : value) (q : Z) i item :
  distinct_ids (items c) = true ->
  list_find (Cart.has_id x) (items c) = Some (i, item) ->
  1 <= q < 10 ^ 21 -> Double.is_double (Int q) = true ->
  items (Cart.updateQuantity P x (VNum (Int q)) c)
    = take i (items c) ++ with_quantity q item :: drop (S i) (items c) /\
  List.filter (Cart.has_id x) (items (Cart.updateQuantity P x (VNum (Int q)) c))
    = [with_quantity q item].
Proof.
  intros Hd Hfind Hq Hdouble. apply bool_decide_eq_true in Hdouble.
  destruct (find_split x (items c) i item Hfind) as (Hl & Hlen & Hx & Hpre).
  pose proof (find_split_distinct x (items c) i item Hd Hfind) as Hpost.
  assert (H : items (Cart.updateQuantity P x (VNum (Int q)) c)
              = take i (items c) ++ with_quantity q item :: drop (S i) (items c)).
  { unfold Cart.updateQuantity. rewrite Hfind, parseInt_small by (done || lia).
    cbn [JS.le_zero]. destruct (Z.leb_spec q 0) as [|_]; [lia|].
    unfold Cart.render. cbn.
    assert (Hins : <[i := <["quantity" := VNum (Int q)]> item]> (items c)
                   = take i (items c) ++ with_quantity q item :: drop (S i) (items c)).
    { apply insert_take_drop. apply list_find_Some in Hfind as (Hi & _).
      by apply lookup_lt_Some in Hi. }
    destruct (cartContent c); cbn; exact Hins. }
  split; [exact H|]. rewrite H, List.filter_app. cbn [List.filter].
  assert (Hnew : Cart.has_id x (with_quantity q item) = true).
  { unfold Cart.has_id in *. by rewrite get_with_quantity_id. }
  rewrite Hnew, !filter_none by done. done.
Qed.

End Operations.


(** ** The badge *)

Lemma badge_count_from (l : list object) : forall a,
  0 <= a -> forallb positive_quantity l = true -> a + total_quantity l <= 2 ^ 53 ->
  fold_left
    (fun sum item =>
       Double.add sum
         (let n := JS.parseInt (JS.get item "quantity") in
          if JS.truthy (VNum n) then n else Int 0)) l (Int a)
  = Int (a + total_quantity l).
Proof.
  induction l as [|item l IH]; intros a Ha; cbn [fold_left forallb].
  - intros _ _. unfold total_quantity. cbn. f_equal. lia.
  - intros [(q & Hq & Hq1 & Hqo)%positive_quantity_of Hl]%andb_true_iff.
    rewrite total_quantity_cons, Hqo. intros Hle.
    pose proof (total_quantity_nonneg l Hl).
    unfold JS.get. rewrite Hq. cbn [default from_option id].
    rewrite parseInt_safe by lia. cbn [JS.truthy].
    destruct (Z.eqb_spec q 0) as [|_]; [lia|]. cbn [negb Double.add].
    rewrite round_Z_small by lia.
    replace (a + (q + total_quantity l)) with (a + q + total_quantity l) by lia.
    apply IH; [lia|done|lia].
Qed.

Lemma badge_count_total (l : list object) :
  forallb positive_quantity l = true -> total_quantity l <= 2 ^ 53 ->
  Cart.badge_count l = Int (total_quantity l).
Proof.
  intros Hl Hle. exact (badge_count_from l 0 ltac:(lia) Hl ltac:(lia)).
Qed.

(** X10.  When the quantities are integers of at least 1 that add up to at
    most 2^53, the number [updateBadge] writes into the badges is their
    sum. *)
Theorem badge_shows_total_quantity (c : state) :
  forallb positive_quantity (items c) = true ->
  total_quantity (items c) <= 2 ^ 53 ->
  effects (Cart.updateBadge c) = effects c ++ [Badge (Int (total_quantity (items c)))].
Proof.
  intros Hc Hle. unfold Cart.updateBadge. cbn. by rewrite badge_count_total.
Qed.

(** Beyond 2^53 the badge loses count: 2^53 and 1 show as 2^53. *)
Example badge_rounds :
  Cart.badge_count [Samples.grinder; Samples.bolt] = Int (2 ^ 53).
Proof. vm_compute. reflexivity. Qed.

Lemma total_quantity_with q item :
  total_quantity [with_quantity q item] = q.
Proof.
  unfold total_quantity, quantity_of, with_quantity. cbn.
  rewrite lookup_insert_eq. lia.
Qed.

Lemma positive_quantity_with q item :
  1 <= q -> positive_quantity (with_quantity q item) = true.
Proof.
  intros Hq. unfold positive_quantity, with_quantity. rewrite lookup_insert_eq.
  by apply Z.leb_le.
Qed.

(** What [add] leaves when the quantities are integers of at least 1 and
    the sum stays at most 2^53. *)
Lemma add_items_whole (P : platform) (product : object) (c : state) :
  JS.truthy (JS.get product "id") = true ->
  forallb positive_quantity (items c) = true ->
  total_quantity (items c) + 1 <= 2 ^ 53 ->
  forallb positive_quantity (items (Cart.add P product c).2) = true /\
  total_quantity (items (Cart.add P product c).2) = total_quantity (items c) + 1 /\
  (forall i item,
     list_find (Cart.has_id (JS.get product "id")) (items c) = Some (i, item) ->
     exists q, item !! "quantity" = Some (VNum (Int q)) /\ 1 <= q /\
               items (Cart.add P product c).2
               = take i (items c) ++ with_quantity (q + 1) item :: drop (S i) (items c)).
Proof.
  intros Hid Hc Hle.
  destruct (list_find (Cart.has_id (JS.get product "id")) (items c))
    as [[i item]|] eqn:Hfind.
  - rewrite (add_items_seen P product c i item Hid Hfind).
    destruct (find_split _ _ _ _ Hfind) as (Hl & Hlen & _ & _).
    assert (Hi : (i < length (items c))%nat).
    { apply list_find_Some in Hfind as (Hi & _). by apply lookup_lt_Some in Hi. }
    rewrite (insert_take_drop _ _ _ Hi).
    set (pre := take i (items c)) in *. set (post := drop (S i) (items c)) in *.
    assert (Hc' : forallb positive_quantity (pre ++ item :: post) = true)
      by (rewrite <- Hl; exact Hc).
    rewrite forallb_app in Hc'. cbn [forallb] in Hc'.
    apply andb_true_iff in Hc' as [Hpre [Hitem Hpost]%andb_true_iff].
    destruct (positive_quantity_of item Hitem) as (q & Hq & Hq1 & Hqo).
    assert (Ht : total_quantity (items c)
                 = total_quantity pre + (q + total_quantity post)).
    { rewrite Hl. by rewrite total_quantity_app, total_quantity_cons, Hqo. }
    pose proof (total_quantity_nonneg _ Hpre). pose proof (total_quantity_nonneg _ Hpost).
    rewrite (bump_with_number (Int 1) (Int q) item Hq). cbn [Double.add].
    rewrite round_Z_small by lia.
    change (with_number (Int (q + 1)) item) with (with_quantity (q + 1) item).
    split; [|split].
    + rewrite forallb_app. cbn [forallb].
      by rewrite Hpre, Hpost, positive_quantity_with by lia.
    + rewrite total_quantity_app, total_quantity_cons.
      assert (Hnow : quantity_of (with_quantity (q + 1) item) = q + 1)
        by (unfold quantity_of, with_quantity; by rewrite lookup_insert_eq).
      rewrite Hnow, Ht. lia.
    + intros i' item' [= <- <-]. exists q. done.
  - rewrite (add_items_new P product c Hid Hfind). split; [|split; [|done]].
    + rewrite forallb_app. cbn [forallb]. by rewrite Hc, positive_quantity_with by lia.
    + by rewrite total_quantity_app, total_quantity_with.
Qed.

(** X11.  [add] with a truthy id raises the badge count by one, whether it
    finds the id in the cart or not, when the quantities are integers of at
    least 1 and their sum, with the one added, is at most 2^53. *)
Theorem add_raises_badge_by_one (P : platform) (product : object) (c : state) :
  JS.truthy (JS.get product "id") = true ->
  forallb positive_quantity (items c) = true ->
  total_quantity (items c) + 1 <= 2 ^ 53 ->
  Cart.badge_count (items c) = Int (total_quantity (items c)) /\
  Cart.badge_count (items (Cart.add P product c).2) = Int (total_quantity (items c) + 1).
Proof.
  intros Hid Hc Hle.
  destruct (add_items_whole P product c Hid Hc Hle) as (Hpos & Htotal & _).
  split; [apply badge_count_total; [done|lia]|].
  rewrite badge_count_total by (done || lia). by rewrite Htotal.
Qed.

(** ** The total for whole prices *)

Lemma getTotal_whole_from (P : platform) (l : list object) : forall a,
  0 <= a -> forallb positive_quantity l = true -> forallb whole_price l = true ->
  a + whole_total l <= 2 ^ 53 ->
  fold_left
    (fun total item =>
       Double.add total
         (Double.mul (Cart.price_of item)
            (Cart.ToNumber P (JS.or_else (JS.get item "quantity") (VNum (Int 1))))))
    l (Int a)
  = Int (a + whole_total l) /\ 0 <= whole_total l.
Proof.
  induction l as [|item l IH]; intros a Ha; cbn [fold_left forallb].
  - intros _ _ _. unfold whole_total. cbn. split; [f_equal|]; lia.
  - intros [(q & Hq & Hq1 & Hqo)%positive_quantity_of Hl]%andb_true_iff
           [Hp Hpl]%andb_true_iff.
    unfold whole_total. rewrite fmap_cons. cbn [foldr]. fold (whole_total l).
    unfold whole_price in Hp.
    destruct (Cart.price_of item) as [|p| | |] eqn:Hprice; try discriminate Hp.
    assert (HpZ : price_Z item = p) by (unfold price_Z; by rewrite Hprice).
    apply Z.leb_le in Hp. rewrite Hqo, HpZ. intros Hle.
    destruct (Z.le_gt_cases 0 (whole_total l)) as [Hnn|Hneg].
    + assert (0 <= p * q) by nia.
      assert (Hstep : Double.mul (Int p)
                        (Cart.ToNumber P (JS.or_else (JS.get item "quantity") (VNum (Int 1))))
                      = Int (p * q)).
      { unfold JS.or_else, JS.get. rewrite Hq. cbn [default from_option id JS.truthy].
        destruct (Z.eqb_spec q 0) as [|_]; [lia|].
        cbn [negb Cart.ToNumber JS.number_of Double.mul]. apply round_Z_small. lia. }
      rewrite Hstep. cbn [Double.add]. rewrite round_Z_small by lia.
      destruct (IH (a + p * q) ltac:(lia) Hl Hpl ltac:(lia)) as [IH1 IH2].
      rewrite IH1. split; [f_equal; lia|nia].
    + exfalso.
      assert (Hsame : forall b, 0 <= b -> b + whole_total l <= 2 ^ 53 -> 0 <= whole_total l).
      { intros b Hb Hb'. by destruct (IH b Hb Hl Hpl Hb'). }
      specialize (Hsame 0 ltac:(lia) ltac:(lia)). lia.
Qed.

(** For whole prices and integer quantities of at least 1, [getTotal] is
    the sum of price times quantity as long as it is at most 2^53. *)
Lemma getTotal_whole (P : platform) (c : state) :
  forallb positive_quantity (items c) = true -> forallb whole_price (items c) = true ->
  whole_total (items c) <= 2 ^ 53 ->
  Cart.getTotal P c = Int (whole_total (items c)).
Proof.
  intros Hq Hp Hle. unfold Cart.getTotal.
  by destruct (getTotal_whole_from P (items c) 0 ltac:(lia) Hq Hp ltac:(lia)) as [-> _].
Qed.

Lemma whole_total_app (l k : list object) :
  whole_total (l ++ k) = whole_total l + whole_total k.
Proof.
  unfold whole_total. induction l as [|o l IH]; cbn; [done|]. rewrite IH. lia.
Qed.

Lemma whole_total_cons (o : object) (l : list object) :
  whole_total (o :: l) = price_Z o * quantity_of o + whole_total l.
Proof. reflexivity. Qed.

Lemma price_of_set_quantity v (item : object) :
  Cart.price_of (<["quantity" := v]> item) = Cart.price_of item.
Proof. unfold Cart.price_of, Cart.priceStr, JS.get. by rewrite lookup_insert_ne. Qed.

Lemma price_of_coerce_price product :
  Cart.price_of (Cart.coerce_price product) = Cart.price_of product.
Proof.
  unfold Cart.coerce_price.
  destruct (JS.truthy (JS.get product "price")
            && negb (JS.is_string (JS.get product "price"))) eqn:Hc; [|done].
  apply andb_true_iff in Hc as [Ht Hs]. unfold Cart.price_of, Cart.priceStr.
  assert (Hget : JS.get (<["price" := VStr (JS.ToString (JS.get product "price"))]> product)
                   "price" = VStr (JS.ToString (JS.get product "price")))
    by (unfold JS.get at 1; by rewrite lookup_insert_eq).
  rewrite Hget. unfold JS.or_else.
  destruct (JS.get product "price") as [| |b|n|s]; try discriminate; by rewrite Ht.
Qed.

Lemma whole_price_with q (item : object) :
  whole_price (with_quantity q item) = whole_price item
  /\ price_Z (with_quantity q item) = price_Z item.
Proof.
  unfold whole_price, price_Z, with_quantity. by rewrite price_of_set_quantity.
Qed.

(** X12.  For whole prices, integer quantities of at least 1 and a total
    that stays at most 2^53, [add] raises the total by the price of the line
    it touches: the price of the product when its id is new to the cart, the
    price of the item already there (not the product's) when the id is
    found. *)
Theorem add_raises_total_by_price (P : platform) (product : object) (c : state) :
  JS.truthy (JS.get product "id") = true ->
  forallb positive_quantity (items c) = true ->
  forallb whole_price (items c) = true ->
  total_quantity (items c) + 1 <= 2 ^ 53 ->
  (list_find (Cart.has_id (JS.get product "id")) (items c) = None ->
   whole_price product = true ->
   whole_total (items c) + price_Z product <= 2 ^ 53 ->
   Cart.getTotal P (Cart.add P product c).2
   = Int (whole_total (items c) + price_Z product)) /\
  (forall i item,
     list_find (Cart.has_id (JS.get product "id")) (items c) = Some (i, item) ->
     whole_total (items c) + price_Z item <= 2 ^ 53 ->
     Cart.getTotal P (Cart.add P product c).2
     = Int (whole_total (items c) + price_Z item)) /\
  (whole_total (items c) <= 2 ^ 53 -> Cart.getTotal P c = Int (whole_total (items c))).
Proof.
  intros Hid Hq Hp Hcount.
  destruct (add_items_whole P product c Hid Hq Hcount) as (Hpos & _ & Hseen).
  split; [|split; [|by apply getTotal_whole]].
  - intros Hfind Hwp Hle.
    assert (Hitems := add_items_new P product c Hid Hfind).
    assert (Hnew : whole_price (with_quantity 1 (Cart.coerce_price product)) = true
                   /\ price_Z (with_quantity 1 (Cart.coerce_price product))
                      = price_Z product).
    { destruct (whole_price_with 1 (Cart.coerce_price product)) as [-> ->].
      unfold whole_price, price_Z. by rewrite price_of_coerce_price. }
    destruct Hnew as [Hnw Hnp].
    assert (Htotal : whole_total (items (Cart.add P product c).2)
                     = whole_total (items c) + price_Z product).
    { rewrite Hitems, whole_total_app, whole_total_cons, Hnp.
      unfold quantity_of, with_quantity. rewrite lookup_insert_eq.
      unfold whole_total. cbn. lia. }
    rewrite getTotal_whole; [by rewrite Htotal|done| |lia].
    rewrite Hitems, forallb_app. cbn [forallb]. by rewrite Hp, Hnw.
  - intros i item Hfind Hle.
    destruct (Hseen i item Hfind) as (q & Hiq & Hq1 & Hitems).
    destruct (find_split _ _ _ _ Hfind) as (Hl & _ & _ & _).
    assert (Hparts : forallb whole_price (take i (items c)) = true
                     /\ whole_price item = true
                     /\ forallb whole_price (drop (S i) (items c)) = true).
    { revert Hp. rewrite Hl at 1. rewrite forallb_app. cbn [forallb].
      intros [? [? ?]%andb_true_iff]%andb_true_iff. done. }
    destruct Hparts as (Hp1 & Hp2 & Hp3).
    destruct (whole_price_with (q + 1) item) as [Hwq Hpq].
    assert (Htotal : whole_total (items (Cart.add P product c).2)
                     = whole_total (items c) + price_Z item).
    { rewrite Hitems. rewrite Hl at 3.
      rewrite !whole_total_app, !whole_total_cons, Hpq.
      assert (Hold : quantity_of item = q) by (unfold quantity_of; by rewrite Hiq).
      assert (Hnow : quantity_of (with_quantity (q + 1) item) = q + 1)
        by (unfold quantity_of, with_quantity; by rewrite lookup_insert_eq).
      rewrite Hold, Hnow. lia. }
    rewrite getTotal_whole; [by rewrite Htotal|done| |lia].
    rewrite Hitems, forallb_app. cbn [forallb]. by rewrite Hp1, Hwq, Hp2, Hp3.
Qed.

Lemma shown_quantity item q :
  item !! "quantity" = Some (VNum (Int q)) -> 1 <= q < 10 ^ 21 ->
  Double.round_Z q = Int q ->
  Render.quantity item = Int q.
Proof.
  intros Hq Hq1 Hd. unfold Render.quantity, JS.get. rewrite Hq.
  cbn [default from_option id]. rewrite parseInt_small by (done || lia).
  cbn. destruct (Z.eqb_spec q 0); [lia|done].
Qed.

(** X13.  When every quantity is an integer from 1 to 2^53, the total that
    [render] shows as Subtotal and Total ([getTotal]) is the sum, in the
    order of the rows and as doubles, of the totals it shows on the rows:
    the two readings of the quantity, [item.quantity || 1] and
    [parseInt(item.quantity) || 1], give the same numbers. *)
Theorem total_is_sum_of_rows (P : platform) (c : state) :
  quantities_within (2 ^ 53 + 1) (items c) = true ->
  Cart.getTotal P c
  = fold_left (fun total item => Double.add total (Render.line_total item)) (items c) (Int 0).
Proof.
  intros Hc. unfold Cart.getTotal. generalize (Int 0). revert Hc.
  generalize (items c). intros l. induction l as [|item l IH]; intros Hl a; [done|].
  unfold quantities_within in Hl. cbn [forallb] in Hl.
  apply andb_true_iff in Hl as [[Hpos Hb]%andb_true_iff Hl]. cbn [fold_left].
  destruct (positive_quantity_of item Hpos) as (q & Hq & Hq1 & _).
  unfold quantity_below in Hb. rewrite Hq in Hb. apply Z.ltb_lt in Hb.
  assert (Hline : Double.mul (Cart.price_of item)
                    (Cart.ToNumber P (JS.or_else (JS.get item "quantity") (VNum (Int 1))))
                  = Render.line_total item).
  { unfold Render.line_total.
    rewrite (shown_quantity item q Hq) by (lia || apply round_Z_small; lia).
    unfold JS.or_else, JS.get. rewrite Hq. cbn. by destruct (Z.eqb_spec q 0); [lia|]. }
  rewrite Hline. by apply IH.
Qed.

(** ** The controls of a row *)

Section Controls.

Variable P : platform.

Lemma data_qty_read item q :
  item !! "quantity" = Some (VNum (Int q)) -> 1 <= q < 10 ^ 21 ->
  Double.round_Z q = Int q ->
  JS.parseInt (VStr (Render.data_qty item)) = Int q.
Proof.
  intros Hq Hq1 Hd. unfold Render.data_qty. rewrite (shown_quantity item q Hq Hq1 Hd).
  change (JS.parseInt (VStr (JS.Number_toString (Int q))))
    with (JS.parseInt (VNum (Int q))).
  apply parseInt_small; [done|lia].
Qed.

Lemma data_id_string item s :
  JS.get item "id" = VStr s -> VStr (Render.data_id item) = VStr s.
Proof. intros Hid. unfold Render.data_id. by rewrite Hid. Qed.

Lemma updateQuantity_items_set (c : state) (x : value) q i item :
  list_find (Cart.has_id x) (items c) = Some (i, item) -> 1 <= q < 10 ^ 21 ->
  Double.round_Z q = Int q ->
  items (Cart.updateQuantity P x (VNum (Int q)) c)
  = <[i := with_quantity q item]> (items c).
Proof.
  intros Hfind Hq Hd. unfold Cart.updateQuantity.
  rewrite Hfind, parseInt_small by (done || lia).
  cbn [JS.le_zero]. destruct (Z.leb_spec q 0) as [|_]; [lia|].
  unfold Cart.render. cbn. by destruct (cartContent c).
Qed.

(** X14.  For an item of the cart with a non-empty string id and an integer
    quantity [q] with [1 <= q] and [q + 1 <= 2^53], in a cart whose rows hold
    no markup character, a click on the [+] button of its row sets its
    quantity to [q + 1], and, when [q >= 2], a click on the [-] button sets
    it to [q - 1]. *)
Theorem quantity_buttons_step_by_one (c : state) (s : string) (q : Z) i item :
  s ≠ EmptyString -> forallb Render.row_safe (items c) = true ->
  list_find (Cart.has_id (VStr s)) (items c) = Some (i, item) ->
  JS.get item "id" = VStr s ->
  item !! "quantity" = Some (VNum (Int q)) ->
  1 <= q -> q + 1 <= 2 ^ 53 ->
  items (Handlers.click P (Handlers.quantity_button "increase" item) c)
    = <[i := with_quantity (q + 1) item]> (items c) /\
  (2 <= q ->
   items (Handlers.click P (Handlers.quantity_button "decrease" item) c)
     = <[i := with_quantity (q - 1) item]> (items c)).
Proof.
  intros Hs _ Hfind Hid Hq Hq1 Hq2.
  unfold Handlers.quantity_button, Handlers.click.
  rewrite (data_id_string item s Hid), (truthy_string s Hs).
  rewrite (data_qty_read item q Hq) by (lia || apply round_Z_small; lia).
  cbn [andb]. unfold Handlers.number_plus. cbn [Double.add].
  split.
  - change (JS.strict_eq (VStr "increase") (VStr "increase")) with true. cbv iota.
    rewrite round_Z_small by lia.
    apply updateQuantity_items_set; [done|lia|apply round_Z_small; lia].
  - intros Hq3.
    change (JS.strict_eq (VStr "decrease") (VStr "increase")) with false.
    change (JS.strict_eq (VStr "decrease") (VStr "decrease")) with true. cbv iota.
    rewrite round_Z_small by lia.
    replace (q + -1) with (q - 1) by lia.
    apply updateQuantity_items_set; [done|lia|apply round_Z_small; lia].
Qed.

(** At 2^53 the [+] button does nothing to the quantity. *)
Example plus_button_stuck :
  (fun o => JS.get o "quantity")
    <$> items (Handlers.click (Testing.platform_with [])
                 (Handlers.quantity_button "increase" Samples.grinder) Samples.grinder_cart)
  = [VNum (Int (2 ^ 53))].
Proof. vm_compute. reflexivity. Qed.

(** X15.  For an item with a non-empty string id, in a cart whose rows hold
    no markup character, a click on the remove button of its row is
    [remove] of that id, and so is, for the item list and the stored text,
    a click on the [-] button when its quantity is 1. *)
Theorem remove_button_and_minus_at_one (c : state) (s : string) item :
  s ≠ EmptyString -> forallb Render.row_safe (items c) = true ->
  item ∈ items c ->
  JS.get item "id" = VStr s ->
  Handlers.click P (Handlers.remove_button item) c = Cart.remove P (VStr s) c /\
  (item !! "quantity" = Some (VNum (Int 1)) ->
   items (Handlers.click P (Handlers.quantity_button "decrease" item) c)
     = items (Cart.remove P (VStr s) c) /\
   stored (Handlers.click P (Handlers.quantity_button "decrease" item) c)
     = stored (Cart.remove P (VStr s) c)).
Proof.
  intros Hs _ Hin Hid.
  unfold Handlers.remove_button, Handlers.quantity_button, Handlers.click.
  rewrite (data_id_string item s Hid), (truthy_string s Hs). split; [done|].
  intros Hq. rewrite (data_qty_read item 1 Hq) by (lia || reflexivity).
  cbn [andb]. change (JS.strict_eq (VStr "decrease") (VStr "increase")) with false.
  change (JS.strict_eq (VStr "decrease") (VStr "decrease")) with true. cbv iota.
  change (Handlers.number_plus (Int 1) (-1)) with (Int 0).
  assert (Hhas : Cart.has_id (VStr s) item = true).
  { unfold Cart.has_id. rewrite Hid. cbn. apply String.eqb_refl. }
  destruct (has_id_found (VStr s) (items c) item Hin Hhas) as (i & found & Hfind).
  unfold Cart.updateQuantity. rewrite Hfind.
  change (JS.le_zero (JS.parseInt (VNum (Int 0)))) with true. cbv iota.
  split; reflexivity.
Qed.

(** X16.  In a cart whose rows hold no markup character, typing the
    decimal digits of [n] into the quantity field of an item with a
    non-empty string id acts as [remove] of that id when [n = 0]; otherwise
    it sets the quantity of the first item with that id to the double [m]
    nearest to [n] (which is [n] up to 2^53), when [m] is below 10^21. *)
Theorem typed_quantity (c : state) (s : string) (n : N) (m : Z) i item found :
  s ≠ EmptyString -> forallb Render.row_safe (items c) = true ->
  item ∈ items c ->
  JS.get item "id" = VStr s ->
  list_find (Cart.has_id (VStr s)) (items c) = Some (i, found) ->
  Double.round_Z (Z.of_N n) = Int m -> m < 10 ^ 21 ->
  items (Handlers.change P (Handlers.quantity_input item (JS.digits_of_N n)) c)
  = (if (n =? 0)%N then items (Cart.remove P (VStr s) c)
     else <[i := with_quantity m found]> (items c))
  /\ (Z.of_N n <= 2 ^ 53 -> m = Z.of_N n).
Proof.
  intros Hs _ _ Hid Hfind Hround Hm. split.
  - unfold Handlers.quantity_input, Handlers.change.
    rewrite (data_id_string item s Hid), (truthy_string s Hs).
    change (JS.parseInt (VStr (JS.digits_of_N n)))
      with (JS.parseInt_string (JS.digits_of_N n)).
    rewrite parseInt_digits, Hround.
    destruct (N.eqb_spec n 0) as [->|Hne].
    + injection Hround as <-. unfold Cart.updateQuantity. rewrite Hfind.
      change (JS.le_zero (JS.parseInt (VNum (Int (Z.of_N 0))))) with true. reflexivity.
    + pose proof (round_Z_nonneg (Z.of_N n) m ltac:(lia) Hround) as [Hhalf _].
      apply updateQuantity_items_set; [done|lia|by apply (round_Z_idem (Z.of_N n))].
  - intros Hn. rewrite round_Z_small in Hround by lia. by injection Hround.
Qed.

End Controls.

(** ** Saving and loading *)

Lemma well_formed_filed item : well_formed item = true -> filed (key item) item.
Proof.
  unfold well_formed, filed.
  destruct (item !! "id") as [[| | | |s]|] eqn:Hid; try discriminate.
  destruct (item !! "price") as [[| | | |p]|] eqn:Hp; try discriminate.
  intros [[[[Hs Hinh]%andb_true_iff Hname]%andb_true_iff Hpos]%andb_true_iff
            Hdouble]%andb_true_iff.
  assert (Hkey : key item = s) by (unfold key, JS.get; by rewrite Hid).
  rewrite Hkey. apply negb_true_iff in Hs, Hinh. apply String.eqb_neq in Hs.
  repeat split; try done.
  - unfold positive_quantity in Hpos. unfold double_quantity in Hdouble.
    destruct (item !! "quantity") as [[| | |[|q| | |]|]|]; try discriminate.
    exists (Int q). split; [done|]. cbn in *.
    split; [by apply Z.leb_le|by apply bool_decide_eq_true in Hdouble].
  - by exists p.
Qed.
Lemma distinct_ids_NoDup (l : list object) :
  Forall (fun o => JS.get o "id" = VStr (key o)) l ->
  distinct_ids l = true -> NoDup (key <$> l).
Proof.
  unfold distinct_ids, ids.
  induction 1 as [|o l Ho Hl IH]; [intros _; apply NoDup_nil_2|].
  rewrite !fmap_cons. cbn [distinct_values].
  intros [Hall Hd]%andb_true_iff. apply NoDup_cons. split; [|auto].
  intros (o' & Hk & Hin)%list_elem_of_fmap.
  assert (Hin' : In (JS.get o' "id") ((fun item => JS.get item "id") <$> l))
    by (apply list_elem_of_In, list_elem_of_fmap; eauto).
  pose proof (proj1 (forallb_forall _ _) Hall _ Hin') as Hneq.
  pose proof (proj1 (Forall_forall _ _) Hl o' Hin) as Ho'.
  rewrite Ho', Ho, Hk in Hneq. cbn in Hneq. by rewrite String.eqb_refl in Hneq.
Qed.

Lemma validate_items_fixed (l : list object) :
  forallb well_formed l = true ->
  distinct_ids l = true ->
  quantities_within (10 ^ 21) l = true ->
  forallb plainly_named l = true ->
  Cart.validate_items (Obj <$> l) = l.
Proof.
  intros Hwf Hd Hq Hplain.
  assert (Hfiled : Forall (fun o => filed (key o) o) l).
  { apply Forall_forall. intros o Ho. apply well_formed_filed.
    apply (proj1 (forallb_forall _ _) Hwf). by apply list_elem_of_In. }
  assert (Hids : Forall (fun o => JS.get o "id" = VStr (key o)) l).
  { eapply Forall_impl; [exact Hfiled|]. intros o (Hid & _). cbn. by apply get_string. }
  unfold Cart.validate_items.
  rewrite keep_all_kept
    by (eapply Forall_impl; [exact Hfiled|]; intros o; apply filed_kept).
  rewrite (fold_merge_fresh l []).
  - cbn [app]. unfold UniqueItems.values.
    destruct (indexed_entries_named l) as [-> ->]; [|done].
    apply Forall_forall. intros o Ho.
    pose proof (proj1 (forallb_forall _ _) Hplain o (proj1 (list_elem_of_In _ _) Ho)) as Hp.
    unfold plainly_named in Hp. by destruct (UniqueItems.array_index (key o)).
  - cbn [fmap list_fmap app]. by apply distinct_ids_NoDup.
  - apply Forall_forall. intros o Ho.
    pose proof (proj1 (Forall_forall _ _) Hfiled o Ho) as Hf. split; [apply Hf|].
    apply (normalized_fixed (key o)); [done|].
    pose proof (proj1 (forallb_forall _ _) Hq o (proj1 (list_elem_of_In _ _) Ho)) as Hb.
    by apply andb_true_iff in Hb as [_ Hb].
Qed.

(** X17.  A cart survives a reload: when the items are in normal form with
    distinct ids that are not array indices and quantities below 10^21, and
    [JSON.parse] decodes what [JSON.stringify] wrote, [init] on a fresh page
    that finds the stored text of the cart loads the same item list in the
    same order, and does not write to the storage. *)
Theorem reload_keeps_cart (P : platform) (c : state) (page : bool) :
  synced P c ->
  JSON_stringify P (items c) ≠ EmptyString ->
  JSON_parse P (JSON_stringify P (items c)) = Some (JArr (Obj <$> items c)) ->
  forallb well_formed (items c) = true ->
  distinct_ids (items c) = true ->
  quantities_within (10 ^ 21) (items c) = true ->
  forallb plainly_named (items c) = true ->
  exists c', Cart.init P (fresh (stored c) page) = Returned c' /\
             items c' = items c /\ stored c' = stored c.
Proof.
  intros Hs Hne Hparse Hwf Hd Hq Hplain. unfold synced in Hs. rewrite Hs.
  unfold Cart.init. cbn [stored fresh].
  rewrite (truthy_string _ Hne), Hparse. unfold Cart.validate.
  rewrite (validate_items_fixed _ Hwf Hd Hq Hplain). cbn [items set_items].
  rewrite length_fmap, bool_decide_eq_false_2 by (intros H; by apply H).
  destruct page; eexists; (split; [reflexivity|]); split; reflexivity.
Qed.

(** * The helpers of the page *)

(** ** The matcher against the strings of a regular expression *)

Lemma nullable_Matches r : Regex.nullable r = true <-> Regex.Matches r [].
Proof.
  split.
  - induction r as [| |p|r1 IH1 r2 IH2|r1 IH1 r2 IH2|r IH]; cbn; try discriminate.
    + intros _. constructor.
    + intros [H1 H2]%andb_true_iff.
      change (@nil ascii) with (@nil ascii ++ []). constructor; auto.
    + intros [H|H]%orb_true_iff; [apply Regex.MAltL|apply Regex.MAltR]; auto.
    + intros _. constructor.
  - intros H. remember [] as s eqn:Hs.
    induction H as [|p c Hc|r1 r2 s1 s2 H1 IH1 H2 IH2|r1 r2 s H IH|r1 r2 s H IH
                   |r|r s1 s2 H1 IH1 H2 IH2]; cbn; try done.
    + apply app_eq_nil in Hs as [-> ->]. by rewrite IH1, IH2.
    + by rewrite IH.
    + rewrite IH by done. apply orb_true_r.
Qed.

Lemma deriv_sound c r : forall s,
  Regex.Matches (Regex.deriv c r) s -> Regex.Matches r (c :: s).
Proof.
  induction r as [| |p|r1 IH1 r2 IH2|r1 IH1 r2 IH2|r IH]; intros s H; cbn in H.
  - inversion H.
  - inversion H.
  - destruct (p c) eqn:Hp; inversion H; subst. by constructor.
  - assert (Hleft : forall s, Regex.Matches (Regex.Seq (Regex.deriv c r1) r2) s ->
                              Regex.Matches (Regex.Seq r1 r2) (c :: s)).
    { intros s' H'. inversion H'; subst.
      change (c :: s1 ++ s2) with ((c :: s1) ++ s2). constructor; auto. }
    destruct (Regex.nullable r1) eqn:Hn; [|by apply Hleft].
    inversion H; subst; [by apply Hleft|].
    change (c :: s) with ([] ++ c :: s). constructor; [by apply nullable_Matches|auto].
  - inversion H; subst; [apply Regex.MAltL|apply Regex.MAltR]; auto.
  - inversion H; subst.
    change (c :: s1 ++ s2) with ((c :: s1) ++ s2). constructor; auto.
Qed.

Lemma deriv_complete c r cs :
  Regex.Matches r cs -> forall s, cs = c :: s -> Regex.Matches (Regex.deriv c r) s.
Proof.
  induction 1 as [|p c0 Hc|r1 r2 s1 s2 H1 IH1 H2 IH2|r1 r2 s0 H IH|r1 r2 s0 H IH
                 |r|r s1 s2 H1 IH1 H2 IH2]; intros s Hs; cbn.
  - discriminate.
  - injection Hs as -> <-. rewrite Hc. constructor.
  - destruct s1 as [|c1 s1]; cbn in Hs.
    + apply nullable_Matches in H1. rewrite H1. apply Regex.MAltR. auto.
    + injection Hs as -> <-.
      assert (Regex.Matches (Regex.Seq (Regex.deriv c r1) r2) (s1 ++ s2))
        by (constructor; auto).
      destruct (Regex.nullable r1); [by apply Regex.MAltL|done].
  - apply Regex.MAltL. auto.
  - apply Regex.MAltR. auto.
  - discriminate.
  - destruct s1 as [|c1 s1]; cbn in Hs.
    + by apply IH2.
    + injection Hs as -> <-. constructor; auto.
Qed.

Lemma matches_Matches r s : Regex.matches r s = true <-> Regex.Matches r s.
Proof.
  revert r. induction s as [|c s IH]; intros r; cbn.
  - apply nullable_Matches.
  - rewrite IH. split; [apply deriv_sound|]. intros H. by eapply deriv_complete.
Qed.

Lemma Matches_Class p s :
  Regex.Matches (Regex.Class p) s <-> exists c, s = [c] /\ p c = true.
Proof.
  split.
  - intros H. inversion H; subst. eauto.
  - intros (c & -> & Hc). by constructor.
Qed.

Lemma Matches_Seq r1 r2 s :
  Regex.Matches (Regex.Seq r1 r2) s <->
  exists s1 s2, s = s1 ++ s2 /\ Regex.Matches r1 s1 /\ Regex.Matches r2 s2.
Proof.
  split.
  - intros H. inversion H; subst. eauto.
  - intros (s1 & s2 & -> & H1 & H2). by constructor.
Qed.

Lemma Matches_Star_Class p s :
  Regex.Matches (Regex.Star (Regex.Class p)) s <-> Forall (fun c => p c = true) s.
Proof.
  split.
  - intros H. remember (Regex.Star (Regex.Class p)) as r eqn:Hr.
    induction H as [| | | | | |r s1 s2 H1 _ H2 IH2]; try discriminate; [constructor|].
    injection Hr as ->. apply Matches_Class in H1 as (c & -> & Hc).
    constructor; [done|]. by apply IH2.
  - induction 1 as [|c s Hc Hs IH]; [constructor|].
    change (c :: s) with ([c] ++ s). constructor; [by constructor|done].
Qed.

Lemma Matches_Plus_Class p s :
  Regex.Matches (Regex.Plus (Regex.Class p)) s <->
  s ≠ [] /\ Forall (fun c => p c = true) s.
Proof.
  unfold Regex.Plus. rewrite Matches_Seq. split.
  - intros (s1 & s2 & -> & (c & -> & Hc)%Matches_Class & H2%Matches_Star_Class).
    split; [done|]. by constructor.
  - intros [Hne Hall]. destruct Hall as [|c s Hc Hs]; [done|].
    exists [c], s. split; [done|]. split; [by apply Matches_Class; eauto|].
    by apply Matches_Star_Class.
Qed.

(** ** [validateEmail] and [validatePhone] *)

Lemma validateEmail_shape (email : string) :
  Forms.validateEmail email = true <->
  exists a b c,
    chars email = a ++ "@"%char :: b ++ "."%char :: c /\
    a ≠ [] /\ b ≠ [] /\ c ≠ [] /\
    Forall (fun x => Forms.email_char x = true) a /\
    Forall (fun x => Forms.email_char x = true) b /\
    Forall (fun x => Forms.email_char x = true) c.
Proof.
  unfold Forms.validateEmail, Regex.test, Forms.email_re. rewrite matches_Matches.
  fold (chars email). generalize (chars email). intros s.
  rewrite Matches_Seq. split.
  - intros (a & s1 & -> & [Ha Ha']%Matches_Plus_Class & H1).
    apply Matches_Seq in H1 as (at_ & s2 & -> & (x & -> & Hx)%Matches_Class & H2).
    apply Matches_Seq in H2 as (b & s3 & -> & [Hb Hb']%Matches_Plus_Class & H3).
    apply Matches_Seq in H3 as (dot & c & -> & (y & -> & Hy)%Matches_Class
                                  & [Hc Hc']%Matches_Plus_Class).
    unfold Forms.is_char in Hx, Hy.
    apply Ascii.eqb_eq in Hx as ->. apply Ascii.eqb_eq in Hy as ->.
    exists a, b, c. repeat split; done.
  - intros (a & b & c & -> & Ha & Hb & Hc & Ha' & Hb' & Hc').
    exists a, ("@"%char :: b ++ "."%char :: c). split; [done|].
    split; [by apply Matches_Plus_Class|].
    apply Matches_Seq. exists ["@"%char], (b ++ "."%char :: c). split; [done|].
    split; [apply Matches_Class; by exists "@"%char|].
    apply Matches_Seq. exists b, ("."%char :: c). split; [done|].
    split; [by apply Matches_Plus_Class|].
    apply Matches_Seq. exists ["."%char], c. split; [done|].
    split; [apply Matches_Class; by exists "."%char|by apply Matches_Plus_Class].
Qed.

(** X20.  [validateEmail] accepts exactly the texts made of three non-empty
    runs of characters that are neither white space nor [@], the first two
    separated by an [@] and the last two by a dot. *)
Theorem validateEmail_accepts (email : string) :
  Forms.validateEmail email = true <->
  exists a b c,
    chars email = a ++ "@"%char :: b ++ "."%char :: c /\
    a ≠ [] /\ b ≠ [] /\ c ≠ [] /\
    Forall (fun x => Forms.email_char x = true) (a ++ b ++ c).
Proof.
  rewrite validateEmail_shape. split.
  - intros (a & b & c & H & Ha & Hb & Hc & Ha' & Hb' & Hc').
    exists a, b, c. repeat split; try done. by rewrite !Forall_app.
  - intros (a & b & c & H & Ha & Hb & Hc & Hall).
    apply Forall_app in Hall as [Ha' [Hb' Hc']%Forall_app].
    exists a, b, c. repeat split; done.
Qed.

Lemma email_chars_no_at (s : list ascii) :
  Forall (fun x => Forms.email_char x = true) s ->
  List.filter (Forms.is_char "@"%char) s = [] /\
  Forall (fun x => Text.is_space x = false) s.
Proof.
  induction 1 as [|x s Hx Hs [IH1 IH2]]; [split; [done|constructor]|].
  unfold Forms.email_char in Hx. apply negb_true_iff, orb_false_iff in Hx as [Hsp Hat].
  split; [|by constructor]. cbn. unfold Forms.is_char at 1. by rewrite Hat.
Qed.

(** X21.  A text that [validateEmail] accepts has exactly one [@], no white
    space, and at least five characters. *)
Theorem validateEmail_one_at (email : string) :
  Forms.validateEmail email = true ->
  length (List.filter (Forms.is_char "@"%char) (chars email)) = 1%nat /\
  Forall (fun x => Text.is_space x = false) (chars email) /\
  (5 <= length (chars email))%nat.
Proof.
  intros (a & b & c & -> & Ha & Hb & Hc & Ha' & Hb' & Hc')%validateEmail_shape.
  destruct (email_chars_no_at a Ha') as [Fa Sa].
  destruct (email_chars_no_at b Hb') as [Fb Sb].
  destruct (email_chars_no_at c Hc') as [Fc Sc].
  split; [|split].
  - rewrite List.filter_app. cbn [List.filter].
    change (Forms.is_char "@" "@") with true. cbv iota.
    rewrite List.filter_app. cbn [List.filter].
    change (Forms.is_char "@" ".") with false. cbv iota.
    by rewrite Fa, Fb, Fc.
  - apply Forall_app. split; [done|]. constructor; [done|].
    apply Forall_app. split; [done|]. by constructor.
  - rewrite length_app. cbn. rewrite length_app. cbn.
    destruct a, b, c; try done; cbn; lia.
Qed.

(** X22.  [validatePhone] accepts exactly the texts made of digits, white
    space, hyphens, plus signs and parentheses that hold at least ten
    digits; such a text has at least ten characters. *)
Theorem validatePhone_accepts (phone : string) :
  (Forms.validatePhone phone = true <->
   Forall (fun x => Forms.phone_char x = true) (chars phone) /\
   (10 <= Forms.digit_count phone)%nat) /\
  (Forms.validatePhone phone = true -> (10 <= String.length phone)%nat).
Proof.
  assert (Hiff : Forms.validatePhone phone = true <->
                 Forall (fun x => Forms.phone_char x = true) (chars phone) /\
                 (10 <= Forms.digit_count phone)%nat).
  { unfold Forms.validatePhone, Regex.test, Forms.phone_re.
    rewrite andb_true_iff, matches_Matches, Matches_Plus_Class, Nat.leb_le.
    fold (chars phone). split; [tauto|]. intros [Hall Hten]. split; [|done].
    split; [|done]. intros Hnil. unfold Forms.digit_count in Hten.
    fold (chars phone) in Hten. rewrite Hnil in Hten. cbn in Hten. lia. }
  split; [exact Hiff|]. intros [_ Hten]%Hiff. unfold Forms.digit_count in Hten.
  assert (Hlen : String.length phone = length (String.list_ascii_of_string phone)).
  { clear. induction phone as [|c s IH]; cbn; [done|]. by rewrite IH. }
  rewrite Hlen.
  assert (Hle : forall (f : ascii -> bool) l, (length (List.filter f l) <= length l)%nat).
  { clear. intros f l. induction l as [|x l IH]; cbn; [done|].
    destruct (f x); cbn; lia. }
  specialize (Hle Text.is_digit (String.list_ascii_of_string phone)). lia.
Qed.

(** ** Ids made from names *)

Lemma slug_char_step (c : ascii) :
  let d := Text.lower (if Text.is_alnum c then c else "-"%char) in
  slug_char d = true /\
  Text.lower (if Text.is_alnum d then d else "-"%char) = d.
Proof. destruct c as [[] [] [] [] [] [] [] []]; vm_compute; split; reflexivity. Qed.

Lemma slug_cons c s :
  Page.slug (String c s)
  = String (Text.lower (if Text.is_alnum c then c else "-"%char)) (Page.slug s).
Proof. reflexivity. Qed.

Lemma slug_chars (s : string) : forallb slug_char (chars (Page.slug s)) = true.
Proof.
  induction s as [|c s IH]; [done|]. rewrite slug_cons. cbn [chars String.list_ascii_of_string forallb].
  fold (chars (Page.slug s)). rewrite IH, andb_true_r. apply slug_char_step.
Qed.

(** X18.  The id made from a name has as many characters as the name, all
    of them among a-z, 0-9 and the hyphen; making an id from an id changes
    nothing. *)
Theorem slug_shape (name : string) :
  String.length (Page.slug name) = String.length name /\
  forallb slug_char (chars (Page.slug name)) = true /\
  Page.slug (Page.slug name) = Page.slug name.
Proof.
  split; [|split; [apply slug_chars|]].
  - induction name as [|c s IH]; [done|]. rewrite slug_cons. cbn. by rewrite IH.
  - induction name as [|c s IH]; [done|]. rewrite !slug_cons, IH. f_equal.
    apply slug_char_step.
Qed.

(** X19.  The only name inherited from [Object.prototype] that a name can
    give as an id is ["constructor"]: it is the one id of this kind that the
    add-to-cart buttons can produce and that the normalization pass then
    drops. *)
Theorem slug_inherited (name : string) :
  UniqueItems.inherited (Page.slug name) = true <-> Page.slug name = "constructor".
Proof.
  split.
  - intros H. unfold UniqueItems.inherited in H. apply bool_decide_eq_true in H.
    pose proof (slug_chars name) as Hc.
    unfold UniqueItems.inherited_names in H.
    repeat (apply elem_of_cons in H as [H|H];
            [first [ exact H | rewrite H in Hc; vm_compute in Hc; discriminate Hc ]|]).
    by apply elem_of_nil in H.
  - intros ->. reflexivity.
Qed.

(** ** The add-to-cart buttons *)

Lemma product_of_id k : JS.get (Page.product_of k) "id" = VStr (Page.card_id k).
Proof. reflexivity. Qed.

Lemma product_of_price k :
  JS.get (Page.product_of k) "price" = VStr (Text.trim (Page.price_text k)).
Proof. reflexivity. Qed.

Lemma coerce_price_product_of k :
  Cart.coerce_price (Page.product_of k) = Page.product_of k.
Proof.
  unfold Cart.coerce_price. rewrite product_of_price. cbn [JS.is_string negb].
  by rewrite andb_false_r.
Qed.

Lemma slug_empty s : Page.slug s = EmptyString <-> s = EmptyString.
Proof. destruct s; [done|]. rewrite slug_cons. split; discriminate. Qed.

(** X23.  A click on an add-to-cart button never changes the product object
    it has built; it does nothing at all (no save, no badge, no
    notification) exactly when the id is empty, that is when the card has
    no [data-id] (or an empty one) and its heading is white space only. *)
Theorem click_add_product (P : platform) (k : Page.card) (c : state) :
  (Page.click_add P k c).1 = Page.product_of k /\
  (Page.card_id k = EmptyString <->
   (Page.data_id k = None \/ Page.data_id k = Some EmptyString)
   /\ Text.trim (Page.heading k) = EmptyString) /\
  (Page.card_id k = EmptyString -> Page.click_add P k c = (Page.product_of k, c)) /\
  (Page.card_id k ≠ EmptyString -> effects (Page.click_add P k c).2 ≠ effects c).
Proof.
  unfold Page.click_add. split; [|split; [|split]].
  - unfold Cart.add. rewrite product_of_id.
    destruct (JS.truthy (VStr (Page.card_id k))); cbn [negb fst]; [|done].
    apply coerce_price_product_of.
  - unfold Page.card_id. destruct (Page.data_id k) as [id|].
    + destruct (String.eqb_spec id EmptyString) as [->|Hne].
      * rewrite slug_empty. split; [intros H; split; [by right|done]|by intros [_ H]].
      * split; [done|]. intros [[H|[= H]] _]; done.
    + rewrite slug_empty. split; [intros H; split; [by left|done]|by intros [_ H]].
  - intros Hid. unfold Cart.add. rewrite product_of_id, Hid. reflexivity.
  - intros Hid. unfold Cart.add. rewrite product_of_id, (truthy_string _ Hid).
    cbn [negb snd]. cbn [effects emit]. intros H.
    apply (f_equal length) in H. rewrite length_app in H. cbn in H.
    unfold Cart.updateBadge in H. cbn [effects emit] in H.
    rewrite length_app in H. cbn in H.
    destruct (list_find _ _) as [[i item]|]; cbn in H; lia.
Qed.

(** X24.  Two cards without [data-id] whose headings give the same
    non-empty id share one line of the cart: after a click on each, starting
    from a cart without that id, the cart has one more item, the product of
    the first card, with quantity 2. *)
Theorem same_slug_one_line (P : platform) (k1 k2 : Page.card) (c : state) :
  Page.data_id k1 = None -> Page.data_id k2 = None ->
  Page.slug (Text.trim (Page.heading k1)) = Page.slug (Text.trim (Page.heading k2)) ->
  Text.trim (Page.heading k1) ≠ EmptyString ->
  list_find (Cart.has_id (VStr (Page.card_id k1))) (items c) = None ->
  items (Page.click_add P k2 (Page.click_add P k1 c).2).2
  = items c ++ [with_quantity 2 (Page.product_of k1)].
Proof.
  intros Hd1 Hd2 Hslug Hne Hfind.
  assert (Hid1 : Page.card_id k1 = Page.slug (Text.trim (Page.heading k1)))
    by (unfold Page.card_id; by rewrite Hd1).
  assert (Hid2 : Page.card_id k2 = Page.card_id k1)
    by (unfold Page.card_id; by rewrite Hd1, Hd2, Hslug).
  assert (Ht : JS.truthy (VStr (Page.card_id k1)) = true).
  { apply truthy_string. rewrite Hid1. by rewrite slug_empty. }
  unfold Page.click_add.
  assert (Hfirst : items (Cart.add P (Page.product_of k1) c).2
                   = items c ++ [with_quantity 1 (Page.product_of k1)]).
  { rewrite add_items_new; [by rewrite coerce_price_product_of| |];
      by rewrite product_of_id. }
  assert (Hhit : Cart.has_id (VStr (Page.card_id k1))
                   (with_quantity 1 (Page.product_of k1)) = true).
  { unfold Cart.has_id. rewrite get_with_quantity_id, product_of_id. cbn.
    apply String.eqb_refl. }
  rewrite (add_items_seen P (Page.product_of k2) _ (length (items c))
             (with_quantity 1 (Page.product_of k1))).
  - rewrite Hfirst. rewrite insert_app_r_alt by lia. rewrite Nat.sub_diag.
    reflexivity.
  - by rewrite product_of_id, Hid2.
  - rewrite product_of_id, Hid2, Hfirst. rewrite list_find_app_r by done.
    cbn [list_find]. rewrite decide_True by (by apply Is_true_true).
    reflexivity.
Qed.

(** ** The active link *)

Lemma last_segment_slash (dir acc : string) :
  Page.last_segment_from acc (dir +:+ "/") = EmptyString.
Proof.
  revert acc. induction dir as [|c s IH]; intros acc; [done|].
  change (String c s +:+ "/") with (String c (s +:+ "/")).
  cbn [Page.last_segment_from]. destruct (Ascii.eqb c "/"); apply IH.
Qed.

(** X25.  The page name used to mark the active link is never empty, so a
    link is marked exactly when its [href] is that name: the second test of
    the condition never decides.  On a path that ends with a slash the name
    is ["homepage.html"]. *)
Theorem active_link (linkPage : option string) (pathname dir : string) :
  Page.currentPage pathname ≠ EmptyString /\
  (Page.is_active linkPage pathname = true <-> linkPage = Some (Page.currentPage pathname)) /\
  Page.currentPage (dir +:+ "/") = "homepage.html".
Proof.
  assert (Hne : Page.currentPage pathname ≠ EmptyString).
  { unfold Page.currentPage.
    destruct (String.eqb_spec (Page.last_segment pathname) EmptyString); done. }
  split; [exact Hne|]. split.
  - unfold Page.is_active. apply String.eqb_neq in Hne. rewrite Hne. cbn [andb].
    rewrite orb_false_r. apply bool_decide_eq_true.
  - unfold Page.currentPage, Page.last_segment. by rewrite last_segment_slash.
Qed.

(** * The further properties on sample inputs *)

Example validateEmail_ex1 : Forms.validateEmail "user@example.com" = true.
Proof. reflexivity. Qed.
Example validateEmail_ex2 : Forms.validateEmail "user@example" = false.
Proof. reflexivity. Qed.
Example validateEmail_ex3 : Forms.validateEmail "first last@example.com" = false.
Proof. reflexivity. Qed.
Example validateEmail_ex4 : Forms.validateEmail "a@b@c.d" = false.
Proof. reflexivity. Qed.
Example validatePhone_ex1 : Forms.validatePhone "+94 (11) 234-5678" = true.
Proof. reflexivity. Qed.
Example validatePhone_ex2 : Forms.validatePhone "011-234-567" = false.
Proof. reflexivity. Qed.
Example validatePhone_ex3 : Forms.validatePhone "0112345678 ext 9" = false.
Proof. reflexivity. Qed.
Example slug_ex1 : Page.slug "Claw Hammer 16oz" = "claw-hammer-16oz".
Proof. reflexivity. Qed.
Example trim_ex1 : Text.trim "  Claw Hammer " = "Claw Hammer".
Proof. reflexivity. Qed.
Example currentPage_ex1 : Page.currentPage "/shop/products.html" = "products.html".
Proof. reflexivity. Qed.
Example currentPage_ex2 : Page.currentPage "/" = "homepage.html".
Proof. reflexivity. Qed.
Example card_id_ex1 : Page.card_id Shelf.claw_card = "claw-hammer".
Proof. reflexivity. Qed.

Lemma validate_output_normal_witness :
  with_quantity 5 (Cart.normalized Samples.hammer)
    ∈ Cart.validate_items [Obj Samples.hammer; Obj Samples.claw_hammer] /\
  JS.truthy (JS.get (with_quantity 5 (Cart.normalized Samples.hammer)) "name") = true.
Proof.
  assert (Hin : with_quantity 5 (Cart.normalized Samples.hammer)
                  ∈ Cart.validate_items [Obj Samples.hammer; Obj Samples.claw_hammer])
    by apply list_elem_of_here.
  split; [exact Hin|].
  apply (validate_output_normal [Obj Samples.hammer; Obj Samples.claw_hammer]
           (with_quantity 5 (Cart.normalized Samples.hammer)) Hin).
Defined.

Lemma validate_conserves_quantity_witness :
  sum_quantities (filter (fun item => fileable (key item))
                    (omap Cart.keep [Obj Samples.hammer; Obj Samples.claw_hammer]))
    = Some 5 /\
  5 <= 2 ^ 53 /\
  total_quantity (Cart.validate_items [Obj Samples.hammer; Obj Samples.claw_hammer]) = 5.
Proof.
  split; [reflexivity|]. split; [lia|].
  apply (validate_conserves_quantity [Obj Samples.hammer; Obj Samples.claw_hammer] 5);
    [reflexivity|lia].
Defined.

Lemma operations_keep_storage_in_step_witness :
  synced (Testing.platform_with []) Samples.hammer_cart /\
  synced (Testing.platform_with [])
    (Cart.add (Testing.platform_with []) Samples.widget Samples.hammer_cart).2.
Proof.
  split; [reflexivity|].
  apply (operations_keep_storage_in_step (Testing.platform_with [])
           Samples.hammer_cart Samples.widget (VStr "a") (VNum (Int 3))).
  reflexivity.
Defined.

Lemma operations_keep_ids_distinct_witness :
  distinct_ids (items Shelf.two_items) = true /\
  distinct_ids
    (items (Cart.add (Testing.platform_with []) Samples.widget Shelf.two_items).2) = true.
Proof.
  split; [reflexivity|].
  apply (operations_keep_ids_distinct (Testing.platform_with [])
           Shelf.two_items Samples.widget (VStr "a") (VNum (Int 3))).
  reflexivity.
Defined.

Lemma remove_after_add_witness :
  JS.truthy (JS.get Samples.widget "id") = true /\
  list_find (Cart.has_id (JS.get Samples.widget "id")) (items Shelf.two_items) = None /\
  items (Cart.remove (Testing.platform_with []) (JS.get Samples.widget "id")
           (Cart.add (Testing.platform_with []) Samples.widget Shelf.two_items).2)
  = items Shelf.two_items.
Proof.
  split; [reflexivity|]. split; [reflexivity|].
  apply (remove_after_add (Testing.platform_with []) Samples.widget Shelf.two_items);
    reflexivity.
Defined.

Lemma remove_takes_one_witness :
  distinct_ids (items Shelf.two_items) = true /\
  list_find (Cart.has_id (VStr "a")) (items Shelf.two_items)
    = Some (0%nat, Samples.hammer) /\
  items (Cart.remove (Testing.platform_with []) (VStr "a") Shelf.two_items)
    = [Samples.bolt].
Proof.
  split; [reflexivity|]. split; [reflexivity|].
  apply (remove_takes_one (Testing.platform_with []) Shelf.two_items (VStr "a")
           0%nat Samples.hammer); reflexivity.
Defined.

Lemma updateQuantity_sets_one_witness :
  distinct_ids (items Shelf.two_items) = true /\
  list_find (Cart.has_id (VStr "b")) (items Shelf.two_items)
    = Some (1%nat, Samples.bolt) /\
  1 <= 4 < 10 ^ 21 /\ Double.is_double (Int 4) = true /\
  items (Cart.updateQuantity (Testing.platform_with []) (VStr "b") (VNum (Int 4))
           Shelf.two_items)
    = [Samples.hammer; with_quantity 4 Samples.bolt].
Proof.
  split; [reflexivity|]. split; [reflexivity|]. split; [lia|]. split; [reflexivity|].
  apply (updateQuantity_sets_one (Testing.platform_with []) Shelf.two_items (VStr "b")
           4 1%nat Samples.bolt); [reflexivity|reflexivity|lia|reflexivity].
Defined.

Lemma badge_shows_total_quantity_witness :
  forallb positive_quantity (items Shelf.two_items) = true /\
  total_quantity (items Shelf.two_items) <= 2 ^ 53 /\
  effects (Cart.updateBadge Shelf.two_items) = [Badge (Int 3)].
Proof.
  split; [reflexivity|]. split; [vm_compute; discriminate|].
  apply (badge_shows_total_quantity Shelf.two_items);
    [reflexivity|vm_compute; discriminate].
Defined.

Lemma add_raises_badge_by_one_witness :
  JS.truthy (JS.get Samples.hammer "id") = true /\
  forallb positive_quantity (items Shelf.two_items) = true /\
  total_quantity (items Shelf.two_items) + 1 <= 2 ^ 53 /\
  Cart.badge_count (items Shelf.two_items) = Int 3 /\
  Cart.badge_count
    (items (Cart.add (Testing.platform_with []) Samples.hammer Shelf.two_items).2)
  = Int 4.
Proof.
  split; [reflexivity|]. split; [reflexivity|]. split; [vm_compute; discriminate|].
  apply (add_raises_badge_by_one (Testing.platform_with []) Samples.hammer
           Shelf.two_items); [reflexivity|reflexivity|vm_compute; discriminate].
Defined.

Lemma add_raises_total_by_price_witness :
  JS.truthy (JS.get Samples.widget "id") = true /\
  forallb positive_quantity (items Shelf.two_items) = true /\
  forallb whole_price (items Shelf.two_items) = true /\
  total_quantity (items Shelf.two_items) + 1 <= 2 ^ 53 /\
  list_find (Cart.has_id (JS.get Samples.widget "id")) (items Shelf.two_items) = None /\
  whole_price Samples.widget = true /\
  whole_total (items Shelf.two_items) + price_Z Samples.widget <= 2 ^ 53 /\
  Cart.getTotal (Testing.platform_with []) Shelf.two_items = Int 912 /\
  Cart.getTotal (Testing.platform_with [])
    (Cart.add (Testing.platform_with []) Samples.widget Shelf.two_items).2
  = Int (912 + 10).
Proof.
  split; [reflexivity|]. split; [reflexivity|]. split; [reflexivity|].
  split; [vm_compute; discriminate|]. split; [reflexivity|]. split; [reflexivity|].
  split; [vm_compute; discriminate|].
  pose proof (add_raises_total_by_price (Testing.platform_with []) Samples.widget
                Shelf.two_items eq_refl eq_refl eq_refl
                ltac:(vm_compute; discriminate)) as (Hnew & _ & Hnow).
  split.
  - apply Hnow. vm_compute; discriminate.
  - apply Hnew; [reflexivity|reflexivity|vm_compute; discriminate].
Defined.

Lemma total_is_sum_of_rows_witness :
  quantities_within (2 ^ 53 + 1) (items Shelf.two_items) = true /\
  Cart.getTotal (Testing.platform_with []) Shelf.two_items
  = Double.add (Double.add (Int 0) (Render.line_total Samples.hammer))
      (Render.line_total Samples.bolt).
Proof.
  split; [reflexivity|].
  apply (total_is_sum_of_rows (Testing.platform_with []) Shelf.two_items). reflexivity.
Defined.

Lemma quantity_buttons_step_by_one_witness :
  "a" ≠ EmptyString /\ forallb Render.row_safe (items Shelf.two_items) = true /\
  list_find (Cart.has_id (VStr "a")) (items Shelf.two_items)
    = Some (0%nat, Samples.hammer) /\
  JS.get Samples.hammer "id" = VStr "a" /\
  Samples.hammer !! "quantity" = Some (VNum (Int 2)) /\
  1 <= 2 /\ 2 + 1 <= 2 ^ 53 /\
  items (Handlers.click (Testing.platform_with [])
           (Handlers.quantity_button "increase" Samples.hammer) Shelf.two_items)
    = [with_quantity 3 Samples.hammer; Samples.bolt].
Proof.
  split; [discriminate|]. split; [reflexivity|]. split; [reflexivity|].
  split; [reflexivity|]. split; [reflexivity|]. split; [lia|]. split; [lia|].
  apply (quantity_buttons_step_by_one (Testing.platform_with []) Shelf.two_items
           "a" 2 0%nat Samples.hammer); [discriminate|reflexivity..|lia|lia].
Defined.

Lemma remove_button_and_minus_at_one_witness :
  "b" ≠ EmptyString /\ forallb Render.row_safe (items Shelf.two_items) = true /\
  Samples.bolt ∈ items Shelf.two_items /\
  JS.get Samples.bolt "id" = VStr "b" /\
  Handlers.click (Testing.platform_with []) (Handlers.remove_button Samples.bolt)
    Shelf.two_items
  = Cart.remove (Testing.platform_with []) (VStr "b") Shelf.two_items.
Proof.
  assert (Hin : Samples.bolt ∈ items Shelf.two_items)
    by (apply list_elem_of_further, list_elem_of_here).
  split; [discriminate|]. split; [reflexivity|]. split; [exact Hin|].
  split; [reflexivity|].
  apply (remove_button_and_minus_at_one (Testing.platform_with []) Shelf.two_items
           "b" Samples.bolt); [discriminate|reflexivity|exact Hin|reflexivity].
Defined.

Lemma typed_quantity_witness :
  "a" ≠ EmptyString /\ forallb Render.row_safe (items Shelf.two_items) = true /\
  Samples.hammer ∈ items Shelf.two_items /\
  JS.get Samples.hammer "id" = VStr "a" /\
  list_find (Cart.has_id (VStr "a")) (items Shelf.two_items)
    = Some (0%nat, Samples.hammer) /\
  Double.round_Z (Z.of_N 7) = Int 7 /\ 7 < 10 ^ 21 /\
  items (Handlers.change (Testing.platform_with [])
           (Handlers.quantity_input Samples.hammer "7") Shelf.two_items)
    = [with_quantity 7 Samples.hammer; Samples.bolt].
Proof.
  split; [discriminate|]. split; [reflexivity|]. split; [apply list_elem_of_here|].
  split; [reflexivity|]. split; [reflexivity|]. split; [reflexivity|]. split; [lia|].
  apply (typed_quantity (Testing.platform_with []) Shelf.two_items "a" 7 7 0%nat
           Samples.hammer Samples.hammer);
    [discriminate|reflexivity|apply list_elem_of_here|reflexivity|reflexivity
    |reflexivity|lia].
Defined.

Lemma reload_keeps_cart_witness :
  synced Shelf.platform Samples.hammer_cart /\
  JSON_stringify Shelf.platform (items Samples.hammer_cart) ≠ EmptyString /\
  JSON_parse Shelf.platform (JSON_stringify Shelf.platform (items Samples.hammer_cart))
    = Some (JArr (Obj <$> items Samples.hammer_cart)) /\
  forallb well_formed (items Samples.hammer_cart) = true /\
  distinct_ids (items Samples.hammer_cart) = true /\
  quantities_within (10 ^ 21) (items Samples.hammer_cart) = true /\
  forallb plainly_named (items Samples.hammer_cart) = true /\
  exists c', Cart.init Shelf.platform (fresh (stored Samples.hammer_cart) false)
               = Returned c'
             /\ items c' = items Samples.hammer_cart
             /\ stored c' = stored Samples.hammer_cart.
Proof.
  split; [reflexivity|]. split; [discriminate|]. split; [reflexivity|].
  split; [reflexivity|]. split; [reflexivity|]. split; [reflexivity|].
  split; [reflexivity|].
  apply (reload_keeps_cart Shelf.platform Samples.hammer_cart false);
    solve [ reflexivity | discriminate ].
Defined.

Lemma validateEmail_one_at_witness :
  Forms.validateEmail "ann@shop.lk" = true /\
  length (List.filter (Forms.is_char "@"%char) (chars "ann@shop.lk")) = 1%nat.
Proof.
  split; [reflexivity|].
  apply (validateEmail_one_at "ann@shop.lk"). reflexivity.
Defined.

Lemma validatePhone_accepts_witness :
  Forms.validatePhone "+94 (11) 234-5678" = true /\
  (10 <= String.length "+94 (11) 234-5678")%nat.
Proof.
  split; [reflexivity|].
  apply (validatePhone_accepts "+94 (11) 234-5678"). reflexivity.
Defined.

Lemma click_add_product_witness :
  Page.card_id Shelf.claw_card ≠ EmptyString /\
  effects (Page.click_add (Testing.platform_with []) Shelf.claw_card
             Samples.hammer_cart).2
    ≠ effects Samples.hammer_cart.
Proof.
  split; [discriminate|].
  apply (click_add_product (Testing.platform_with []) Shelf.claw_card Samples.hammer_cart).
  discriminate.
Defined.

Lemma same_slug_one_line_witness :
  Page.data_id Shelf.claw_card = None /\
  Page.data_id Shelf.claw_card_again = None /\
  Page.slug (Text.trim (Page.heading Shelf.claw_card))
    = Page.slug (Text.trim (Page.heading Shelf.claw_card_again)) /\
  Text.trim (Page.heading Shelf.claw_card) ≠ EmptyString /\
  list_find (Cart.has_id (VStr (Page.card_id Shelf.claw_card)))
    (items Samples.hammer_cart) = None /\
  items (Page.click_add (Testing.platform_with []) Shelf.claw_card_again
           (Page.click_add (Testing.platform_with []) Shelf.claw_card
              Samples.hammer_cart).2).2
    = [Samples.hammer; with_quantity 2 (Page.product_of Shelf.claw_card)].
Proof.
  split; [reflexivity|]. split; [reflexivity|]. split; [reflexivity|].
  split; [discriminate|]. split; [reflexivity|].
  apply (same_slug_one_line (Testing.platform_with []) Shelf.claw_card
           Shelf.claw_card_again Samples.hammer_cart);
    solve [ reflexivity | discriminate ].
Defined.

(** Typing a number above 2^53 stores the double nearest to it. *)
Example typed_quantity_rounds :
  (fun o => JS.get o "quantity")
    <$> items (Handlers.change (Testing.platform_with [])
                 (Handlers.quantity_input Samples.hammer "9007199254740993")
                 Shelf.two_items)
  = [VNum (Int 9007199254740992); VNum (Int 1)].
Proof. vm_compute. reflexivity. Qed.
